(** * smile2dock: a shallow embedding of [smile2dock.py]

    The script is glue code around RDKit, OpenBabel (pybel) and
    Dimorphite-DL.  The external libraries are kept abstract: they are the
    fields of the class [ChemLibs], each a function of its arguments that
    either returns a value or raises a Python [Exception].  The script's own
    code (sequencing, guards, loops, file names, messages) is translated
    function by function into a small monad that threads the file system,
    collects the observable events (library calls, prints, log records, file
    operations) and propagates exceptions. *)

From Stdlib Require Import List String Ascii Bool Arith ZArith Lia.
From Stdlib Require Import DecimalString.
Import ListNotations.
Local Open Scope string_scope.
Local Open Scope list_scope.
Local Open Scope nat_scope.

Set Implicit Arguments.

(** ** Python strings and POSIX paths *)

Module Py.

(** [str.isspace] on the code points below 256. *)
Definition is_space (c : ascii) : bool :=
  let n := nat_of_ascii c in
  ((9 <=? n) && (n <=? 13)) || ((28 <=? n) && (n <=? 32))
  || (n =? 133) || (n =? 160).

Definition is_empty (s : string) : bool :=
  match s with EmptyString => true | String _ _ => false end.

Fixpoint lstrip (s : string) : string :=
  match s with
  | EmptyString => EmptyString
  | String c s' => if is_space c then lstrip s' else s
  end.

Fixpoint rstrip (s : string) : string :=
  match s with
  | EmptyString => EmptyString
  | String c s' =>
      let r := rstrip s' in
      if is_space c && is_empty r then EmptyString else String c r
  end.

(** [str.strip()] with no argument. *)
Definition strip (s : string) : string := rstrip (lstrip s).

(** Truth value of a [str]. *)
Definition truthy (s : string) : bool := negb (is_empty s).

(** [str(n)] for a non-negative [int]. *)
Definition str_of_nat (n : nat) : string :=
  NilEmpty.string_of_uint (Nat.to_uint n).

Definition slash : ascii := "/"%char.

Definition starts_with_slash (s : string) : bool :=
  match s with String c _ => Ascii.eqb c slash | EmptyString => false end.

Fixpoint ends_with_slash (s : string) : bool :=
  match s with
  | EmptyString => false
  | String c EmptyString => Ascii.eqb c slash
  | String _ s' => ends_with_slash s'
  end.

(** [os.path.join(a, b)] (posixpath). *)
Definition path_join (a b : string) : string :=
  if starts_with_slash b then b
  else if is_empty a || ends_with_slash a then (a ++ b)%string
  else (a ++ "/" ++ b)%string.

(** [p[:p.rfind('/') + 1]] *)
Fixpoint head_upto_last_slash (p : string) : string :=
  match p with
  | EmptyString => EmptyString
  | String c p' =>
      let h := head_upto_last_slash p' in
      if is_empty h then (if Ascii.eqb c slash then String c EmptyString else EmptyString)
      else String c h
  end.

Fixpoint all_slashes (s : string) : bool :=
  match s with
  | EmptyString => true
  | String c s' => Ascii.eqb c slash && all_slashes s'
  end.

Fixpoint rstrip_slashes (s : string) : string :=
  match s with
  | EmptyString => EmptyString
  | String c s' =>
      let r := rstrip_slashes s' in
      if Ascii.eqb c slash && is_empty r then EmptyString else String c r
  end.

(** [os.path.dirname(p)] (posixpath). *)
Definition dirname (p : string) : string :=
  let head := head_upto_last_slash p in
  if truthy head && negb (all_slashes head) then rstrip_slashes head else head.

Definition tab : string := String (ascii_of_nat 9) EmptyString.
Definition newline : string := String (ascii_of_nat 10) EmptyString.

(** [enumerate(xs, start)] *)
Fixpoint enumerate_from {A : Type} (start : nat) (xs : list A) : list (nat * A) :=
  match xs with
  | [] => []
  | x :: xs' => (start, x) :: enumerate_from (S start) xs'
  end.

Definition enumerate {A : Type} (xs : list A) : list (nat * A) := enumerate_from 0 xs.

End Py.

(** ** Exceptions and results *)

(** The Python exceptions the script can meet: the ones the interpreter and
    [os] raise in the script's own code, and whatever a library raises.  All
    of them are subclasses of [Exception], which is what the script's
    [except Exception] clauses catch. *)
Inductive PyExn (LibExn : Type) : Type :=
| IndexError
| TypeError
| FileNotFoundError (path : string)
| FileExistsError (path : string)
| LibError (e : LibExn).

Arguments IndexError {LibExn}.
Arguments TypeError {LibExn}.
Arguments FileNotFoundError {LibExn} path.
Arguments FileExistsError {LibExn} path.

Inductive result (E A : Type) : Type :=
| Ok (a : A)
| Raise (e : E).

Arguments Ok {E A} a.
Arguments Raise {E A} e.

(** The ten descriptor functions of the [properties] dictionary. *)
Inductive Descriptor : Type :=
| ExactMolWt | MolLogP | MolMR | NumHDonors | NumHAcceptors | TPSA
| NumRotatableBonds | CalcNumAliphaticRings | CalcNumAromaticRings
| CalcNumHeterocycles.

(** ** The external libraries *)

Class ChemLibs : Type := {
  Mol : Type;            (* rdkit.Chem.Mol, with its conformers *)
  OBMol : Type;          (* pybel.Molecule *)
  Fingerprint : Type;    (* a bit vector *)
  Num : Type;            (* Python float or int values *)
  LibExn : Type;         (* exceptions raised inside the libraries *)
  float_1_0 : Num;       (* the literal 1.0 *)
  str_num : Num -> string;   (* str() of a number, as an f-string inserts it *)
  (* dimorphite_dl.protonate_smiles(smiles, ph_min, ph_max, precision, max_variants) *)
  dimorphite_protonate_smiles :
    string -> Num -> Num -> Num -> Z -> result (PyExn LibExn) (list string);
  (* Chem.MolFromSmiles: None on a SMILES that does not parse *)
  MolFromSmiles : string -> result (PyExn LibExn) (option Mol);
  AddHs : Mol -> result (PyExn LibExn) Mol;
  (* AllChem.EmbedMultipleConfs(mol, numConfs, randomSeed, enforceChirality):
     the molecule with its new conformers *)
  EmbedMultipleConfs : Mol -> Z -> Z -> bool -> result (PyExn LibExn) Mol;
  GetNumConformers : Mol -> nat;
  (* AllChem.MMFFOptimizeMolecule(mol, confId, mmffVariant, maxIters) works in
     place: the molecule after the call, and the exception if it raised *)
  MMFFOptimizeMolecule : Mol -> nat -> string -> Z -> Mol * option (PyExn LibExn);
  MolToMolBlock : Mol -> result (PyExn LibExn) string;
  (* pybel.readstring(format, data) *)
  pybel_readstring : string -> string -> result (PyExn LibExn) OBMol;
  (* ob_mol.write(format, filename, overwrite): the lines put in the file *)
  pybel_write : OBMol -> string -> string -> bool -> result (PyExn LibExn) (list string);
  descriptor : Descriptor -> Mol -> result (PyExn LibExn) Num;
  (* AllChem.GetMorganFingerprintAsBitVect(mol, radius, nBits) *)
  GetMorganFingerprintAsBitVect : Mol -> Z -> Z -> result (PyExn LibExn) Fingerprint;
  (* FingerprintMols.FingerprintMol(mol) *)
  FingerprintMol : Mol -> result (PyExn LibExn) Fingerprint;
  (* DataStructs.TanimotoSimilarity(fp1, fp2) *)
  TanimotoSimilarity : Fingerprint -> Fingerprint -> result (PyExn LibExn) Num
}.

Section Script.

Context {L : ChemLibs}.

Definition Exn : Type := PyExn LibExn.

(** The [properties] dictionary, in insertion order. *)
Definition Props : Type := list (string * Num).

(** ** Observable events *)

(** The text of every [print], [logging] and [write] of the script, with the
    values its f-string interpolates. *)
Inductive Msg : Type :=
| ErrorProtonating (smiles : string) (e : Exn)
| GeneratedStates (n : nat) (ph_min ph_max : Num)
| VariantLine (i : nat) (variant : string)
| UsingFirst (variant : string)
| InvalidSmiles (smiles : string)
| ConformerFailed (smiles : string) (e : Exn)
| OptimizationFailed (conf_id : nat) (smiles : string) (e : Exn)
| ConversionFailed (e : Exn)
| WriteFailed (output : string) (e : Exn)
| PropertyFailed (e : Exn)
| ErrorProcessing (smiles : string) (e : Exn)
| MoleculesNone
| InvalidReference (reference : string)
| Processed (smiles : string)
| PropertiesDict (props : Props)
| TanimotoScore (similarity : Num)
| StatesSavedTo (path : string)
| GeneratedFiles (names : list string)
| PropertiesHeader
| PropertyLine (k : string) (v : Num)
| StatesHeader (ph_min ph_max : Num)
| StateLine (i : nat) (variant : string).

Inductive Event : Type :=
| CallProtonate (smiles : string) (ph_min ph_max precision : Num) (max_variants : Z)
| CallMolFromSmiles (smiles : string)
| CallAddHs (mol : Mol)
| CallEmbed (mol : Mol) (numConfs randomSeed : Z) (enforceChirality : bool)
| CallMMFF (mol : Mol) (confId : nat) (mmffVariant : string) (maxIters : Z)
| CallMolToMolBlock (mol : Mol)
| CallReadString (fmt data : string)
| CallWrite (ob : OBMol) (fmt output : string) (overwrite : bool)
| CallDescriptor (d : Descriptor) (mol : Mol)
| CallMorgan (mol : Mol) (radius nBits : Z)
| CallFingerprintMol (mol : Mol)
| CallTanimoto (fp1 fp2 : Fingerprint)
| MakeDirs (path : string)
| FileOpenW (path : string)
| FileWrite (path text : string)
| FileClose (path : string)
| Print (m : Msg)
| LogError (m : Msg)
| LogWarning (m : Msg).

(** ** The file system

    Directories that exist, and files with their lines; the first binding of
    a path is the current one. *)
Record FS : Type := mkFS {
  dirs : list string;
  files : list (string * list string)
}.

Fixpoint lookup_file (path : string) (fl : list (string * list string))
  : option (list string) :=
  match fl with
  | [] => None
  | (p, c) :: fl' => if String.eqb p path then Some c else lookup_file path fl'
  end.

Definition mem_string (s : string) (l : list string) : bool :=
  existsb (String.eqb s) l.

(** [os.path.isfile] and [os.path.exists] *)
Definition isfile (path : string) (fs : FS) : bool :=
  match lookup_file path (files fs) with Some _ => true | None => false end.

Definition path_exists (path : string) (fs : FS) : bool :=
  mem_string path (dirs fs) || isfile path fs.

Definition add_dir (path : string) (fs : FS) : FS :=
  if mem_string path (dirs fs) then fs else mkFS (path :: dirs fs) (files fs).

Definition set_file (path : string) (content : list string) (fs : FS) : FS :=
  mkFS (dirs fs) ((path, content) :: files fs).

Definition append_file (path text : string) (fs : FS) : FS :=
  match lookup_file path (files fs) with
  | Some c => set_file path (c ++ [text]) fs
  | None => set_file path [text] fs
  end.

(** ** The monad: file system in, result or exception, file system and
    emitted events out *)

Definition M (A : Type) : Type := FS -> result Exn A * FS * list Event.

Definition outcome {A} (x : result Exn A * FS * list Event) : result Exn A := fst (fst x).
Definition final_fs {A} (x : result Exn A * FS * list Event) : FS := snd (fst x).
Definition events {A} (x : result Exn A * FS * list Event) : list Event := snd x.

Definition ret {A} (a : A) : M A := fun fs => (Ok a, fs, []).

Definition raise {A} (e : Exn) : M A := fun fs => (Raise e, fs, []).

Definition bind {A B} (m : M A) (f : A -> M B) : M B :=
  fun fs =>
    match m fs with
    | (Ok a, fs1, t1) =>
        match f a fs1 with
        | (r, fs2, t2) => (r, fs2, t1 ++ t2)
        end
    | (Raise e, fs1, t1) => (Raise e, fs1, t1)
    end.

(** [try: a = m / except Exception as e: return h e / k a]: the handler's
    value is the function's value, and [k] runs outside the guard. *)
Definition try_then {A B} (m : M A) (h : Exn -> M B) (k : A -> M B) : M B :=
  fun fs =>
    match m fs with
    | (Ok a, fs1, t1) =>
        match k a fs1 with
        | (r, fs2, t2) => (r, fs2, t1 ++ t2)
        end
    | (Raise e, fs1, t1) =>
        match h e fs1 with
        | (r, fs2, t2) => (r, fs2, t1 ++ t2)
        end
    end.

(** [try: m / except Exception as e: h e] *)
Definition try_catch {A} (m : M A) (h : Exn -> M A) : M A :=
  try_then m h ret.

Definition emit (ev : Event) : M unit := fun fs => (Ok tt, fs, [ev]).

(** A call into a library: the call is recorded, its result comes back. *)
Definition call {A} (ev : Event) (r : result Exn A) : M A :=
  fun fs => (r, fs, [ev]).

Definition update_fs (f : FS -> FS) : M unit := fun fs => (Ok tt, f fs, []).

Definition read_fs {A} (f : FS -> A) : M A := fun fs => (Ok (f fs), fs, []).

End Script.

Declare Scope py_scope.
Delimit Scope py_scope with py.
Notation "x <- m ;; k" := (bind m (fun x => k))
  (at level 61, m at next level, right associativity) : py_scope.
Notation "m ;; k" := (bind m (fun _ => k))
  (at level 61, right associativity) : py_scope.
Local Open Scope py_scope.

(** ** The script, function by function *)

Section Functions.

Context {L : ChemLibs}.

Definition print (m : Msg) : M unit := emit (Print m).
Definition log_error (m : Msg) : M unit := emit (LogError m).
Definition log_warning (m : Msg) : M unit := emit (LogWarning m).

(** [for x in xs: f x] *)
Fixpoint for_each {A} (xs : list A) (f : A -> M unit) : M unit :=
  match xs with
  | [] => ret tt
  | x :: xs' => f x ;; for_each xs' f
  end.

(** [xs[0]] *)
Definition index0 {A} (xs : list A) : M A :=
  match xs with
  | [] => raise IndexError
  | x :: _ => ret x
  end.

(** [os.makedirs(path, exist_ok=True)] *)
Definition makedirs (path : string) : M unit :=
  emit (MakeDirs path) ;;
  is_file <- read_fs (isfile path) ;;
  if (is_file : bool) then raise (FileExistsError path)
  else update_fs (add_dir path).

(** [ensure_output_dir], lines 22-26. *)
Definition ensure_output_dir (output_base : string) : M unit :=
  let out_dir := Py.dirname output_base in
  present <- read_fs (path_exists out_dir) ;;
  if Py.truthy out_dir && negb present then makedirs out_dir else ret tt.

(** [protonate_smiles], lines 28-41. *)
Definition protonate_smiles (smiles : string) (ph_min ph_max precision : Num)
    (max_variants : Z) : M (list string) :=
  try_catch
    (call (CallProtonate smiles ph_min ph_max precision max_variants)
          (dimorphite_protonate_smiles smiles ph_min ph_max precision max_variants))
    (fun e => print (ErrorProtonating smiles e) ;; ret [smiles]).

(** What [smiles_to_3d] returns: [mol, properties, protonated_variants],
    each possibly [None]. *)
Definition Ret3 : Type := option Mol * option Props * option (list string).

(** One turn of the loop of lines 80-89. *)
Definition optimize_conformer (smiles : string) (mol : Mol) (conf_id : nat) : M Mol :=
  emit (CallMMFF mol conf_id "MMFF94s" 1000%Z) ;;
  match MMFFOptimizeMolecule mol conf_id "MMFF94s" 1000%Z with
  | (mol', None) => ret mol'
  | (mol', Some e) => log_warning (OptimizationFailed conf_id smiles e) ;; ret mol'
  end.

(** [for conf_id in range(mol.GetNumConformers())], lines 80-89; the molecule
    is updated in place by each call. *)
Fixpoint optimize_conformers (smiles : string) (mol : Mol) (conf_ids : list nat) : M Mol :=
  match conf_ids with
  | [] => ret mol
  | conf_id :: rest =>
      mol' <- optimize_conformer smiles mol conf_id ;;
      optimize_conformers smiles mol' rest
  end.

(** One turn of the loop of lines 103-108. *)
Definition write_format (ob_mol : OBMol) (output_base fmt : string) : M unit :=
  let output := (output_base ++ "." ++ fmt)%string in
  try_catch
    (content <- call (CallWrite ob_mol fmt output true) (pybel_write ob_mol fmt output true) ;;
     update_fs (set_file output content))
    (fun e => log_error (WriteFailed output e)).

Definition formats : list string := ["pdb"; "mol2"; "sdf"; "pdbqt"].

(** The keys and functions of the dictionary of lines 112-123. *)
Definition descriptor_table : list (string * Descriptor) :=
  [ ("Molecular Weight", ExactMolWt);
    ("Crippen_LogP", MolLogP);
    ("Crippen_MR", MolMR);
    ("H-Bond Donors", NumHDonors);
    ("H-Bond Acceptors", NumHAcceptors);
    ("TPSA", TPSA);
    ("Rotatable Bonds", NumRotatableBonds);
    ("#Aliphatic Rings", CalcNumAliphaticRings);
    ("#Aromatic Rings", CalcNumAromaticRings);
    ("#Heteroaromatic Rings", CalcNumHeterocycles) ].

(** The dictionary display: the values are computed in order, the first
    exception ends it. *)
Fixpoint compute_properties (mol : Mol) (table : list (string * Descriptor)) : M Props :=
  match table with
  | [] => ret []
  | (key, d) :: table' =>
      v <- call (CallDescriptor d mol) (descriptor d mol) ;;
      rest <- compute_properties mol table' ;;
      ret ((key, v) :: rest)
  end.

(** Lines 61-128 of [smiles_to_3d]: everything after the choice of the
    SMILES, with the value of [protonated_variants] at that point. *)
Definition generate_3d (smiles output_base : string) (num_confs : Z) (optimize : bool)
    (protonated_variants : option (list string)) : M Ret3 :=
  parsed <- call (CallMolFromSmiles smiles) (MolFromSmiles smiles) ;;
  match parsed with
  | None =>
      log_error (InvalidSmiles smiles) ;;
      ret (None, None, protonated_variants)
  | Some mol0 =>
      mol1 <- call (CallAddHs mol0) (AddHs mol0) ;;
      try_then
        (call (CallEmbed mol1 num_confs 42%Z true) (EmbedMultipleConfs mol1 num_confs 42%Z true))
        (fun e =>
           log_error (ConformerFailed smiles e) ;;
           ret (None, None, protonated_variants))
        (fun mol2 =>
           mol <- (if optimize
                   then optimize_conformers smiles mol2 (seq 0 (GetNumConformers mol2))
                   else ret mol2) ;;
           try_then
             (sdf_data <- call (CallMolToMolBlock mol) (MolToMolBlock mol) ;;
              call (CallReadString "mol" sdf_data) (pybel_readstring "mol" sdf_data))
             (fun e =>
                log_error (ConversionFailed e) ;;
                ret (None, None, protonated_variants))
             (fun ob_mol =>
                ensure_output_dir output_base ;;
                for_each formats (write_format ob_mol output_base) ;;
                properties <- try_catch (compute_properties mol descriptor_table)
                                (fun e => log_error (PropertyFailed e) ;; ret []) ;;
                ret (Some mol, Some properties, protonated_variants)))
  end.

(** The outer [except Exception] of lines 130-132, with the values the locals
    [smiles] and [protonated_variants] have when the exception arrives. *)
Definition on_error (smiles : string) (protonated_variants : option (list string))
    (e : Exn) : M Ret3 :=
  log_error (ErrorProcessing smiles e) ;;
  ret (None, None, protonated_variants).

(** [smiles_to_3d], lines 43-132.  The outer [try] is split where a local the
    handler reads is assigned: [protonated_variants] at line 49, [smiles] at
    line 57. *)
Definition smiles_to_3d (smiles output_base : string) (num_confs : Z)
    (optimize protonate : bool) (ph_min ph_max : Num) : M Ret3 :=
  if protonate then
    try_then (protonate_smiles smiles ph_min ph_max float_1_0 128%Z)
      (on_error smiles None)
      (fun variants =>
         try_then
           (print (GeneratedStates (List.length variants) ph_min ph_max) ;;
            for_each (Py.enumerate variants)
              (fun iv => print (VariantLine (fst iv + 1) (snd iv))) ;;
            (if 1 <? List.length variants
             then first <- index0 variants ;; print (UsingFirst first)
             else ret tt) ;;
            index0 variants)
           (on_error smiles (Some variants))
           (fun smiles' =>
              try_catch (generate_3d smiles' output_base num_confs optimize (Some variants))
                (on_error smiles' (Some variants))))
  else
    try_catch (generate_3d smiles output_base num_confs optimize (Some [smiles]))
      (on_error smiles (Some [smiles])).

(** [calculate_tanimoto_similarity], lines 134-145. *)
Definition calculate_tanimoto_similarity (mol1 mol2 : option Mol) (fp_type : string)
    (radius n_bits : Z) : M (option Num) :=
  match mol1, mol2 with
  | Some m1, Some m2 =>
      fps <- (if String.eqb fp_type "morgan"
              then fp1 <- call (CallMorgan m1 radius n_bits)
                               (GetMorganFingerprintAsBitVect m1 radius n_bits) ;;
                   fp2 <- call (CallMorgan m2 radius n_bits)
                               (GetMorganFingerprintAsBitVect m2 radius n_bits) ;;
                   ret (fp1, fp2)
              else fp1 <- call (CallFingerprintMol m1) (FingerprintMol m1) ;;
                   fp2 <- call (CallFingerprintMol m2) (FingerprintMol m2) ;;
                   ret (fp1, fp2)) ;;
      similarity <- call (CallTanimoto (fst fps) (snd fps))
                         (TanimotoSimilarity (fst fps) (snd fps)) ;;
      ret (Some similarity)
  | _, _ =>
      log_warning MoleculesNone ;;
      ret None
  end.

(** Truth values: an [Optional[str]], a dictionary or [None], a list or
    [None]. *)
Definition truthy_opt_str (s : option string) : bool :=
  match s with Some s' => Py.truthy s' | None => false end.

Definition truthy_props (p : option Props) : bool :=
  match p with Some (_ :: _) => true | _ => false end.

Definition truthy_list {A} (l : option (list A)) : bool :=
  match l with Some (_ :: _) => true | _ => false end.

(** [open(path, 'w')], [f.write(text)], [f.close()] *)
Definition open_w (path : string) : M unit :=
  emit (FileOpenW path) ;; update_fs (set_file path []).

Definition file_write (path text : string) : M unit :=
  emit (FileWrite path text) ;; update_fs (append_file path text).

Definition file_close (path : string) : M unit := emit (FileClose path).

(** [open(path)] for reading, with the lines the iteration yields. *)
Definition open_r (path : string) : M (list string) :=
  content <- read_fs (fun fs => lookup_file path (files fs)) ;;
  match content with
  | Some lines => ret lines
  | None => raise (FileNotFoundError path)
  end.

Definition states_header : string :=
  ("Original_SMILES" ++ Py.tab ++ "Protonated_SMILES" ++ Py.tab ++ "pH_Range" ++ Py.newline)%string.

Definition states_row (smiles variant : string) (ph_min ph_max : Num) : string :=
  (smiles ++ Py.tab ++ variant ++ Py.tab ++ str_num ph_min ++ "-" ++ str_num ph_max
   ++ Py.newline)%string.

(** The body of the loop of [batch_process], lines 166-185, for the line
    [line] at index [idx] of the file. *)
Definition process_line (output_dir : string) (ref_mol : option Mol) (fp_type : string)
    (radius n_bits : Z) (protonate : bool) (ph_min ph_max : Num) (num_confs : Z)
    (protonation_file : option string) (idx : nat) (line : string) : M unit :=
  let smiles := Py.strip line in
  if Py.truthy smiles then
    let base_name := Py.path_join output_dir ("mol_" ++ Py.str_of_nat (idx + 1))%string in
    res <- smiles_to_3d smiles base_name num_confs true protonate ph_min ph_max ;;
    let mol := fst (fst res) in
    let props := snd (fst res) in
    let protonated_variants := snd res in
    if truthy_props props then
      print (Processed smiles) ;;
      print (PropertiesDict (match props with Some p => p | None => [] end)) ;;
      (match protonation_file with
       | Some path =>
           if protonate && truthy_list protonated_variants
           then for_each (match protonated_variants with Some l => l | None => [] end)
                  (fun variant => file_write path (states_row smiles variant ph_min ph_max))
           else ret tt
       | None => ret tt
       end) ;;
      (match ref_mol with
       | Some _ =>
           similarity <- calculate_tanimoto_similarity mol ref_mol fp_type radius n_bits ;;
           match similarity with
           | Some s => print (TanimotoScore s)
           | None => ret tt
           end
       | None => ret tt
       end)
    else ret tt
  else ret tt.

(** The loop of [batch_process], lines 165-185, over the lines of the file. *)
Definition batch_loop (output_dir : string) (ref_mol : option Mol) (fp_type : string)
    (radius n_bits : Z) (protonate : bool) (ph_min ph_max : Num) (num_confs : Z)
    (protonation_file : option string) (lines : list string) : M unit :=
  for_each (Py.enumerate lines)
    (fun il => process_line output_dir ref_mol fp_type radius n_bits protonate ph_min ph_max
                 num_confs protonation_file (fst il) (snd il)).

(** [batch_process], lines 147-189. *)
Definition batch_process (input_file output_dir : string) (reference_smiles : option string)
    (fp_type : string) (radius n_bits : Z) (protonate : bool) (ph_min ph_max : Num)
    (num_confs : Z) : M unit :=
  ref_mol <- (match reference_smiles with
              | Some reference =>
                  if Py.truthy reference then
                    parsed <- call (CallMolFromSmiles reference) (MolFromSmiles reference) ;;
                    match parsed with
                    | None => log_error (InvalidReference reference) ;; ret None
                    | Some m => ret (Some m)
                    end
                  else ret None
              | None => ret None
              end) ;;
  protonation_file <- (if protonate
                       then let path := Py.path_join output_dir "protonation_states.txt" in
                            open_w path ;;
                            file_write path states_header ;;
                            ret (Some path)
                       else ret None) ;;
  lines <- open_r input_file ;;
  batch_loop output_dir ref_mol fp_type radius n_bits protonate ph_min ph_max num_confs
    protonation_file lines ;;
  match protonation_file with
  | Some path =>
      file_close path ;;
      print (StatesSavedTo (Py.path_join output_dir "protonation_states.txt"))
  | None => ret tt
  end.

(** [single_process], lines 191-218. *)
Definition single_process (smiles output_base : string) (num_confs : Z)
    (reference_smiles : option string) (fp_type : string) (radius n_bits : Z)
    (protonate : bool) (ph_min ph_max : Num) : M unit :=
  res <- smiles_to_3d smiles output_base num_confs true protonate ph_min ph_max ;;
  let mol := fst (fst res) in
  let props := snd (fst res) in
  let protonated_variants := snd res in
  if truthy_props props then
    print (GeneratedFiles (map (fun fmt => (output_base ++ "." ++ fmt)%string) formats)) ;;
    print PropertiesHeader ;;
    for_each (match props with Some p => p | None => [] end)
      (fun kv => print (PropertyLine (fst kv) (snd kv))) ;;
    (if protonate && truthy_list protonated_variants
     then print (StatesHeader ph_min ph_max) ;;
          for_each (Py.enumerate_from 1 (match protonated_variants with Some l => l | None => [] end))
            (fun iv => print (StateLine (fst iv) (snd iv)))
     else ret tt) ;;
    (match reference_smiles with
     | Some reference =>
         if Py.truthy reference then
           ref_mol <- call (CallMolFromSmiles reference) (MolFromSmiles reference) ;;
           match ref_mol with
           | Some _ =>
               similarity <- calculate_tanimoto_similarity mol ref_mol fp_type radius n_bits ;;
               match similarity with
               | Some s => print (TanimotoScore s)
               | None => ret tt
               end
           | None => print (InvalidReference reference)
           end
         else ret tt
     | None => ret tt
     end)
  else ret tt.

(** [is_valid_smiles], lines 220-222. *)
Definition is_valid_smiles (smiles : string) : M bool :=
  parsed <- call (CallMolFromSmiles smiles) (MolFromSmiles smiles) ;;
  ret (match parsed with Some _ => true | None => false end).

(** The command line, lines 226-248, after [parse_args]. *)
Record Args : Type := mkArgs {
  arg_input : option string;
  arg_output : string;
  arg_num_confs : Z;
  arg_protonate : bool;
  arg_ph_min : Num;
  arg_ph_max : Num;
  arg_precision : Num;
  arg_max_variants : Z;
  arg_reference : option string;
  arg_fp_type : string;
  arg_radius : Z;
  arg_bits : Z
}.

(** The main block, lines 250-260. *)
Definition main (args : Args) : M unit :=
  match arg_input args with
  | None => raise TypeError
  | Some input =>
      is_file <- read_fs (isfile input) ;;
      if (is_file : bool) then
        makedirs (arg_output args) ;;
        batch_process input (arg_output args) (arg_reference args) (arg_fp_type args)
          (arg_radius args) (arg_bits args) (arg_protonate args) (arg_ph_min args)
          (arg_ph_max args) (arg_num_confs args)
      else
        single_process input (arg_output args) (arg_num_confs args) (arg_reference args)
          (arg_fp_type args) (arg_radius args) (arg_bits args) (arg_protonate args)
          (arg_ph_min args) (arg_ph_max args)
  end.

End Functions.

(** ** A toy instance of the libraries, to run the script on *)

Module Toy.

Record ToyMol : Type := mkToyMol {
  t_smiles : string;
  t_hs : bool;
  t_confs : nat;
  t_optimized : nat
}.

Definition toy_exn (s : string) : PyExn string := LibError s.

Definition toy_protonate (smiles : string) (ph_min ph_max precision : Z) (max_variants : Z)
  : result (PyExn string) (list string) :=
  if String.eqb smiles "CC(=O)O" then Ok ["CC(=O)[O-]"; "CC(=O)O"]
  else if String.eqb smiles "CN" then Raise (toy_exn "dimorphite")
  else Ok [smiles].

Definition toy_parse (smiles : string) : result (PyExn string) (option ToyMol) :=
  if String.eqb smiles "XX" then Ok None
  else Ok (Some (mkToyMol smiles false 0 0)).

Definition toy_embed (m : ToyMol) (n seed : Z) (chir : bool) : result (PyExn string) ToyMol :=
  if String.eqb (t_smiles m) "noembed" then Raise (toy_exn "embed")
  else Ok (mkToyMol (t_smiles m) (t_hs m) 2 0).

Definition toy_mmff (m : ToyMol) (c : nat) (v : string) (it : Z) : ToyMol * option (PyExn string) :=
  (mkToyMol (t_smiles m) (t_hs m) (t_confs m) (S (t_optimized m)), None).

Definition toy_molblock (m : ToyMol) : result (PyExn string) string :=
  if String.eqb (t_smiles m) "noblock" then Raise (toy_exn "molblock")
  else Ok (t_smiles m).

Definition toy_descriptor (d : Descriptor) (m : ToyMol) : result (PyExn string) Z :=
  if String.eqb (t_smiles m) "noprops" then Raise (toy_exn "descriptor")
  else Ok (Z.of_nat (t_confs m)).

Definition toy_morgan (m : ToyMol) (radius n_bits : Z) : result (PyExn string) string :=
  if (n_bits <=? 0)%Z then Raise (toy_exn "nBits")
  else Ok (t_smiles m).

#[export] Instance libs : ChemLibs := {|
  Mol := ToyMol;
  OBMol := string;
  Fingerprint := string;
  Num := Z;
  LibExn := string;
  float_1_0 := 1%Z;
  str_num := fun _ => "7";
  dimorphite_protonate_smiles := toy_protonate;
  MolFromSmiles := toy_parse;
  AddHs := fun m => Ok (mkToyMol (t_smiles m) true (t_confs m) (t_optimized m));
  EmbedMultipleConfs := toy_embed;
  GetNumConformers := t_confs;
  MMFFOptimizeMolecule := toy_mmff;
  MolToMolBlock := toy_molblock;
  pybel_readstring := fun _ data => Ok data;
  pybel_write := fun ob fmt _ _ => Ok [ob; fmt];
  descriptor := toy_descriptor;
  GetMorganFingerprintAsBitVect := toy_morgan;
  FingerprintMol := fun m => Ok (t_smiles m);
  TanimotoSimilarity := fun a b => Ok (if String.eqb a b then 1%Z else 0%Z)
|}.

(** A molecule, as the script sees it. *)
Definition mol (smiles : string) (hs : bool) (confs optimized : nat) : @Mol libs :=
  mkToyMol smiles hs confs optimized.

(** A fingerprint, as the script sees it. *)
Definition fp (s : string) : @Fingerprint libs := s.

(** A library exception, as the script sees it. *)
Definition raised (s : string) : Exn (L := libs) := LibError s.

Definition empty_fs : FS := mkFS [] [].

(** A file system with a three-line input file whose second line is blank. *)
Definition batch_fs : FS :=
  mkFS ["out"] [("in.smi", [("CCO" ++ Py.newline)%string; Py.newline; ("CC" ++ Py.newline)%string])].


(** The file system [batch_fs] after an earlier run left files behind. *)
Definition later_fs : FS :=
  mkFS ["out"; "old"]
    [("out/mol_1.pdb", ["stale"]);
     ("in.smi", [("CCO" ++ Py.newline)%string; Py.newline; ("CC" ++ Py.newline)%string])].

Definition args_for (input : string) (protonate : bool) (reference : option string)
  : Args (L := libs) :=
  mkArgs (L := libs) (Some input) "output" 10%Z protonate 6%Z 8%Z 1%Z 128%Z reference
    "morgan" 2%Z 2048%Z.

End Toy.

(** ** Judgments on computations and predicates on traces *)

Section Predicates.

Context {L : ChemLibs}.

(** Every emitted event satisfies [p], and a normal return satisfies [Q]. *)
Definition spec {A} (p : Event -> Prop) (Q : A -> Prop) (m : M A) : Prop :=
  forall fs,
    Forall p (events (m fs)) /\
    match outcome (m fs) with Ok a => Q a | Raise _ => True end.

(** The computation returns normally from every file system. *)
Definition total {A} (m : M A) : Prop :=
  forall fs, exists a, outcome (m fs) = Ok a.

(** The stages of the pipeline a library call or file operation belongs to.
    Prints and log records belong to none. *)
Inductive Stage : Type :=
| StProtonate | StParse | StEmbed | StOptimize | StExport | StDescriptors
| StSimilarity | StOutput.

Definition is_result_msg (m : Msg) : bool :=
  match m with
  | Processed _ | PropertiesDict _ | TanimotoScore _ | StatesSavedTo _
  | GeneratedFiles _ | PropertiesHeader | PropertyLine _ _ | StatesHeader _ _
  | StateLine _ _ => true
  | _ => false
  end.

Definition stage_of (ev : Event) : option Stage :=
  match ev with
  | CallProtonate _ _ _ _ _ => Some StProtonate
  | CallMolFromSmiles _ | CallAddHs _ => Some StParse
  | CallEmbed _ _ _ _ => Some StEmbed
  | CallMMFF _ _ _ _ => Some StOptimize
  | CallMolToMolBlock _ | CallReadString _ _ | MakeDirs _ | CallWrite _ _ _ _ => Some StExport
  | CallDescriptor _ _ => Some StDescriptors
  | CallMorgan _ _ _ | CallFingerprintMol _ | CallTanimoto _ _ => Some StSimilarity
  | FileOpenW _ | FileWrite _ _ | FileClose _ => Some StOutput
  | Print m => if is_result_msg m then Some StOutput else None
  | LogError _ | LogWarning _ => None
  end.

Fixpoint stages (t : list Event) : list Stage :=
  match t with
  | [] => []
  | ev :: t' =>
      match stage_of ev with
      | Some s => s :: stages t'
      | None => stages t'
      end
  end.

(** The order the code follows. *)
Definition pipeline_rank (s : Stage) : nat :=
  match s with
  | StProtonate => 0 | StParse => 1 | StEmbed => 2 | StOptimize => 3
  | StExport => 4 | StDescriptors => 5 | StOutput => 6 | StSimilarity => 7
  end.

(** The order of the specification: parse, protonate, embed, optimize,
    export, descriptors, similarity, outputs. *)
Definition claimed_rank (s : Stage) : nat :=
  match s with
  | StParse => 0 | StProtonate => 1 | StEmbed => 2 | StOptimize => 3
  | StExport => 4 | StDescriptors => 5 | StSimilarity => 6 | StOutput => 7
  end.

Fixpoint ascending (l : list nat) : bool :=
  match l with
  | [] => true
  | x :: l' =>
      match l' with
      | [] => true
      | y :: _ => (x <=? y) && ascending l'
      end
  end.

Definition ordered_by (rank : Stage -> nat) (t : list Event) : bool :=
  ascending (map rank (stages t)).

(** The ranks of [l] ascend and stay between [lo] and [hi]. *)
Fixpoint ascends (lo hi : nat) (l : list nat) : Prop :=
  match l with
  | [] => lo <= hi
  | x :: l' => lo <= x /\ ascends x hi l'
  end.

Definition staged {A} (lo hi : nat) (m : M A) : Prop :=
  forall fs, ascends lo hi (map pipeline_rank (stages (events (m fs)))).

(** The event belongs to a stage between [lo] and [hi], or to none. *)
Definition in_stage (lo hi : nat) (ev : Event) : Prop :=
  match stage_of ev with
  | Some s => lo <= pipeline_rank s /\ pipeline_rank s <= hi
  | None => lo <= hi
  end.

(** Reports of results, and the steps of similarity scoring. *)
Definition is_report (ev : Event) : bool :=
  match ev with
  | Print (Processed _) | Print (PropertiesDict _) | Print (GeneratedFiles _)
  | Print PropertiesHeader | Print (PropertyLine _ _) | Print (StatesHeader _ _)
  | Print (StateLine _ _) | FileWrite _ _ => true
  | _ => false
  end.

Definition is_similarity_step (ev : Event) : bool :=
  match ev with
  | CallMolFromSmiles _ | CallMorgan _ _ _ | CallFingerprintMol _ | CallTanimoto _ _
  | Print (TanimotoScore _) | Print (InvalidReference _) | LogWarning MoleculesNone => true
  | _ => false
  end.

(** Events of similarity computation proper. *)
Definition is_similarity (ev : Event) : bool :=
  match ev with
  | CallMorgan _ _ _ | CallFingerprintMol _ | CallTanimoto _ _
  | Print (TanimotoScore _) | LogWarning MoleculesNone => true
  | _ => false
  end.

Definition is_mmff (ev : Event) : bool :=
  match ev with CallMMFF _ _ _ _ => true | _ => false end.

Definition is_protonate_call (ev : Event) : bool :=
  match ev with CallProtonate _ _ _ _ _ => true | _ => false end.


(** The events are some reports followed by some similarity steps. *)
Definition report_then_similarity (t : list Event) : Prop :=
  exists t1 t2, t = t1 ++ t2 /\
    Forall (fun ev => is_report ev = true) t1 /\
    Forall (fun ev => is_similarity_step ev = true) t2.

Definition two_phase {A} (m : M A) : Prop :=
  forall fs, report_then_similarity (events (m fs)).

(** What lines 61-128 may emit, for the SMILES [smiles] they work on. *)
Definition generate_footprint (smiles output_base : string) (num_confs : Z)
    (optimize : bool) (ev : Event) : Prop :=
  match ev with
  | CallMolFromSmiles s => s = smiles
  | CallAddHs m => MolFromSmiles smiles = Ok (Some m)
  | CallEmbed m n seed chir =>
      n = num_confs /\ seed = 42%Z /\ chir = true /\
      exists m0, MolFromSmiles smiles = Ok (Some m0) /\ AddHs m0 = Ok m
  | CallMMFF _ _ variant iters =>
      optimize = true /\ variant = "MMFF94s" /\ iters = 1000%Z
  | CallMolToMolBlock m =>
      optimize = false -> exists m1, EmbedMultipleConfs m1 num_confs 42%Z true = Ok m
  | CallReadString fmt _ => fmt = "mol"
  | CallWrite _ fmt output overwrite =>
      In fmt formats /\ output = (output_base ++ "." ++ fmt)%string /\ overwrite = true
  | CallDescriptor _ _ => True
  | MakeDirs path => path = Py.dirname output_base
  | LogError _ | LogWarning (OptimizationFailed _ _ _) => True
  | _ => False
  end.

(** What the protonation branch of lines 48-57 may emit. *)
Definition protonation_footprint (smiles : string) (ph_min ph_max : Num) (ev : Event) : Prop :=
  match ev with
  | CallProtonate s lo hi precision max_variants =>
      s = smiles /\ lo = ph_min /\ hi = ph_max /\ precision = float_1_0 /\
      max_variants = 128%Z
  | Print (ErrorProtonating _ _) | Print (GeneratedStates _ _ _)
  | Print (VariantLine _ _) | Print (UsingFirst _) => True
  | LogError (ErrorProcessing _ _) => True
  | _ => False
  end.

(** What [smiles_to_3d] may emit. *)
Definition smiles_to_3d_footprint (smiles output_base : string) (num_confs : Z)
    (optimize protonate : bool) (ph_min ph_max : Num) (ev : Event) : Prop :=
  (protonate = true /\ protonation_footprint smiles ph_min ph_max ev) \/
  (exists s, (protonate = false -> s = smiles) /\
             generate_footprint s output_base num_confs optimize ev).

(** The molecule after the loop of lines 80-89. *)
Fixpoint optimized_mol (mol : Mol) (conf_ids : list nat) : Mol :=
  match conf_ids with
  | [] => mol
  | conf_id :: rest =>
      optimized_mol (fst (MMFFOptimizeMolecule mol conf_id "MMFF94s" 1000%Z)) rest
  end.

(** The molecule that is exported, from the embedded one. *)
Definition exported_mol (optimize : bool) (mol : Mol) : Mol :=
  if optimize then optimized_mol mol (seq 0 (GetNumConformers mol)) else mol.

(** The value of the dictionary display of lines 112-123. *)
Fixpoint properties_result (mol : Mol) (table : list (string * Descriptor))
  : result Exn Props :=
  match table with
  | [] => Ok []
  | (key, d) :: table' =>
      match descriptor d mol with
      | Ok v =>
          match properties_result mol table' with
          | Ok rest => Ok ((key, v) :: rest)
          | Raise e => Raise e
          end
      | Raise e => Raise e
      end
  end.

(** The events a later run can tell apart from an earlier one: all but the
    creation of a missing output directory. *)
Definition is_makedirs (ev : Event) : bool :=
  match ev with MakeDirs _ => true | _ => false end.




(** The file a batch run writes for line [i] (counted from 0) in format
    [fmt]. *)
Definition batch_output (output_dir : string) (i : nat) (fmt : string) : string :=
  (Py.path_join output_dir ("mol_" ++ Py.str_of_nat (i + 1)) ++ "." ++ fmt)%string.


(** [smiles_to_3d]'s value with another variant list. *)
Definition with_variants (variants : option (list string)) (r : result Exn Ret3)
  : result Exn Ret3 :=
  match r with
  | Ok (mol, props, _) => Ok (mol, props, variants)
  | Raise e => Raise e
  end.

(** What lines 50-56 print for the variant list [variants]. *)
Definition protonation_messages (variants : list string) (ph_min ph_max : Num)
  : list Event :=
  Print (GeneratedStates (List.length variants) ph_min ph_max)
  :: map (fun iv => Print (VariantLine (fst iv + 1) (snd iv))) (Py.enumerate variants)
  ++ (if 1 <? List.length variants
      then match variants with v :: _ => [Print (UsingFirst v)] | [] => [] end
      else []).

(** The SMILES lines 61-128 work on: the input, or the first variant that
    [protonate_smiles] returns (the input itself when the library raised);
    none when the variant list is empty. *)
Definition chosen_smiles (smiles : string) (protonate : bool) (ph_min ph_max : Num)
  : option string :=
  if protonate then
    match dimorphite_protonate_smiles smiles ph_min ph_max float_1_0 128%Z with
    | Ok (first :: _) => Some first
    | Ok [] => None
    | Raise _ => Some smiles
    end
  else Some smiles.

(** The names of the files a run writes through OpenBabel, in order. *)
Definition written_files (t : list Event) : list string :=
  flat_map (fun ev => match ev with CallWrite _ _ output _ => [output] | _ => [] end) t.

End Predicates.

(** ** Further judgments and predicates *)

From Stdlib Require Import DecimalNat.

Section MorePredicates.

Context {L : ChemLibs}.

(** Every emitted event satisfies [p], a normal return satisfies [Q], an
    exception that leaves the computation satisfies [E]. *)
Definition spec_exn {A} (p : Event -> Prop) (Q : A -> Prop) (E : Exn -> Prop) (m : M A)
  : Prop :=
  forall fs,
    Forall p (events (m fs)) /\
    match outcome (m fs) with Ok a => Q a | Raise e => E e end.

(** The file system after the computation is related to the one before. *)
Definition preserves {A} (R : FS -> FS -> Prop) (m : M A) : Prop :=
  forall fs, R fs (final_fs (m fs)).

(** The variant list [smiles_to_3d] works with after lines 48-59. *)
Definition variants_of (smiles : string) (protonate : bool) (ph_min ph_max : Num)
  : list string :=
  if protonate then
    match dimorphite_protonate_smiles smiles ph_min ph_max float_1_0 128%Z with
    | Ok variants => variants
    | Raise _ => [smiles]
    end
  else [smiles].

(** The four files of an output base name, in the order of line 103. *)
Definition output_names (output_base : string) : list string :=
  map (fun fmt => (output_base ++ "." ++ fmt)%string) formats.

(** What [smiles_to_3d] returns: the variant list of lines 48-59, and either
    no molecule and no properties, or the molecule parsed from the chosen
    SMILES, with hydrogens, embedded and (when asked) optimized, with its
    properties or an empty dictionary. *)
Definition returned_by (smiles : string) (num_confs : Z) (optimize protonate : bool)
    (ph_min ph_max : Num) (r : Ret3) : Prop :=
  snd r = Some (variants_of smiles protonate ph_min ph_max) /\
  match fst r with
  | (None, None) => True
  | (Some mol, Some props) =>
      exists chosen mol0 mol1 mol2,
        chosen_smiles smiles protonate ph_min ph_max = Some chosen /\
        MolFromSmiles chosen = Ok (Some mol0) /\
        AddHs mol0 = Ok mol1 /\
        EmbedMultipleConfs mol1 num_confs 42%Z true = Ok mol2 /\
        mol = exported_mol optimize mol2 /\
        (properties_result mol descriptor_table = Ok props \/
         (props = [] /\ exists e, properties_result mol descriptor_table = Raise e))
  | _ => False
  end.

(** A message of failure is backed by the failure it reports. *)
Definition log_backed (smiles output_base : string) (num_confs : Z)
    (optimize protonate : bool) (ph_min ph_max : Num) (ev : Event) : Prop :=
  let chosen s := chosen_smiles smiles protonate ph_min ph_max = Some s in
  match ev with
  | Print (ErrorProtonating s e) =>
      protonate = true /\ s = smiles /\
      dimorphite_protonate_smiles smiles ph_min ph_max float_1_0 128%Z = Raise e
  | LogError (InvalidSmiles s) => chosen s /\ MolFromSmiles s = Ok None
  | LogError (ConformerFailed s e) =>
      chosen s /\ exists mol, EmbedMultipleConfs mol num_confs 42%Z true = Raise e
  | LogError (ConversionFailed e) =>
      (exists mol, MolToMolBlock mol = Raise e) \/
      (exists data, pybel_readstring "mol" data = Raise e)
  | LogError (WriteFailed output e) =>
      exists ob_mol fmt,
        In fmt formats /\ output = (output_base ++ "." ++ fmt)%string /\
        pybel_write ob_mol fmt output true = Raise e
  | LogError (PropertyFailed e) =>
      exists mol, properties_result mol descriptor_table = Raise e
  | LogError (ErrorProcessing s e) =>
      (protonate = true /\ s = smiles /\ e = IndexError /\
       dimorphite_protonate_smiles smiles ph_min ph_max float_1_0 128%Z = Ok []) \/
      (chosen s /\ (MolFromSmiles s = Raise e \/ exists mol, AddHs mol = Raise e))
  | LogError _ => False
  | LogWarning (OptimizationFailed conf_id s e) =>
      chosen s /\ optimize = true /\
      exists mol, snd (MMFFOptimizeMolecule mol conf_id "MMFF94s" 1000%Z) = Some e
  | LogWarning _ => False
  | _ => True
  end.

(** The events and the files of the loop of lines 103-108. *)
Fixpoint write_events (ob_mol : OBMol) (output_base : string) (fmts : list string)
  : list Event :=
  match fmts with
  | [] => []
  | fmt :: rest =>
      let output := (output_base ++ "." ++ fmt)%string in
      CallWrite ob_mol fmt output true
      :: match pybel_write ob_mol fmt output true with
         | Ok _ => write_events ob_mol output_base rest
         | Raise e => LogError (WriteFailed output e) :: write_events ob_mol output_base rest
         end
  end.

Fixpoint write_files (ob_mol : OBMol) (output_base : string) (fmts : list string) (fs : FS)
  : FS :=
  match fmts with
  | [] => fs
  | fmt :: rest =>
      let output := (output_base ++ "." ++ fmt)%string in
      match pybel_write ob_mol fmt output true with
      | Ok content => write_files ob_mol output_base rest (set_file output content fs)
      | Raise _ => write_files ob_mol output_base rest fs
      end
  end.

(** Files outside [allowed] keep their content (or stay absent), and nothing
    that exists disappears. *)
Definition only_touches (allowed : string -> Prop) (fs fs' : FS) : Prop :=
  (forall path, ~ allowed path ->
     lookup_file path (files fs') = lookup_file path (files fs)) /\
  (forall path, path_exists path fs = true -> path_exists path fs' = true).

(** Strings of white space, and strings of decimal digits. *)
Fixpoint all_space (s : string) : bool :=
  match s with
  | EmptyString => true
  | String c s' => Py.is_space c && all_space s'
  end.

Definition is_digit (c : ascii) : bool :=
  let n := nat_of_ascii c in (48 <=? n) && (n <=? 57).

Fixpoint digits_only (s : string) : bool :=
  match s with
  | EmptyString => true
  | String c s' => is_digit c && digits_only s'
  end.

Definition is_write (ev : Event) : bool :=
  match ev with CallWrite _ _ _ _ => true | _ => false end.

(** The names of the files a computation tries to write are determined by
    how it ends. *)
Definition attempts {A} (F : result Exn A -> list string) (m : M A) : Prop :=
  forall fs, written_files (events (m fs)) = F (outcome (m fs)).

(** The files [smiles_to_3d] tries to write: the four of the base name when
    it returns a molecule, none otherwise. *)
Definition attempted (output_base : string) (r : result Exn Ret3) : list string :=
  match r with
  | Ok (Some _, _, _) => output_names output_base
  | _ => []
  end.

(** The files [smiles_to_3d] may create or change. *)
Definition output_paths (output_base : string) (path : string) : Prop :=
  In path (output_names output_base).

(** The files a batch run into [output_dir] may create or change. *)
Definition batch_paths (output_dir : string) (path : string) : Prop :=
  (exists i, output_paths
               (Py.path_join output_dir ("mol_" ++ Py.str_of_nat (i + 1))%string) path) \/
  path = Py.path_join output_dir "protonation_states.txt".

(** A postcondition on the file system before, the way the computation ends,
    and the file system after. *)
Definition post {A} (Q : FS -> result Exn A -> FS -> Prop) (m : M A) : Prop :=
  forall fs, Q fs (outcome (m fs)) (final_fs (m fs)).

(** The files after [smiles_to_3d]: when a molecule comes back it went through
    [MolToMolBlock] and [pybel.readstring], and the files are those before
    with the successful writes of the loop of lines 103-108 added; otherwise
    the files are those before. *)
Definition export_post (output_base : string) (fs : FS) (r : result Exn Ret3) (fs' : FS)
  : Prop :=
  match r with
  | Ok (Some mol, _, _) =>
      exists sdf ob_mol,
        MolToMolBlock mol = Ok sdf /\ pybel_readstring "mol" sdf = Ok ob_mol /\
        files fs' = files (write_files ob_mol output_base formats fs)
  | _ => files fs' = files fs
  end.

(** The files a run of the main block may create or change: in batch mode
    (the input names a file) those of [batch_paths], otherwise those of the
    output base name. *)
Definition run_paths (args : Args) (fs : FS) (path : string) : Prop :=
  match arg_input args with
  | Some input =>
      if isfile input fs then batch_paths (arg_output args) path
      else output_paths (arg_output args) path
  | None => False
  end.

(** The options of a run as they reach the libraries: the arguments of every
    library call that takes an option. *)
Definition plumbed (num_confs : Z) (fp_type : string) (radius n_bits : Z) (protonate : bool)
    (ph_min ph_max : Num) (ev : Event) : Prop :=
  match ev with
  | CallProtonate _ lo hi precision max_variants =>
      protonate = true /\ lo = ph_min /\ hi = ph_max /\
      precision = float_1_0 /\ max_variants = 128%Z
  | CallEmbed _ n seed chir => n = num_confs /\ seed = 42%Z /\ chir = true
  | CallMMFF _ _ variant iters => variant = "MMFF94s" /\ iters = 1000%Z
  | CallReadString fmt _ => fmt = "mol"
  | CallWrite _ fmt _ overwrite => In fmt formats /\ overwrite = true
  | CallMorgan _ r b => r = radius /\ b = n_bits /\ fp_type = "morgan"
  | CallFingerprintMol _ => fp_type <> "morgan"
  | _ => True
  end.

(** The conformer ids of the MMFF calls, in order. *)
Definition mmff_ids (t : list Event) : list nat :=
  flat_map (fun ev => match ev with CallMMFF _ c _ _ => [c] | _ => [] end) t.

(** Opening and closing of files, among the events of a run. *)
Definition is_open_close (ev : Event) : bool :=
  match ev with FileOpenW _ | FileClose _ => true | _ => false end.


(** The reference molecule of lines 150-156, before the test for [None]. *)
Definition reference_parse (reference : option string) : result Exn (option Mol) :=
  match reference with
  | Some r => if Py.truthy r then MolFromSmiles r else Ok None
  | None => Ok None
  end.

(** What is written to the file of protonation states [path] in a batch run
    over [lines]: the header, or a row with the stripped text of a line, one
    of the variants [smiles_to_3d] returns for it, and the range of pH. *)
Definition states_line (path : string) (lines : list string) (ph_min ph_max : Num)
    (ev : Event) : Prop :=
  match ev with
  | FileWrite p text =>
      p = path /\
      (text = states_header \/
       exists line variant,
         In line lines /\
         In variant (variants_of (Py.strip line) true ph_min ph_max) /\
         text = states_row (Py.strip line) variant ph_min ph_max)
  | _ => True
  end.

Definition is_file_write (ev : Event) : bool :=
  match ev with FileWrite _ _ => true | _ => false end.

End MorePredicates.

(** ** More of the toy libraries *)

(** The properties the toy libraries compute for a molecule with two
    conformers. *)
Definition toy_props : @Props Toy.libs :=
  map (fun kd => (fst kd, 2%Z)) descriptor_table.

(** The toy libraries with a Dimorphite-DL that finds no variant at all. *)
Definition barren_libs : ChemLibs := {|
  Mol := @Mol Toy.libs;
  OBMol := @OBMol Toy.libs;
  Fingerprint := @Fingerprint Toy.libs;
  Num := @Num Toy.libs;
  LibExn := @LibExn Toy.libs;
  float_1_0 := @float_1_0 Toy.libs;
  str_num := @str_num Toy.libs;
  dimorphite_protonate_smiles := fun _ _ _ _ _ => Ok [];
  MolFromSmiles := @MolFromSmiles Toy.libs;
  AddHs := @AddHs Toy.libs;
  EmbedMultipleConfs := @EmbedMultipleConfs Toy.libs;
  GetNumConformers := @GetNumConformers Toy.libs;
  MMFFOptimizeMolecule := @MMFFOptimizeMolecule Toy.libs;
  MolToMolBlock := @MolToMolBlock Toy.libs;
  pybel_readstring := @pybel_readstring Toy.libs;
  pybel_write := @pybel_write Toy.libs;
  descriptor := @descriptor Toy.libs;
  GetMorganFingerprintAsBitVect := @GetMorganFingerprintAsBitVect Toy.libs;
  FingerprintMol := @FingerprintMol Toy.libs;
  TanimotoSimilarity := @TanimotoSimilarity Toy.libs
|}.

(** A file system in which the output path of [Toy.args_for] is a regular
    file. *)
Definition clash_fs : FS :=
  mkFS [] [("in.smi", [("CCO" ++ Py.newline)%string]); ("output", [])].

(** ** Rules of the judgments *)

(** Case analysis on an innermost [match] of the goal. *)
Ltac destruct_scrutinee :=
  match goal with
  | |- context [match ?x with _ => _ end] =>
      lazymatch x with
      | context [match _ with _ => _ end] => fail
      | _ => destruct x eqn:?
      end
  end.


Section Rules.

Context {L : ChemLibs}.

Lemma events_bind A B (m : M A) (f : A -> M B) fs :
  events (bind m f fs) =
  events (m fs) ++
  match outcome (m fs) with
  | Ok a => events (f a (final_fs (m fs)))
  | Raise _ => []
  end.
Proof.
  unfold bind, events, outcome, final_fs.
  destruct (m fs) as [[[a|e] fs1] t1]; simpl.
  - destruct (f a fs1) as [[r fs2] t2]; reflexivity.
  - now rewrite app_nil_r.
Qed.

Lemma outcome_bind A B (m : M A) (f : A -> M B) fs :
  outcome (bind m f fs) =
  match outcome (m fs) with
  | Ok a => outcome (f a (final_fs (m fs)))
  | Raise e => Raise e
  end.
Proof.
  unfold bind, events, outcome, final_fs.
  destruct (m fs) as [[[a|e] fs1] t1]; simpl; auto.
  destruct (f a fs1) as [[r fs2] t2]; reflexivity.
Qed.

Lemma events_try_then A B (m : M A) (h : Exn -> M B) (k : A -> M B) fs :
  events (try_then m h k fs) =
  events (m fs) ++
  match outcome (m fs) with
  | Ok a => events (k a (final_fs (m fs)))
  | Raise e => events (h e (final_fs (m fs)))
  end.
Proof.
  unfold try_then, events, outcome, final_fs.
  destruct (m fs) as [[[a|e] fs1] t1]; simpl.
  - destruct (k a fs1) as [[r fs2] t2]; reflexivity.
  - destruct (h e fs1) as [[r fs2] t2]; reflexivity.
Qed.

Lemma outcome_try_then A B (m : M A) (h : Exn -> M B) (k : A -> M B) fs :
  outcome (try_then m h k fs) =
  match outcome (m fs) with
  | Ok a => outcome (k a (final_fs (m fs)))
  | Raise e => outcome (h e (final_fs (m fs)))
  end.
Proof.
  unfold try_then, events, outcome, final_fs.
  destruct (m fs) as [[[a|e] fs1] t1]; simpl.
  - destruct (k a fs1) as [[r fs2] t2]; reflexivity.
  - destruct (h e fs1) as [[r fs2] t2]; reflexivity.
Qed.

Lemma try_catch_ok A (m : M A) (h : Exn -> M A) fs a fs' t :
  m fs = (Ok a, fs', t) -> try_catch m h fs = (Ok a, fs', t).
Proof.
  intros H. unfold try_catch, try_then, ret. rewrite H. now rewrite app_nil_r.
Qed.

Lemma for_each_print A (f : A -> Msg) (xs : list A) fs :
  for_each xs (fun x => print (f x)) fs = (Ok tt, fs, map (fun x => Print (f x)) xs).
Proof.
  induction xs as [|x xs IH]; simpl; [reflexivity|].
  unfold bind. unfold print at 1. unfold emit. now rewrite IH.
Qed.

(** *** [spec] *)

Lemma spec_ret A (p : Event -> Prop) (Q : A -> Prop) a : Q a -> spec p Q (ret a).
Proof. intros H fs; split; simpl; auto. Qed.

Lemma spec_raise A (p : Event -> Prop) (Q : A -> Prop) e : spec p Q (raise e).
Proof. intros fs; split; simpl; auto. Qed.

Lemma spec_emit (p : Event -> Prop) (Q : unit -> Prop) ev :
  p ev -> Q tt -> spec p Q (emit ev).
Proof. intros H HQ fs; split; simpl; auto. Qed.

Lemma spec_call A (p : Event -> Prop) (Q : A -> Prop) ev (r : result Exn A) :
  p ev -> (forall a, r = Ok a -> Q a) -> spec p Q (call ev r).
Proof.
  intros H HQ fs; split; simpl; auto.
  unfold outcome; simpl. destruct r; auto.
Qed.

Lemma spec_update_fs (p : Event -> Prop) (Q : unit -> Prop) f :
  Q tt -> spec p Q (update_fs f).
Proof. intros HQ fs; split; simpl; auto. Qed.

Lemma spec_read_fs A (p : Event -> Prop) (Q : A -> Prop) (f : FS -> A) :
  (forall fs, Q (f fs)) -> spec p Q (read_fs f).
Proof. intros HQ fs; split; simpl; auto. Qed.

Lemma spec_bind A B (p : Event -> Prop) (Q1 : A -> Prop) (Q : B -> Prop)
    (m : M A) (f : A -> M B) :
  spec p Q1 m -> (forall a, Q1 a -> spec p Q (f a)) -> spec p Q (bind m f).
Proof.
  intros Hm Hf fs. rewrite events_bind, outcome_bind.
  destruct (Hm fs) as [Ht Hq].
  destruct (outcome (m fs)) as [a|e].
  - destruct (Hf a Hq (final_fs (m fs))) as [Ht2 Hq2].
    split; auto. apply Forall_app; auto.
  - rewrite app_nil_r; auto.
Qed.

Lemma spec_try_then A B (p : Event -> Prop) (Q1 : A -> Prop) (Q : B -> Prop)
    (m : M A) (h : Exn -> M B) (k : A -> M B) :
  spec p Q1 m -> (forall e, spec p Q (h e)) -> (forall a, Q1 a -> spec p Q (k a)) ->
  spec p Q (try_then m h k).
Proof.
  intros Hm Hh Hk fs. rewrite events_try_then, outcome_try_then.
  destruct (Hm fs) as [Ht Hq].
  destruct (outcome (m fs)) as [a|e].
  - destruct (Hk a Hq (final_fs (m fs))) as [Ht2 Hq2].
    split; auto. apply Forall_app; auto.
  - destruct (Hh e (final_fs (m fs))) as [Ht2 Hq2].
    split; auto. apply Forall_app; auto.
Qed.

Lemma spec_try_catch A (p : Event -> Prop) (Q : A -> Prop) (m : M A) (h : Exn -> M A) :
  spec p Q m -> (forall e, spec p Q (h e)) -> spec p Q (try_catch m h).
Proof.
  intros Hm Hh. unfold try_catch.
  apply spec_try_then with (Q1 := Q); auto.
  intros a Ha. now apply spec_ret.
Qed.

Lemma spec_weaken A (p p' : Event -> Prop) (Q Q' : A -> Prop) (m : M A) :
  spec p Q m -> (forall ev, p ev -> p' ev) -> (forall a, Q a -> Q' a) -> spec p' Q' m.
Proof.
  intros Hm Hp HQ fs. destruct (Hm fs) as [Ht Hq]. split.
  - eapply Forall_impl; eauto.
  - destruct (outcome (m fs)); auto.
Qed.

Lemma spec_for_each A (p : Event -> Prop) (xs : list A) (f : A -> M unit) :
  (forall x, In x xs -> spec p (fun _ => True) (f x)) ->
  spec p (fun _ => True) (for_each xs f).
Proof.
  induction xs as [|x xs IH]; intros H; simpl.
  - now apply spec_ret.
  - apply spec_bind with (Q1 := fun _ => True).
    + apply H; now left.
    + intros _ _. apply IH. intros y Hy. apply H. now right.
Qed.

Lemma spec_events A (p : Event -> Prop) (Q : A -> Prop) (m : M A) fs :
  spec p Q m -> Forall p (events (m fs)).
Proof. intros H. apply H. Qed.

Lemma spec_outcome A (p : Event -> Prop) (Q : A -> Prop) (m : M A) fs a :
  spec p Q m -> outcome (m fs) = Ok a -> Q a.
Proof. intros H E. destruct (H fs) as [_ Hq]. now rewrite E in Hq. Qed.

(** *** [total] *)

Lemma total_ret A (a : A) : total (ret a).
Proof. intros fs; now exists a. Qed.

Lemma total_emit ev : total (emit ev).
Proof. intros fs; now exists tt. Qed.

Lemma total_bind A B (m : M A) (f : A -> M B) :
  total m -> (forall a, total (f a)) -> total (bind m f).
Proof.
  intros Hm Hf fs. rewrite outcome_bind.
  destruct (Hm fs) as [a Ha]. rewrite Ha. apply Hf.
Qed.

Lemma total_try_then A B (m : M A) (h : Exn -> M B) (k : A -> M B) :
  (forall e, total (h e)) -> (forall a, total (k a)) -> total (try_then m h k).
Proof.
  intros Hh Hk fs. rewrite outcome_try_then.
  destruct (outcome (m fs)); [apply Hk | apply Hh].
Qed.

Lemma total_try_catch A (m : M A) (h : Exn -> M A) :
  (forall e, total (h e)) -> total (try_catch m h).
Proof.
  intros Hh. apply total_try_then; auto. intros a. apply total_ret.
Qed.

Lemma spec_bind_call A B (p : Event -> Prop) (Q : B -> Prop) ev (r : result Exn A)
    (f : A -> M B) :
  p ev -> (forall a, r = Ok a -> spec p Q (f a)) -> spec p Q (bind (call ev r) f).
Proof.
  intros Hp Hf. apply spec_bind with (Q1 := fun a => r = Ok a); auto.
  apply spec_call; auto.
Qed.

Lemma spec_seq A B (p : Event -> Prop) (Q : B -> Prop) (m : M A) (f : A -> M B) :
  spec p (fun _ => True) m -> (forall a, spec p Q (f a)) -> spec p Q (bind m f).
Proof. intros Hm Hf. eapply spec_bind; eauto. Qed.

Lemma spec_any A (p : Event -> Prop) (Q : A -> Prop) (m : M A) :
  spec p Q m -> spec p (fun _ => True) m.
Proof. intros H. eapply spec_weaken; eauto. Qed.

(** *** The script's loops and helpers under [spec] *)

Lemma spec_optimize_conformers (p : Event -> Prop) smiles conf_ids : forall mol,
  (forall m c, p (CallMMFF m c "MMFF94s" 1000%Z)) ->
  (forall c e, p (LogWarning (OptimizationFailed c smiles e))) ->
  spec p (fun mol' => mol' = optimized_mol mol conf_ids)
    (optimize_conformers smiles mol conf_ids).
Proof.
  induction conf_ids as [|c rest IH]; intros mol Hc Hw; simpl.
  - now apply spec_ret.
  - apply spec_bind
      with (Q1 := fun m' => m' = fst (MMFFOptimizeMolecule mol c "MMFF94s" 1000%Z)).
    + unfold optimize_conformer. apply spec_seq.
      * apply spec_emit; auto.
      * intros _. destruct (MMFFOptimizeMolecule mol c "MMFF94s" 1000%Z) as [m' [e|]]; simpl.
        -- apply spec_seq; [apply spec_emit; auto | intros _; now apply spec_ret].
        -- now apply spec_ret.
    + intros m' ->. apply IH; auto.
Qed.

Lemma spec_compute_properties (p : Event -> Prop) mol table :
  (forall d, p (CallDescriptor d mol)) ->
  spec p (fun props => properties_result mol table = Ok props)
    (compute_properties mol table).
Proof.
  intros Hd. induction table as [|[key d] table IH]; simpl.
  - now apply spec_ret.
  - apply spec_bind_call; auto. intros v Hv.
    eapply spec_bind; [exact IH|]. intros rest Hrest.
    apply spec_ret. now rewrite Hv, Hrest.
Qed.

Lemma spec_write_format (p : Event -> Prop) ob_mol output_base fmt :
  p (CallWrite ob_mol fmt (output_base ++ "." ++ fmt)%string true) ->
  (forall e, p (LogError (WriteFailed (output_base ++ "." ++ fmt)%string e))) ->
  spec p (fun _ => True) (write_format ob_mol output_base fmt).
Proof.
  intros Hw He. unfold write_format.
  apply spec_try_catch.
  - apply spec_bind_call; auto. intros c _. now apply spec_update_fs.
  - intros e. apply spec_emit; auto.
Qed.

Lemma spec_makedirs (p : Event -> Prop) path :
  p (MakeDirs path) -> spec p (fun _ => True) (makedirs path).
Proof.
  intros H. unfold makedirs.
  apply spec_seq; [apply spec_emit; auto|]. intros _.
  apply spec_seq; [apply spec_read_fs; auto|]. intros [|].
  - apply spec_raise.
  - now apply spec_update_fs.
Qed.

Lemma spec_ensure_output_dir (p : Event -> Prop) output_base :
  p (MakeDirs (Py.dirname output_base)) ->
  spec p (fun _ => True) (ensure_output_dir output_base).
Proof.
  intros H. unfold ensure_output_dir.
  apply spec_seq; [apply spec_read_fs; auto|]. intros present.
  destruct (Py.truthy (Py.dirname output_base) && negb present).
  - now apply spec_makedirs.
  - now apply spec_ret.
Qed.

Lemma spec_generate_3d smiles output_base num_confs optimize variants :
  spec (generate_footprint smiles output_base num_confs optimize)
    (fun r => snd r = variants)
    (generate_3d smiles output_base num_confs optimize variants).
Proof.
  unfold generate_3d.
  apply spec_bind_call; [reflexivity|]. intros [mol0|] Hparse.
  2:{ apply spec_seq; [apply spec_emit; simpl; auto|]. intros _. now apply spec_ret. }
  apply spec_bind_call; [exact Hparse|]. intros mol1 Hhs.
  apply spec_try_then with (Q1 := fun m => EmbedMultipleConfs mol1 num_confs 42%Z true = Ok m).
  - apply spec_call; simpl; eauto 8.
  - intros e. apply spec_seq; [apply spec_emit; simpl; auto|]. intros _. now apply spec_ret.
  - intros mol2 Hembed.
    apply spec_bind with (Q1 := fun m => optimize = false -> m = mol2).
    + destruct optimize.
      * eapply spec_weaken;
          [apply spec_optimize_conformers with (p := generate_footprint smiles output_base num_confs true)
          | auto | simpl; intros; discriminate ]; simpl; auto.
      * apply spec_ret; auto.
    + intros mol Hmol.
      apply spec_try_then with (Q1 := fun _ => True).
      * apply spec_bind_call.
        -- simpl. intros Ho. rewrite (Hmol Ho). eauto.
        -- intros sdf _. apply spec_call; simpl; auto.
      * intros e. apply spec_seq; [apply spec_emit; simpl; auto|]. intros _. now apply spec_ret.
      * intros ob_mol _.
        apply spec_seq; [apply spec_ensure_output_dir; reflexivity|]. intros _.
        apply spec_seq.
        { apply spec_for_each. intros fmt Hfmt. apply spec_write_format; simpl; auto. }
        intros _.
        apply spec_seq.
        { apply spec_try_catch.
          - eapply spec_any. apply spec_compute_properties. simpl; auto.
          - intros e. apply spec_seq; [apply spec_emit; simpl; auto|]. intros _. now apply spec_ret. }
        intros props. now apply spec_ret.
Qed.

Lemma spec_on_error (p : Event -> Prop) smiles variants e :
  p (LogError (ErrorProcessing smiles e)) ->
  spec p (fun r : Ret3 => snd r = variants) (on_error smiles variants e).
Proof.
  intros H. unfold on_error.
  apply spec_seq; [apply spec_emit; auto|]. intros _. now apply spec_ret.
Qed.

Lemma spec_protonate_smiles (p : Event -> Prop) smiles ph_min ph_max precision max_variants :
  p (CallProtonate smiles ph_min ph_max precision max_variants) ->
  (forall e, p (Print (ErrorProtonating smiles e))) ->
  spec p (fun _ => True) (protonate_smiles smiles ph_min ph_max precision max_variants).
Proof.
  intros Hc He. unfold protonate_smiles.
  apply spec_try_catch.
  - apply spec_call; auto.
  - intros e. apply spec_seq; [apply spec_emit; auto|]. intros _. now apply spec_ret.
Qed.

Lemma spec_smiles_to_3d smiles output_base num_confs optimize protonate ph_min ph_max :
  spec (smiles_to_3d_footprint smiles output_base num_confs optimize protonate ph_min ph_max)
    (fun r => protonate = false -> snd r = Some [smiles])
    (smiles_to_3d smiles output_base num_confs optimize protonate ph_min ph_max).
Proof.
  unfold smiles_to_3d. destruct protonate.
  - assert (Hp : forall ev, protonation_footprint smiles ph_min ph_max ev ->
                   smiles_to_3d_footprint smiles output_base num_confs optimize true
                     ph_min ph_max ev)
      by (intros ev H; left; auto).
    apply spec_try_then with (Q1 := fun _ => True).
    + apply spec_protonate_smiles; [|intros e]; apply Hp; simpl; auto 10.
    + intros e. eapply spec_weaken; [apply spec_on_error with (variants := None)| |];
        [apply Hp; simpl; auto|auto|intros; discriminate].
    + intros variants _.
      apply spec_try_then with (Q1 := fun _ => True).
      * apply spec_seq; [apply spec_emit; auto; apply Hp; simpl; auto|]. intros _.
        apply spec_seq.
        { apply spec_for_each. intros iv _. apply spec_emit; auto. apply Hp; simpl; auto. }
        intros _. apply spec_seq.
        { destruct (1 <? List.length variants).
          - apply spec_seq with (p := smiles_to_3d_footprint smiles output_base num_confs
                                        optimize true ph_min ph_max).
            + destruct variants; [apply spec_raise | now apply spec_ret].
            + intros first. apply spec_emit; auto. apply Hp; simpl; auto.
          - now apply spec_ret. }
        intros _. destruct variants; [apply spec_raise | now apply spec_ret].
      * intros e. eapply spec_weaken; [apply spec_on_error with (variants := Some variants)| |];
          [apply Hp; simpl; auto|auto|intros; discriminate].
      * intros smiles' _. apply spec_try_catch.
        -- eapply spec_weaken; [apply spec_generate_3d| |]; simpl.
           ++ intros ev H. right. exists smiles'. split; [discriminate|exact H].
           ++ intros; discriminate.
        -- intros e.
           eapply spec_weaken;
             [apply spec_on_error
                with (variants := Some variants)
                     (p := smiles_to_3d_footprint smiles output_base num_confs optimize true
                             ph_min ph_max)| |];
             [right; exists smiles'; split; [discriminate|simpl; auto]|auto|intros; discriminate].
  - apply spec_try_catch.
    + eapply spec_weaken; [apply spec_generate_3d| |]; simpl.
      * intros ev H. right. exists smiles. split; [auto|exact H].
      * auto.
    + intros e.
      eapply spec_weaken;
        [apply spec_on_error
           with (variants := Some [smiles])
                (p := smiles_to_3d_footprint smiles output_base num_confs optimize false
                        ph_min ph_max)| |];
        [right; exists smiles; split; [auto|simpl; auto]|auto|auto].
Qed.

(** *** Totality of [smiles_to_3d] *)

Lemma total_on_error smiles variants e : total (on_error smiles variants e).
Proof.
  unfold on_error. apply total_bind; [apply total_emit | intros; apply total_ret].
Qed.

Lemma total_smiles_to_3d smiles output_base num_confs optimize protonate ph_min ph_max :
  total (smiles_to_3d smiles output_base num_confs optimize protonate ph_min ph_max).
Proof.
  unfold smiles_to_3d. destruct protonate.
  - apply total_try_then; [intros; apply total_on_error|]. intros variants.
    apply total_try_then; [intros; apply total_on_error|]. intros smiles'.
    apply total_try_catch. intros; apply total_on_error.
  - apply total_try_catch. intros; apply total_on_error.
Qed.

(** *** The variant list is only carried along by lines 61-128 *)

Lemma generate_3d_variants smiles output_base num_confs optimize variants variants' fs :
  generate_3d smiles output_base num_confs optimize variants fs =
  (with_variants variants
     (outcome (generate_3d smiles output_base num_confs optimize variants' fs)),
   final_fs (generate_3d smiles output_base num_confs optimize variants' fs),
   events (generate_3d smiles output_base num_confs optimize variants' fs)).
Proof.
  unfold generate_3d, try_catch, try_then, bind, call, log_error, emit, ret,
    outcome, final_fs, events, with_variants.
  repeat (destruct_scrutinee; simpl); reflexivity.
Qed.

Lemma guarded_generate_3d_variants smiles output_base num_confs optimize variants variants' fs :
  try_catch (generate_3d smiles output_base num_confs optimize variants)
    (on_error smiles variants) fs =
  (with_variants variants
     (outcome (try_catch (generate_3d smiles output_base num_confs optimize variants')
                 (on_error smiles variants') fs)),
   final_fs (try_catch (generate_3d smiles output_base num_confs optimize variants')
               (on_error smiles variants') fs),
   events (try_catch (generate_3d smiles output_base num_confs optimize variants')
             (on_error smiles variants') fs)).
Proof.
  unfold try_catch, try_then.
  rewrite (generate_3d_variants smiles output_base num_confs optimize variants variants' fs).
  destruct (generate_3d smiles output_base num_confs optimize variants' fs) as [[[[[m p] v]|e] fs1] t1];
    reflexivity.
Qed.

End Rules.

(** ** Stage order *)

Section Staging.

Context {L : ChemLibs}.

Lemma ascends_le lo hi l : ascends lo hi l -> lo <= hi.
Proof.
  revert lo. induction l as [|x l IH]; simpl; intros lo H; [exact H|].
  destruct H as [H1 H2]. apply IH in H2. lia.
Qed.

Lemma ascends_weaken lo hi lo' hi' l :
  lo' <= lo -> hi <= hi' -> ascends lo hi l -> ascends lo' hi' l.
Proof.
  revert lo lo'. induction l as [|x l IH]; simpl; intros lo lo' H1 H2 H; [lia|].
  destruct H as [Hx Hl]. split; [lia|]. apply IH with (lo := x); auto.
Qed.

Lemma ascends_app lo mid hi l1 l2 :
  ascends lo mid l1 -> ascends mid hi l2 -> ascends lo hi (l1 ++ l2).
Proof.
  revert lo. induction l1 as [|x l1 IH]; simpl; intros lo H1 H2.
  - apply ascends_weaken with (lo := mid) (hi := hi); auto.
  - destruct H1 as [Hx Hl]. split; auto.
Qed.

Lemma ascends_ascending lo hi l : ascends lo hi l -> ascending l = true.
Proof.
  revert lo. induction l as [|x l IH]; simpl; intros lo H; [reflexivity|].
  destruct H as [_ H]. destruct l as [|y l]; [reflexivity|].
  apply andb_true_intro. split.
  - apply Nat.leb_le. simpl in H. tauto.
  - apply IH with (lo := x). exact H.
Qed.

Lemma stages_app (t1 t2 : list Event) : stages (t1 ++ t2) = stages t1 ++ stages t2.
Proof.
  induction t1 as [|ev t1 IH]; simpl; [reflexivity|].
  destruct (stage_of ev); simpl; now rewrite IH.
Qed.

Lemma ascends_single lo hi ev :
  in_stage lo hi ev -> ascends lo hi (map pipeline_rank (stages [ev])).
Proof.
  unfold in_stage. simpl. destruct (stage_of ev); simpl; tauto.
Qed.

Lemma staged_ret A lo hi (a : A) : lo <= hi -> staged lo hi (ret a).
Proof. intros H fs. exact H. Qed.

Lemma staged_raise A lo hi e : lo <= hi -> staged lo hi (raise (A := A) e).
Proof. intros H fs. exact H. Qed.

Lemma staged_update_fs lo hi f : lo <= hi -> staged lo hi (update_fs f).
Proof. intros H fs. exact H. Qed.

Lemma staged_read_fs A lo hi (f : FS -> A) : lo <= hi -> staged lo hi (read_fs f).
Proof. intros H fs. exact H. Qed.

Lemma staged_emit lo hi ev : in_stage lo hi ev -> staged lo hi (emit ev).
Proof. intros H fs. now apply ascends_single. Qed.

Lemma staged_call A lo hi ev (r : result Exn A) : in_stage lo hi ev -> staged lo hi (call ev r).
Proof. intros H fs. now apply ascends_single. Qed.

Lemma staged_weaken A lo hi lo' hi' (m : M A) :
  lo' <= lo -> hi <= hi' -> staged lo hi m -> staged lo' hi' m.
Proof. intros H1 H2 H fs. eapply ascends_weaken; eauto. Qed.

Lemma staged_bind A B lo mid hi (m : M A) (f : A -> M B) :
  mid <= hi -> staged lo mid m -> (forall a, staged mid hi (f a)) -> staged lo hi (bind m f).
Proof.
  intros Hle Hm Hf fs. rewrite events_bind, stages_app, map_app.
  apply ascends_app with (mid := mid); [apply Hm|].
  destruct (outcome (m fs)); [apply Hf | exact Hle].
Qed.

Lemma staged_try_then A B lo mid hi (m : M A) (h : Exn -> M B) (k : A -> M B) :
  staged lo mid m -> (forall e, staged mid hi (h e)) -> (forall a, staged mid hi (k a)) ->
  staged lo hi (try_then m h k).
Proof.
  intros Hm Hh Hk fs. rewrite events_try_then, stages_app, map_app.
  apply ascends_app with (mid := mid); [apply Hm|].
  destruct (outcome (m fs)); [apply Hk | apply Hh].
Qed.

Lemma staged_try_catch A lo mid hi (m : M A) (h : Exn -> M A) :
  mid <= hi -> staged lo mid m -> (forall e, staged mid hi (h e)) ->
  staged lo hi (try_catch m h).
Proof.
  intros Hle Hm Hh. unfold try_catch. apply staged_try_then with (mid := mid); auto.
  intros a. now apply staged_ret.
Qed.

Lemma staged_for_each A r (xs : list A) (f : A -> M unit) :
  (forall x, staged r r (f x)) -> staged r r (for_each xs f).
Proof.
  intros H. induction xs as [|x xs IH]; simpl.
  - now apply staged_ret.
  - apply staged_bind with (mid := r); auto.
Qed.

Lemma staged_log A r (m : Msg) (a : A) : staged r r (log_error m ;; ret a).
Proof.
  apply staged_bind with (mid := r); auto.
  - apply staged_emit. unfold in_stage; simpl; auto.
  - intros _. now apply staged_ret.
Qed.

Lemma staged_optimize_conformers smiles conf_ids : forall mol,
  staged 3 3 (optimize_conformers smiles mol conf_ids).
Proof.
  induction conf_ids as [|c rest IH]; intros mol; simpl.
  - now apply staged_ret.
  - apply staged_bind with (mid := 3); auto.
    unfold optimize_conformer. apply staged_bind with (mid := 3); auto.
    + apply staged_emit. unfold in_stage; simpl; auto.
    + intros _. destruct (MMFFOptimizeMolecule mol c "MMFF94s" 1000%Z) as [m' [e|]].
      * apply staged_bind with (mid := 3); auto.
        -- apply staged_emit. unfold in_stage; simpl; auto.
        -- intros _. now apply staged_ret.
      * now apply staged_ret.
Qed.

Lemma staged_compute_properties mol table : staged 5 5 (compute_properties mol table).
Proof.
  induction table as [|[key d] table IH]; simpl.
  - now apply staged_ret.
  - apply staged_bind with (mid := 5); auto.
    + apply staged_call. unfold in_stage; simpl; auto.
    + intros v. apply staged_bind with (mid := 5); auto.
      intros rest. now apply staged_ret.
Qed.

Lemma staged_ensure_output_dir output_base : staged 4 4 (ensure_output_dir output_base).
Proof.
  unfold ensure_output_dir.
  apply staged_bind with (mid := 4); auto; [now apply staged_read_fs|]. intros present.
  destruct (Py.truthy (Py.dirname output_base) && negb present); [|now apply staged_ret].
  unfold makedirs. apply staged_bind with (mid := 4); auto.
  - apply staged_emit. unfold in_stage; simpl; auto.
  - intros _. apply staged_bind with (mid := 4); auto; [now apply staged_read_fs|].
    intros [|]; [now apply staged_raise | now apply staged_update_fs].
Qed.

Lemma staged_write_format ob_mol output_base fmt :
  staged 4 4 (write_format ob_mol output_base fmt).
Proof.
  unfold write_format. apply staged_try_catch with (mid := 4); auto.
  - apply staged_bind with (mid := 4); auto.
    + apply staged_call. unfold in_stage; simpl; auto.
    + intros c. now apply staged_update_fs.
  - intros e. apply staged_emit. unfold in_stage; simpl; auto.
Qed.

Lemma staged_generate_3d smiles output_base num_confs optimize variants :
  staged 1 5 (generate_3d smiles output_base num_confs optimize variants).
Proof.
  unfold generate_3d.
  apply staged_bind with (mid := 1); [lia| |].
  { apply staged_call. unfold in_stage; simpl; auto. }
  intros [mol0|].
  2:{ apply staged_weaken with (lo := 1) (hi := 1); [lia|lia|]. apply staged_log. }
  apply staged_bind with (mid := 1); [lia| |].
  { apply staged_call. unfold in_stage; simpl; auto. }
  intros mol1.
  apply staged_try_then with (mid := 2).
  { apply staged_call. unfold in_stage; simpl; lia. }
  { intros e. apply staged_weaken with (lo := 2) (hi := 2); [lia|lia|]. apply staged_log. }
  intros mol2.
  apply staged_bind with (mid := 3); [lia| |].
  { destruct optimize.
    - apply staged_weaken with (lo := 3) (hi := 3); [lia|lia|].
      apply staged_optimize_conformers.
    - apply staged_ret. lia. }
  intros mol.
  apply staged_try_then with (mid := 4).
  { apply staged_bind with (mid := 4); [lia| |].
    - apply staged_call. unfold in_stage; simpl; lia.
    - intros sdf. apply staged_call. unfold in_stage; simpl; lia. }
  { intros e. apply staged_weaken with (lo := 4) (hi := 4); [lia|lia|]. apply staged_log. }
  intros ob_mol.
  apply staged_bind with (mid := 4); [lia|apply staged_ensure_output_dir|]. intros _.
  apply staged_bind with (mid := 4); [lia| |].
  { apply staged_for_each. intros fmt. apply staged_write_format. }
  intros _.
  apply staged_bind with (mid := 5); [lia| |].
  { apply staged_try_catch with (mid := 5); [lia| |].
    - apply staged_weaken with (lo := 5) (hi := 5); [lia|lia|].
      apply staged_compute_properties.
    - intros e. apply staged_log. }
  intros props. apply staged_ret. lia.
Qed.

Lemma staged_on_error r smiles variants e : staged r r (on_error smiles variants e).
Proof. unfold on_error. apply staged_log. Qed.

Lemma staged_smiles_to_3d smiles output_base num_confs optimize protonate ph_min ph_max :
  staged 0 5 (smiles_to_3d smiles output_base num_confs optimize protonate ph_min ph_max).
Proof.
  unfold smiles_to_3d. destruct protonate.
  - apply staged_try_then with (mid := 0).
    + unfold protonate_smiles. apply staged_try_catch with (mid := 0); [lia| |].
      * apply staged_call. unfold in_stage; simpl; auto.
      * intros e. apply staged_bind with (mid := 0); [lia| |].
        -- apply staged_emit. unfold in_stage; simpl; auto.
        -- intros _. now apply staged_ret.
    + intros e. apply staged_weaken with (lo := 0) (hi := 0); [lia|lia|].
      apply staged_on_error.
    + intros variants. apply staged_try_then with (mid := 0).
      * apply staged_bind with (mid := 0); [lia| |].
        { apply staged_emit. unfold in_stage; simpl; auto. }
        intros _. apply staged_bind with (mid := 0); [lia| |].
        { apply staged_for_each. intros iv. apply staged_emit. unfold in_stage; simpl; auto. }
        intros _. apply staged_bind with (mid := 0); [lia| |].
        { destruct (1 <? List.length variants); [|now apply staged_ret].
          apply staged_bind with (mid := 0); [lia| |].
          - destruct variants; [now apply staged_raise | now apply staged_ret].
          - intros v. apply staged_emit. unfold in_stage; simpl; auto. }
        intros _. destruct variants; [now apply staged_raise | now apply staged_ret].
      * intros e. apply staged_weaken with (lo := 0) (hi := 0); [lia|lia|].
        apply staged_on_error.
      * intros smiles'. apply staged_try_catch with (mid := 5); [lia| |].
        -- apply staged_weaken with (lo := 1) (hi := 5); [lia|lia|].
           apply staged_generate_3d.
        -- intros e. apply staged_on_error.
  - apply staged_try_catch with (mid := 5); [lia| |].
    + apply staged_weaken with (lo := 1) (hi := 5); [lia|lia|]. apply staged_generate_3d.
    + intros e. apply staged_on_error.
Qed.

End Staging.

(** ** Reports, then similarity *)

Section Reporting.

Context {L : ChemLibs}.

Lemma rts_reports t :
  Forall (fun ev => is_report ev = true) t -> report_then_similarity t.
Proof. intros H. exists t, []. now rewrite app_nil_r. Qed.

Lemma rts_similarity t :
  Forall (fun ev => is_similarity_step ev = true) t -> report_then_similarity t.
Proof. intros H. exists [], t. auto. Qed.

Lemma rts_app_reports t1 t2 :
  Forall (fun ev => is_report ev = true) t1 -> report_then_similarity t2 ->
  report_then_similarity (t1 ++ t2).
Proof.
  intros H1 [u1 [u2 [-> [Hu1 Hu2]]]].
  exists (t1 ++ u1), u2. rewrite app_assoc. repeat split; auto.
  apply Forall_app; auto.
Qed.

Lemma two_phase_ret A (a : A) : two_phase (ret a).
Proof. intros fs. apply rts_reports. constructor. Qed.

Lemma two_phase_report A B (m : M A) (f : A -> M B) :
  spec (fun ev => is_report ev = true) (fun _ => True) m ->
  (forall a, two_phase (f a)) -> two_phase (bind m f).
Proof.
  intros Hm Hf fs. rewrite events_bind.
  apply rts_app_reports; [apply (spec_events fs Hm)|].
  destruct (outcome (m fs)); [apply Hf | apply rts_reports; constructor].
Qed.

Lemma two_phase_similarity A (Q : A -> Prop) (m : M A) :
  spec (fun ev => is_similarity_step ev = true) Q m -> two_phase m.
Proof. intros Hm fs. apply rts_similarity. apply (spec_events fs Hm). Qed.

Lemma spec_calculate_tanimoto_similarity (p : Event -> Prop) mol1 mol2 fp_type radius n_bits :
  (forall ev, is_similarity ev = true -> p ev) ->
  spec p (fun _ => True) (calculate_tanimoto_similarity mol1 mol2 fp_type radius n_bits).
Proof.
  intros Hp. unfold calculate_tanimoto_similarity.
  assert (Hnone : spec p (fun _ : option Num => True) (log_warning MoleculesNone ;; ret None)).
  { apply spec_seq; [apply spec_emit; auto|]. intros _. now apply spec_ret. }
  destruct mol1 as [m1|]; [|exact Hnone]. destruct mol2 as [m2|]; [|exact Hnone].
  apply spec_seq.
  - destruct (String.eqb fp_type "morgan").
    + apply spec_bind_call; auto. intros fp1 _.
      apply spec_bind_call; auto. intros fp2 _. now apply spec_ret.
    + apply spec_bind_call; auto. intros fp1 _.
      apply spec_bind_call; auto. intros fp2 _. now apply spec_ret.
  - intros fps. apply spec_bind_call; auto. intros s _. now apply spec_ret.
Qed.

Lemma spec_score (p : Event -> Prop) mol ref_mol fp_type radius n_bits :
  (forall ev, is_similarity ev = true -> p ev) ->
  spec p (fun _ => True)
    (similarity <- calculate_tanimoto_similarity mol ref_mol fp_type radius n_bits ;;
     match similarity with
     | Some s => print (TanimotoScore s)
     | None => ret tt
     end).
Proof.
  intros Hp. apply spec_seq.
  - now apply spec_calculate_tanimoto_similarity.
  - intros [s|]; [apply spec_emit; auto | now apply spec_ret].
Qed.

Lemma similarity_is_step ev : is_similarity ev = true -> is_similarity_step ev = true.
Proof. destruct ev as [| | | | | | | | | | | | | | | |m|m|m]; simpl; auto; destruct m; auto. Qed.

Lemma single_process_events smiles output_base num_confs reference fp_type radius n_bits
    protonate ph_min ph_max fs :
  exists rest,
    events (single_process smiles output_base num_confs reference fp_type radius n_bits
              protonate ph_min ph_max fs) =
    events (smiles_to_3d smiles output_base num_confs true protonate ph_min ph_max fs) ++ rest /\
    report_then_similarity rest.
Proof.
  unfold single_process. rewrite events_bind.
  eexists. split; [reflexivity|].
  destruct (outcome (smiles_to_3d smiles output_base num_confs true protonate ph_min ph_max fs))
    as [res|e]; [|apply rts_reports; constructor].
  match goal with |- report_then_similarity (events (?k _)) => enough (two_phase k) by auto end.
  destruct (truthy_props (snd (fst res))); [|apply two_phase_ret].
  apply two_phase_report; [apply spec_emit; auto|]. intros _.
  apply two_phase_report; [apply spec_emit; auto|]. intros _.
  apply two_phase_report.
  { apply spec_for_each. intros kv _. apply spec_emit; auto. }
  intros _. apply two_phase_report.
  { destruct (protonate && truthy_list (snd res)); [|now apply spec_ret].
    apply spec_seq; [apply spec_emit; auto|]. intros _.
    apply spec_for_each. intros iv _. apply spec_emit; auto. }
  intros _. destruct reference as [reference|]; [|apply two_phase_ret].
  destruct (Py.truthy reference); [|apply two_phase_ret].
  apply two_phase_similarity with (Q := fun _ => True).
  apply spec_bind_call; auto. intros [m|] _.
  - apply spec_score. apply similarity_is_step.
  - apply spec_emit; auto.
Qed.

Lemma process_line_events output_dir ref_mol fp_type radius n_bits protonate ph_min ph_max
    num_confs protonation_file idx line fs :
  exists rest,
    events (process_line output_dir ref_mol fp_type radius n_bits protonate ph_min ph_max
              num_confs protonation_file idx line fs) =
    (if Py.truthy (Py.strip line)
     then events (smiles_to_3d (Py.strip line)
                    (Py.path_join output_dir ("mol_" ++ Py.str_of_nat (idx + 1))%string)
                    num_confs true protonate ph_min ph_max fs)
     else []) ++ rest /\
    report_then_similarity rest.
Proof.
  unfold process_line. destruct (Py.truthy (Py.strip line)).
  2:{ exists []. split; [reflexivity | apply rts_reports; constructor]. }
  rewrite events_bind. eexists. split; [reflexivity|].
  match goal with |- context [outcome ?x] => destruct (outcome x) as [res|e] end;
    [|apply rts_reports; constructor].
  match goal with |- report_then_similarity (events (?k _)) => enough (two_phase k) by auto end.
  destruct (truthy_props (snd (fst res))); [|apply two_phase_ret].
  apply two_phase_report; [apply spec_emit; auto|]. intros _.
  apply two_phase_report; [apply spec_emit; auto|]. intros _.
  apply two_phase_report.
  { destruct protonation_file as [path|]; [|now apply spec_ret].
    destruct (protonate && truthy_list (snd res)); [|now apply spec_ret].
    apply spec_for_each. intros v _. unfold file_write.
    apply spec_seq; [apply spec_emit; auto|]. intros _. now apply spec_update_fs. }
  intros _. destruct ref_mol as [m|]; [|apply two_phase_ret].
  apply two_phase_similarity with (Q := fun _ => True).
  apply spec_score. apply similarity_is_step.
Qed.

End Reporting.

(** ** What the helpers return *)

Section Runs.

Context {L : ChemLibs}.

Lemma optimize_conformers_run smiles conf_ids : forall mol fs,
  exists t,
    optimize_conformers smiles mol conf_ids fs = (Ok (optimized_mol mol conf_ids), fs, t) /\
    (forall c rest, conf_ids = c :: rest -> hd_error t = Some (CallMMFF mol c "MMFF94s" 1000%Z)).
Proof.
  induction conf_ids as [|c rest IH]; intros mol fs; simpl.
  - exists []. split; [reflexivity | intros; discriminate].
  - unfold bind, optimize_conformer, emit, log_warning.
    destruct (MMFFOptimizeMolecule mol c "MMFF94s" 1000%Z) as [mol' [e|]]; simpl;
      destruct (IH mol' fs) as [t [Ht _]]; rewrite Ht; simpl;
      eexists; (split; [reflexivity | intros c0 rest0 H; inversion H; reflexivity]).
Qed.

Lemma path_exists_isfile path fs : path_exists path fs = false -> isfile path fs = false.
Proof. unfold path_exists. intros H. apply orb_false_iff in H. tauto. Qed.

Lemma ensure_output_dir_run output_base fs :
  exists fs' t, ensure_output_dir output_base fs = (Ok tt, fs', t) /\
                files fs' = files fs /\
                Forall (fun ev => is_makedirs ev = true) t.
Proof.
  unfold ensure_output_dir. unfold bind at 1. unfold read_fs at 1.
  destruct (Py.truthy (Py.dirname output_base)); simpl.
  2:{ exists fs, []. auto. }
  destruct (path_exists (Py.dirname output_base) fs) eqn:E; simpl.
  - exists fs, []. auto.
  - unfold makedirs, bind, emit, read_fs.
    rewrite (path_exists_isfile _ _ E). simpl.
    eexists; eexists. split; [reflexivity|]. split.
    + unfold add_dir. destruct (mem_string _ _); reflexivity.
    + repeat constructor.
Qed.

Lemma write_format_run ob_mol output_base fmt fs :
  exists fs' t, write_format ob_mol output_base fmt fs = (Ok tt, fs', t).
Proof.
  unfold write_format, try_catch, try_then, bind, call, update_fs, log_error, emit, ret.
  destruct (pybel_write ob_mol fmt (output_base ++ "." ++ fmt)%string true); simpl; eauto.
Qed.

Lemma for_each_run A (f : A -> M unit) (xs : list A) :
  (forall x fs, exists fs' t, f x fs = (Ok tt, fs', t)) ->
  forall fs, exists fs' t, for_each xs f fs = (Ok tt, fs', t).
Proof.
  intros Hf. induction xs as [|x xs IH]; intros fs; simpl.
  - unfold ret. eauto.
  - unfold bind. destruct (Hf x fs) as [fs1 [t1 H1]]. rewrite H1.
    destruct (IH fs1) as [fs2 [t2 H2]]. rewrite H2. eauto.
Qed.

Lemma compute_properties_run mol table fs :
  exists t, compute_properties mol table fs = (properties_result mol table, fs, t).
Proof.
  induction table as [|[key d] table IH]; simpl.
  - unfold ret. eauto.
  - unfold bind, call, ret. destruct (descriptor d mol) as [v|e]; simpl; [|eauto].
    destruct IH as [t Ht]. rewrite Ht.
    destruct (properties_result mol table); simpl; eauto.
Qed.

(** [generate_3d] after a successful embedding, from the conversion to
    OpenBabel on. *)
Lemma export_run smiles output_base num_confs optimize variants mol0 mol1 mol2 fs :
  MolFromSmiles smiles = Ok (Some mol0) ->
  AddHs mol0 = Ok mol1 ->
  EmbedMultipleConfs mol1 num_confs 42%Z true = Ok mol2 ->
  let mol := exported_mol optimize mol2 in
  let run := generate_3d smiles output_base num_confs optimize variants fs in
  let start := [CallMolFromSmiles smiles; CallAddHs mol0;
                CallEmbed mol1 num_confs 42%Z true] in
  exists t_opt,
    (optimize = true -> 0 < GetNumConformers mol2 ->
       hd_error t_opt = Some (CallMMFF mol2 0 "MMFF94s" 1000%Z)) /\
    (forall e, MolToMolBlock mol = Raise e ->
       run = (Ok (None, None, variants), fs,
              start ++ t_opt ++ [CallMolToMolBlock mol; LogError (ConversionFailed e)])) /\
    (forall sdf e, MolToMolBlock mol = Ok sdf -> pybel_readstring "mol" sdf = Raise e ->
       run = (Ok (None, None, variants), fs,
              start ++ t_opt ++ [CallMolToMolBlock mol; CallReadString "mol" sdf;
                                 LogError (ConversionFailed e)])) /\
    (forall sdf ob_mol, MolToMolBlock mol = Ok sdf -> pybel_readstring "mol" sdf = Ok ob_mol ->
       exists fs' t_write t_props,
         run = (match properties_result mol descriptor_table with
                | Ok props => Ok (Some mol, Some props, variants)
                | Raise _ => Ok (Some mol, Some [], variants)
                end, fs',
                start ++ t_opt ++ [CallMolToMolBlock mol; CallReadString "mol" sdf]
                ++ t_write ++ t_props) /\
         (forall e, properties_result mol descriptor_table = Raise e ->
                    In (LogError (PropertyFailed e)) t_props)).
Proof.
  intros Hparse Hhs Hembed mol run start.
  assert (Hopt : exists t_opt,
             (if optimize
              then optimize_conformers smiles mol2 (seq 0 (GetNumConformers mol2))
              else ret mol2) fs = (Ok mol, fs, t_opt) /\
             (optimize = true -> 0 < GetNumConformers mol2 ->
                hd_error t_opt = Some (CallMMFF mol2 0 "MMFF94s" 1000%Z))).
  { subst mol. unfold exported_mol. destruct optimize.
    - destruct (optimize_conformers_run smiles (seq 0 (GetNumConformers mol2)) mol2 fs)
        as [t [Ht Hhd]].
      exists t. split; [exact Ht|]. intros _ Hc.
      destruct (GetNumConformers mol2) as [|k]; [lia|].
      apply (Hhd 0 (seq 1 k)). reflexivity.
    - exists []. split; [reflexivity | intros; discriminate]. }
  destruct Hopt as [t_opt [Hrun Hhd]]. exists t_opt.
  split; [exact Hhd|].
  assert (Hgen : run =
            (let '(r, fs', t) :=
               try_then
                 (sdf_data <- call (CallMolToMolBlock mol) (MolToMolBlock mol) ;;
                  call (CallReadString "mol" sdf_data) (pybel_readstring "mol" sdf_data))
                 (fun e => log_error (ConversionFailed e) ;; ret (None, None, variants))
                 (fun ob_mol =>
                    ensure_output_dir output_base ;;
                    for_each formats (write_format ob_mol output_base) ;;
                    properties <- try_catch (compute_properties mol descriptor_table)
                                    (fun e => log_error (PropertyFailed e) ;; ret []) ;;
                    ret (Some mol, Some properties, variants)) fs in
             (r, fs', start ++ t_opt ++ t))).
  { subst run. unfold generate_3d.
    unfold bind at 1. unfold call at 1. rewrite Hparse.
    unfold bind at 1. unfold call at 1. rewrite Hhs.
    unfold try_then at 1. unfold call at 1. rewrite Hembed.
    unfold bind at 1. rewrite Hrun.
    match goal with |- context [try_then ?a ?b ?c fs] =>
      destruct (try_then a b c fs) as [[r fs'] t] end.
    reflexivity. }
  rewrite Hgen. clear Hgen.
  split; [|split].
  - intros e He. unfold try_then, bind, call, log_error, emit, ret.
    rewrite He. reflexivity.
  - intros sdf e Hsdf He. unfold try_then, bind, call, log_error, emit, ret.
    rewrite Hsdf, He. reflexivity.
  - intros sdf ob_mol Hsdf Hob.
    unfold try_then at 1. unfold bind at 1. unfold call at 1 2. rewrite Hsdf, Hob.
    destruct (ensure_output_dir_run output_base fs) as [fs1 [t1 [H1 _]]].
    unfold bind at 1. rewrite H1.
    destruct (for_each_run (write_format ob_mol output_base) formats
                (write_format_run ob_mol output_base) fs1) as [fs2 [t2 H2]].
    unfold bind at 1. rewrite H2.
    destruct (compute_properties_run mol descriptor_table fs2) as [t3 H3].
    unfold bind, try_catch, try_then, log_error, emit, ret. rewrite H3.
    destruct (properties_result mol descriptor_table) as [props|e]; simpl.
    + exists fs2, (t1 ++ t2), t3. rewrite ?app_nil_r, <- ?app_assoc.
      split; [reflexivity | intros; discriminate].
    + exists fs2, (t1 ++ t2), (t3 ++ [LogError (PropertyFailed e)]).
      rewrite ?app_nil_r, <- ?app_assoc. split; [reflexivity|].
      intros e' He'. inversion He'; subst. apply in_or_app. right. now left.
Qed.

End Runs.

(** ** The protonation branch and the shape of the returned value *)

Section Protonation.

Context {L : ChemLibs}.

Lemma protonate_smiles_run smiles ph_min ph_max precision max_variants fs :
  protonate_smiles smiles ph_min ph_max precision max_variants fs =
  match dimorphite_protonate_smiles smiles ph_min ph_max precision max_variants with
  | Ok variants =>
      (Ok variants, fs, [CallProtonate smiles ph_min ph_max precision max_variants])
  | Raise e =>
      (Ok [smiles], fs,
       [CallProtonate smiles ph_min ph_max precision max_variants;
        Print (ErrorProtonating smiles e)])
  end.
Proof.
  unfold protonate_smiles, try_catch, try_then, call, bind, print, emit, ret.
  destruct (dimorphite_protonate_smiles smiles ph_min ph_max precision max_variants);
    reflexivity.
Qed.

(** Lines 50-57 on a variant list. *)
Lemma announce_run (variants : list string) ph_min ph_max fs :
  (print (GeneratedStates (List.length variants) ph_min ph_max) ;;
   for_each (Py.enumerate variants)
     (fun iv => print (VariantLine (fst iv + 1) (snd iv))) ;;
   (if 1 <? List.length variants
    then first <- index0 variants ;; print (UsingFirst first)
    else ret tt) ;;
   index0 variants) fs =
  (match variants with
   | [] => Raise IndexError
   | first :: _ => Ok first
   end, fs, protonation_messages variants ph_min ph_max).
Proof.
  unfold protonation_messages, bind. unfold print at 1. unfold emit.
  rewrite (for_each_print (fun iv => VariantLine (fst iv + 1) (snd iv))).
  destruct variants as [|first others]; [reflexivity|].
  destruct (1 <? List.length (first :: others)); simpl; now rewrite ?app_nil_r.
Qed.

(** With protonation, [smiles_to_3d] on the variants the protonation step
    yields. *)
Lemma smiles_to_3d_protonated smiles output_base num_confs optimize ph_min ph_max fs
    variants t_prot :
  protonate_smiles smiles ph_min ph_max float_1_0 128%Z fs = (Ok variants, fs, t_prot) ->
  smiles_to_3d smiles output_base num_confs optimize true ph_min ph_max fs =
  match variants with
  | [] =>
      (Ok (None, None, Some []), fs,
       t_prot ++ protonation_messages [] ph_min ph_max
       ++ [LogError (ErrorProcessing smiles IndexError)])
  | first :: _ =>
      let direct := smiles_to_3d first output_base num_confs optimize false ph_min ph_max fs in
      (with_variants (Some variants) (outcome direct), final_fs direct,
       t_prot ++ protonation_messages variants ph_min ph_max ++ events direct)
  end.
Proof.
  intros Hp. unfold smiles_to_3d.
  unfold try_then at 1. rewrite Hp.
  unfold try_then at 1. rewrite announce_run.
  destruct variants as [|first others].
  - reflexivity.
  - rewrite (guarded_generate_3d_variants first output_base num_confs optimize
               (Some (first :: others)) (Some [first]) fs).
    reflexivity.
Qed.



End Protonation.

(** ** Optimization and similarity in the callers *)

Section Callers.

Context {L : ChemLibs}.

Lemma smiles_to_3d_chosen smiles output_base num_confs optimize protonate ph_min ph_max fs
    chosen :
  chosen_smiles smiles protonate ph_min ph_max = Some chosen ->
  exists prefix variants,
    (protonate = false -> variants = Some [smiles]) /\
    smiles_to_3d smiles output_base num_confs optimize protonate ph_min ph_max fs =
    (with_variants variants
       (outcome (smiles_to_3d chosen output_base num_confs optimize false ph_min ph_max fs)),
     final_fs (smiles_to_3d chosen output_base num_confs optimize false ph_min ph_max fs),
     prefix ++
     events (smiles_to_3d chosen output_base num_confs optimize false ph_min ph_max fs)).
Proof.
  unfold chosen_smiles. destruct protonate.
  - intros Hc.
    pose proof (protonate_smiles_run smiles ph_min ph_max float_1_0 128%Z fs) as Hp.
    destruct (dimorphite_protonate_smiles smiles ph_min ph_max float_1_0 128%Z)
      as [[|first others]|e]; inversion Hc; subst;
      erewrite smiles_to_3d_protonated by exact Hp; cbv zeta;
      eexists; eexists; (split; [discriminate|]); rewrite app_assoc; reflexivity.
  - intros Hc. inversion Hc; subst. exists [], (Some [chosen]).
    split; [reflexivity|].
    destruct (total_smiles_to_3d chosen output_base num_confs optimize false
                ph_min ph_max fs) as [[[m p] v] Hout].
    pose proof (spec_outcome fs
                  (spec_smiles_to_3d chosen output_base num_confs optimize false ph_min ph_max)
                  Hout eq_refl) as Hv.
    destruct (smiles_to_3d chosen output_base num_confs optimize false ph_min ph_max fs)
      as [[r fs'] t].
    unfold outcome, final_fs, events in *. simpl in *. subst. reflexivity.
Qed.

Lemma smiles_to_3d_optimizes smiles output_base num_confs protonate ph_min ph_max fs
    chosen mol0 mol1 mol2 :
  chosen_smiles smiles protonate ph_min ph_max = Some chosen ->
  MolFromSmiles chosen = Ok (Some mol0) ->
  AddHs mol0 = Ok mol1 ->
  EmbedMultipleConfs mol1 num_confs 42%Z true = Ok mol2 ->
  0 < GetNumConformers mol2 ->
  In (CallMMFF mol2 0 "MMFF94s" 1000%Z)
     (events (smiles_to_3d smiles output_base num_confs true protonate ph_min ph_max fs)).
Proof.
  intros Hc Hparse Hhs Hembed Hconfs.
  destruct (@smiles_to_3d_chosen smiles output_base num_confs true protonate ph_min ph_max
              fs chosen Hc) as [prefix [variants [_ Heq]]].
  rewrite Heq. unfold events at 1. simpl.
  apply in_or_app. right.
  destruct (@export_run L chosen output_base num_confs true (Some [chosen])
              mol0 mol1 mol2 fs Hparse Hhs Hembed)
    as [t_opt [Hhd [Hblock [Hread Hrest]]]].
  specialize (Hhd eq_refl Hconfs).
  destruct t_opt as [|ev t_opt]; [discriminate|]. inversion Hhd; subst ev.
  unfold smiles_to_3d.
  destruct (MolToMolBlock (exported_mol true mol2)) as [sdf|e] eqn:Hb.
  - destruct (pybel_readstring "mol" sdf) as [ob_mol|e] eqn:Hr.
    + destruct (Hrest sdf ob_mol eq_refl Hr) as [fs' [t_write [t_props [Hrun _]]]].
      destruct (properties_result (exported_mol true mol2) descriptor_table);
        erewrite try_catch_ok by exact Hrun; unfold events; simpl; auto.
    + erewrite try_catch_ok by exact (Hread sdf e eq_refl Hr). unfold events; simpl; auto.
  - erewrite try_catch_ok by exact (Hblock e eq_refl). unfold events; simpl; auto.
Qed.

Lemma single_process_optimizes smiles output_base num_confs reference fp_type radius n_bits
    protonate ph_min ph_max fs chosen mol0 mol1 mol2 :
  chosen_smiles smiles protonate ph_min ph_max = Some chosen ->
  MolFromSmiles chosen = Ok (Some mol0) ->
  AddHs mol0 = Ok mol1 ->
  EmbedMultipleConfs mol1 num_confs 42%Z true = Ok mol2 ->
  0 < GetNumConformers mol2 ->
  In (CallMMFF mol2 0 "MMFF94s" 1000%Z)
     (events (single_process smiles output_base num_confs reference fp_type radius n_bits
                protonate ph_min ph_max fs)).
Proof.
  intros Hc Hparse Hhs Hembed Hconfs.
  destruct (single_process_events smiles output_base num_confs reference fp_type radius
              n_bits protonate ph_min ph_max fs) as [rest [Heq _]].
  rewrite Heq. apply in_or_app. left.
  eapply smiles_to_3d_optimizes; eauto.
Qed.

Lemma process_line_optimizes output_dir ref_mol fp_type radius n_bits protonate ph_min ph_max
    num_confs protonation_file idx line fs chosen mol0 mol1 mol2 :
  Py.truthy (Py.strip line) = true ->
  chosen_smiles (Py.strip line) protonate ph_min ph_max = Some chosen ->
  MolFromSmiles chosen = Ok (Some mol0) ->
  AddHs mol0 = Ok mol1 ->
  EmbedMultipleConfs mol1 num_confs 42%Z true = Ok mol2 ->
  0 < GetNumConformers mol2 ->
  In (CallMMFF mol2 0 "MMFF94s" 1000%Z)
     (events (process_line output_dir ref_mol fp_type radius n_bits protonate ph_min ph_max
                num_confs protonation_file idx line fs)).
Proof.
  intros Hline Hc Hparse Hhs Hembed Hconfs.
  destruct (process_line_events output_dir ref_mol fp_type radius n_bits protonate
              ph_min ph_max num_confs protonation_file idx line fs) as [rest [Heq _]].
  rewrite Heq, Hline. apply in_or_app. left.
  eapply smiles_to_3d_optimizes; eauto.
Qed.

Lemma main_single (args : Args) input fs :
  arg_input args = Some input -> isfile input fs = false ->
  main args fs =
  single_process input (arg_output args) (arg_num_confs args) (arg_reference args)
    (arg_fp_type args) (arg_radius args) (arg_bits args) (arg_protonate args)
    (arg_ph_min args) (arg_ph_max args) fs.
Proof.
  intros Hin Hfile. unfold main. rewrite Hin.
  unfold bind at 1. unfold read_fs. rewrite Hfile.
  match goal with |- context [single_process ?a ?b ?c ?d ?e ?f ?g ?h ?i ?j fs] =>
    destruct (single_process a b c d e f g h i j fs) as [[r fs'] t] end.
  reflexivity.
Qed.

Lemma footprint_not_similarity smiles output_base num_confs optimize protonate ph_min ph_max ev :
  smiles_to_3d_footprint smiles output_base num_confs optimize protonate ph_min ph_max ev ->
  is_similarity ev = false.
Proof.
  intros [[_ H]|[s [_ H]]];
    destruct ev as [| | | | | | | | | | | | | | | |m|m|m]; simpl in *; auto;
    try contradiction; destruct m; auto; contradiction.
Qed.

Lemma spec_smiles_to_3d_quiet smiles output_base num_confs optimize protonate ph_min ph_max :
  spec (fun ev => is_similarity ev = false) (fun _ => True)
    (smiles_to_3d smiles output_base num_confs optimize protonate ph_min ph_max).
Proof.
  eapply spec_weaken; [apply spec_smiles_to_3d| |auto].
  intros ev. apply footprint_not_similarity.
Qed.

Lemma spec_single_process_quiet smiles output_base num_confs reference fp_type radius n_bits
    protonate ph_min ph_max :
  truthy_opt_str reference = false ->
  spec (fun ev => is_similarity ev = false) (fun _ => True)
    (single_process smiles output_base num_confs reference fp_type radius n_bits
       protonate ph_min ph_max).
Proof.
  intros Href. unfold single_process.
  apply spec_seq; [apply spec_smiles_to_3d_quiet|]. intros res.
  destruct (truthy_props (snd (fst res))); [|now apply spec_ret].
  apply spec_seq; [apply spec_emit; auto|]. intros _.
  apply spec_seq; [apply spec_emit; auto|]. intros _.
  apply spec_seq.
  { apply spec_for_each. intros kv _. apply spec_emit; auto. }
  intros _. apply spec_seq.
  { destruct (protonate && truthy_list (snd res)); [|now apply spec_ret].
    apply spec_seq; [apply spec_emit; auto|]. intros _.
    apply spec_for_each. intros iv _. apply spec_emit; auto. }
  intros _. destruct reference as [reference|]; [|now apply spec_ret].
  simpl in Href. rewrite Href. now apply spec_ret.
Qed.

Lemma spec_file_write (p : Event -> Prop) path text :
  p (FileWrite path text) -> spec p (fun _ => True) (file_write path text).
Proof.
  intros H. unfold file_write.
  apply spec_seq; [apply spec_emit; auto|]. intros _. now apply spec_update_fs.
Qed.

Lemma spec_process_line_quiet output_dir fp_type radius n_bits protonate ph_min ph_max
    num_confs protonation_file idx line :
  spec (fun ev => is_similarity ev = false) (fun _ => True)
    (process_line output_dir None fp_type radius n_bits protonate ph_min ph_max
       num_confs protonation_file idx line).
Proof.
  unfold process_line. destruct (Py.truthy (Py.strip line)); [|now apply spec_ret].
  apply spec_seq; [apply spec_smiles_to_3d_quiet|]. intros res.
  destruct (truthy_props (snd (fst res))); [|now apply spec_ret].
  apply spec_seq; [apply spec_emit; auto|]. intros _.
  apply spec_seq; [apply spec_emit; auto|]. intros _.
  apply spec_seq.
  { destruct protonation_file as [path|]; [|now apply spec_ret].
    destruct (protonate && truthy_list (snd res)); [|now apply spec_ret].
    apply spec_for_each. intros v _. now apply spec_file_write. }
  intros _. now apply spec_ret.
Qed.

Lemma spec_batch_process_quiet input_file output_dir reference fp_type radius n_bits
    protonate ph_min ph_max num_confs :
  truthy_opt_str reference = false ->
  spec (fun ev => is_similarity ev = false) (fun _ => True)
    (batch_process input_file output_dir reference fp_type radius n_bits protonate
       ph_min ph_max num_confs).
Proof.
  intros Href. unfold batch_process.
  apply spec_bind with (Q1 := fun r => r = None).
  { destruct reference as [reference|]; [|now apply spec_ret].
    simpl in Href. rewrite Href. now apply spec_ret. }
  intros ref_mol ->.
  apply spec_seq.
  { destruct protonate; [|now apply spec_ret].
    unfold open_w.
    apply spec_seq.
    { apply spec_seq; [apply spec_emit; auto|]. intros _. now apply spec_update_fs. }
    intros _. apply spec_seq; [now apply spec_file_write|]. intros _. now apply spec_ret. }
  intros protonation_file.
  apply spec_seq.
  { unfold open_r. apply spec_seq; [now apply spec_read_fs|].
    intros [lines|]; [now apply spec_ret | apply spec_raise]. }
  intros lines. apply spec_seq.
  { unfold batch_loop. apply spec_for_each. intros il _. apply spec_process_line_quiet. }
  intros _. destruct protonation_file as [path|]; [|now apply spec_ret].
  unfold file_close.
  apply spec_seq; [apply spec_emit; auto|]. intros _. apply spec_emit; auto.
Qed.

Lemma spec_main_quiet (args : Args) :
  truthy_opt_str (arg_reference args) = false ->
  spec (fun ev => is_similarity ev = false) (fun _ => True) (main args).
Proof.
  intros Href. unfold main. destruct (arg_input args) as [input|]; [|apply spec_raise].
  apply spec_seq; [now apply spec_read_fs|]. intros [|].
  - apply spec_seq; [now apply spec_makedirs|]. intros _.
    now apply spec_batch_process_quiet.
  - now apply spec_single_process_quiet.
Qed.

End Callers.

(** ** Independence from the file system *)

Section Oblivious.

Context {L : ChemLibs}.

Variable input : option string.

Lemma final_fs_bind A B (m : M A) (f : A -> M B) fs :
  final_fs (bind m f fs) =
  match outcome (m fs) with
  | Ok a => final_fs (f a (final_fs (m fs)))
  | Raise _ => final_fs (m fs)
  end.
Proof.
  unfold bind, events, outcome, final_fs.
  destruct (m fs) as [[[a|e] fs1] t1]; simpl; auto.
  destruct (f a fs1) as [[r fs2] t2]; reflexivity.
Qed.

Lemma final_fs_try_then A B (m : M A) (h : Exn -> M B) (k : A -> M B) fs :
  final_fs (try_then m h k fs) =
  match outcome (m fs) with
  | Ok a => final_fs (k a (final_fs (m fs)))
  | Raise e => final_fs (h e (final_fs (m fs)))
  end.
Proof.
  unfold try_then, events, outcome, final_fs.
  destruct (m fs) as [[[a|e] fs1] t1]; simpl.
  - destruct (k a fs1) as [[r fs2] t2]; reflexivity.
  - destruct (h e fs1) as [[r fs2] t2]; reflexivity.
Qed.


























End Oblivious.

Section Batch.

Context {L : ChemLibs}.




End Batch.

(** ** Names of the files of a batch run *)

Section Names.

Context {L : ChemLibs}.

Lemma enumerate_from_nth A (xs : list A) : forall start i x,
  In (i, x) (Py.enumerate_from start xs) ->
  start <= i /\ nth_error xs (i - start) = Some x.
Proof.
  induction xs as [|y ys IH]; intros start i x H; simpl in H; [contradiction|].
  destruct H as [H|H].
  - inversion H; subst. split; [lia|]. now rewrite Nat.sub_diag.
  - apply IH in H. destruct H as [Hle Hn]. split; [lia|].
    replace (i - start) with (S (i - S start)) by lia. exact Hn.
Qed.

Lemma enumerate_nth A (xs : list A) i x :
  In (i, x) (Py.enumerate xs) -> nth_error xs i = Some x.
Proof.
  intros H. apply enumerate_from_nth in H. destruct H as [_ H].
  now rewrite Nat.sub_0_r in H.
Qed.

Lemma process_line_blank output_dir ref_mol fp_type radius n_bits protonate ph_min ph_max
    num_confs protonation_file idx line fs :
  Py.truthy (Py.strip line) = false ->
  process_line output_dir ref_mol fp_type radius n_bits protonate ph_min ph_max
    num_confs protonation_file idx line fs = (Ok tt, fs, []).
Proof. intros H. unfold process_line. rewrite H. reflexivity. Qed.



Lemma lookup_file_append_other path text input fs :
  input <> path ->
  lookup_file input (files (append_file path text fs)) = lookup_file input (files fs).
Proof.
  intros Hne. unfold append_file.
  assert (E : String.eqb path input = false)
    by (apply String.eqb_neq; congruence).
  destruct (lookup_file path (files fs)); simpl; now rewrite E.
Qed.


End Names.

(** ** Failures of [smiles_to_3d] without protonation *)

Section Failures.

Context {L : ChemLibs}.

Lemma plain_failures
    (smiles output_base : string) (num_confs : Z) (optimize : bool)
    (ph_min ph_max : Num) (fs : FS) :
  let run := smiles_to_3d smiles output_base num_confs optimize false ph_min ph_max fs in
  (MolFromSmiles smiles = Ok None ->
   outcome run = Ok (None, None, Some [smiles]) /\
   events run = [CallMolFromSmiles smiles; LogError (InvalidSmiles smiles)]) /\
  (forall mol0 mol1,
      MolFromSmiles smiles = Ok (Some mol0) -> AddHs mol0 = Ok mol1 ->
      (forall e,
          EmbedMultipleConfs mol1 num_confs 42%Z true = Raise e ->
          outcome run = Ok (None, None, Some [smiles]) /\
          In (LogError (ConformerFailed smiles e)) (events run)) /\
      (forall mol2,
          EmbedMultipleConfs mol1 num_confs 42%Z true = Ok mol2 ->
          let mol := exported_mol optimize mol2 in
          (forall e,
              MolToMolBlock mol = Raise e ->
              outcome run = Ok (None, None, Some [smiles]) /\
              In (LogError (ConversionFailed e)) (events run)) /\
          (forall sdf e,
              MolToMolBlock mol = Ok sdf -> pybel_readstring "mol" sdf = Raise e ->
              outcome run = Ok (None, None, Some [smiles]) /\
              In (LogError (ConversionFailed e)) (events run)) /\
          (forall sdf ob_mol,
              MolToMolBlock mol = Ok sdf -> pybel_readstring "mol" sdf = Ok ob_mol ->
              (forall e,
                  properties_result mol descriptor_table = Raise e ->
                  outcome run = Ok (Some mol, Some [], Some [smiles]) /\
                  In (LogError (PropertyFailed e)) (events run)) /\
              (forall props,
                  properties_result mol descriptor_table = Ok props ->
                  outcome run = Ok (Some mol, Some props, Some [smiles]))))).
Proof.
  intros run. subst run. unfold smiles_to_3d.
  split; [|intros mol0 mol1 Hparse Hhs; split].
  - intros Hnone.
    erewrite try_catch_ok; [split; reflexivity|].
    unfold generate_3d, bind, call, log_error, emit, ret. rewrite Hnone. reflexivity.
  - intros e He.
    erewrite try_catch_ok.
    2:{ unfold generate_3d, try_then, bind, call, log_error, emit, ret.
        rewrite Hparse, Hhs, He. reflexivity. }
    split; [reflexivity|]. simpl. auto.
  - intros mol2 Hembed. cbv zeta.
    destruct (@export_run L smiles output_base num_confs optimize (Some [smiles])
                mol0 mol1 mol2 fs Hparse Hhs Hembed)
      as [t_opt [_ [Hblock [Hread Hrest]]]].
    set (mol := exported_mol optimize mol2) in *.
    split; [|split].
    + intros e He. erewrite try_catch_ok by exact (Hblock e He).
      split; [reflexivity|].
      unfold events; simpl. do 3 right. apply in_or_app. right. simpl. auto.
    + intros sdf e Hsdf He. erewrite try_catch_ok by exact (Hread sdf e Hsdf He).
      split; [reflexivity|].
      unfold events; simpl. do 3 right. apply in_or_app. right. simpl. auto.
    + intros sdf ob_mol Hsdf Hob.
      destruct (Hrest sdf ob_mol Hsdf Hob) as [fs' [t_write [t_props [Hrun Hlog]]]].
      destruct (properties_result mol descriptor_table) as [props0|e0];
        erewrite try_catch_ok by exact Hrun; split.
      * intros e He. discriminate.
      * intros props Hprops. inversion Hprops. reflexivity.
      * intros e He. split; [reflexivity|].
        unfold events; simpl. do 3 right.
        apply in_or_app. right. do 2 right.
        apply in_or_app. right. now apply Hlog.
      * intros props Hprops. discriminate.
Qed.


End Failures.

(** ** The claims *)

Section Claims.

Context {L : ChemLibs}.

(** C1 (amended). Each input goes through one linear pipeline, in the order
    of the code: optionally protonate, then parse the SMILES and add
    hydrogens, then embed in 3D, then optionally optimize, then export the
    formats (the output files are written here), then compute the
    descriptors.  The stages of the calls [smiles_to_3d] makes never go back
    in that order.  Its two callers then report the properties and the
    protonation states, and only after that score the similarity and print
    the score. *)
Theorem pipeline_order :
  (forall smiles output_base num_confs optimize protonate ph_min ph_max fs,
      ordered_by pipeline_rank
        (events (smiles_to_3d smiles output_base num_confs optimize protonate
                   ph_min ph_max fs)) = true) /\
  (forall smiles output_base num_confs reference fp_type radius n_bits protonate
          ph_min ph_max fs,
      exists rest,
        events (single_process smiles output_base num_confs reference fp_type radius n_bits
                  protonate ph_min ph_max fs) =
        events (smiles_to_3d smiles output_base num_confs true protonate ph_min ph_max fs)
        ++ rest /\
        report_then_similarity rest) /\
  (forall output_dir ref_mol fp_type radius n_bits protonate ph_min ph_max num_confs
          protonation_file idx line fs,
      exists rest,
        events (process_line output_dir ref_mol fp_type radius n_bits protonate
                  ph_min ph_max num_confs protonation_file idx line fs) =
        (if Py.truthy (Py.strip line)
         then events (smiles_to_3d (Py.strip line)
                        (Py.path_join output_dir ("mol_" ++ Py.str_of_nat (idx + 1))%string)
                        num_confs true protonate ph_min ph_max fs)
         else [])
        ++ rest /\
        report_then_similarity rest).
Proof.
  split; [|split].
  - intros. unfold ordered_by.
    apply ascends_ascending with (lo := 0) (hi := 5).
    apply staged_smiles_to_3d.
  - intros. apply single_process_events.
  - intros. apply process_line_events.
Qed.


(** C3. Without protonation, [smiles_to_3d] returns the singleton list of
    the input SMILES as its variants, makes no call to the protonation
    library, and generates the 3D structure from the input SMILES unchanged:
    the parse is of the input SMILES, it is the first thing done, and the
    molecule that is embedded is the parsed input with hydrogens added. *)
Theorem smiles_to_3d_without_protonation
    (smiles output_base : string) (num_confs : Z) (optimize : bool)
    (ph_min ph_max : Num) (fs : FS) :
  let run := smiles_to_3d smiles output_base num_confs optimize false ph_min ph_max fs in
  (exists mol props, outcome run = Ok (mol, props, Some [smiles])) /\
  Forall (fun ev => is_protonate_call ev = false) (events run) /\
  hd_error (events run) = Some (CallMolFromSmiles smiles) /\
  Forall (fun ev =>
            match ev with
            | CallMolFromSmiles s => s = smiles
            | CallEmbed m _ _ _ =>
                exists m0, MolFromSmiles smiles = Ok (Some m0) /\ AddHs m0 = Ok m
            | _ => True
            end) (events run).
Proof.
  intros run. subst run.
  pose proof (spec_smiles_to_3d smiles output_base num_confs optimize false ph_min ph_max)
    as Hspec.
  repeat split.
  - destruct (total_smiles_to_3d smiles output_base num_confs optimize false ph_min ph_max fs)
      as [[[mol props] variants] Hout].
    exists mol, props. rewrite Hout. f_equal. f_equal.
    exact (spec_outcome fs Hspec Hout eq_refl).
  - eapply Forall_impl; [|exact (spec_events fs Hspec)].
    intros ev [[Hfalse _]|[s [_ Hg]]]; [discriminate|].
    destruct ev; simpl in *; auto; contradiction.
  - unfold smiles_to_3d, try_catch, generate_3d.
    rewrite events_try_then, events_bind. reflexivity.
  - eapply Forall_impl; [|exact (spec_events fs Hspec)].
    intros ev [[Hfalse _]|[s [Hs Hg]]]; [discriminate|].
    rewrite (Hs eq_refl) in Hg.
    destruct ev; simpl in *; auto. tauto.
Qed.

(** C4 (amended). Force-field optimization is an optional step of
    [smiles_to_3d] only, through its parameter [optimize]: called with
    [optimize] false, it makes no MMFF call, and the molecule it hands to the
    export is the one the embedding returned.  Its callers [single_process]
    and [process_line] (the loop of [batch_process]) always call it with
    optimization on: whenever the chosen SMILES parses and embeds with at
    least one conformer, an MMFF call is made. *)
Theorem optimization_step :
  (forall smiles output_base num_confs protonate ph_min ph_max fs,
      Forall (fun ev =>
                is_mmff ev = false /\
                match ev with
                | CallMolToMolBlock m =>
                    exists m1, EmbedMultipleConfs m1 num_confs 42%Z true = Ok m
                | _ => True
                end)
        (events (smiles_to_3d smiles output_base num_confs false protonate
                   ph_min ph_max fs))) /\
  (forall smiles output_base num_confs reference fp_type radius n_bits protonate
          ph_min ph_max fs chosen mol0 mol1 mol2,
      chosen_smiles smiles protonate ph_min ph_max = Some chosen ->
      MolFromSmiles chosen = Ok (Some mol0) ->
      AddHs mol0 = Ok mol1 ->
      EmbedMultipleConfs mol1 num_confs 42%Z true = Ok mol2 ->
      0 < GetNumConformers mol2 ->
      In (CallMMFF mol2 0 "MMFF94s" 1000%Z)
         (events (single_process smiles output_base num_confs reference fp_type radius n_bits
                    protonate ph_min ph_max fs))) /\
  (forall output_dir ref_mol fp_type radius n_bits protonate ph_min ph_max num_confs
          protonation_file idx line fs chosen mol0 mol1 mol2,
      Py.truthy (Py.strip line) = true ->
      chosen_smiles (Py.strip line) protonate ph_min ph_max = Some chosen ->
      MolFromSmiles chosen = Ok (Some mol0) ->
      AddHs mol0 = Ok mol1 ->
      EmbedMultipleConfs mol1 num_confs 42%Z true = Ok mol2 ->
      0 < GetNumConformers mol2 ->
      In (CallMMFF mol2 0 "MMFF94s" 1000%Z)
         (events (process_line output_dir ref_mol fp_type radius n_bits protonate
                    ph_min ph_max num_confs protonation_file idx line fs))).
Proof.
  split; [|split].
  - intros.
    eapply Forall_impl;
      [|exact (spec_events fs
                 (spec_smiles_to_3d smiles output_base num_confs false protonate
                    ph_min ph_max))].
    intros ev [[_ H]|[s [_ H]]].
    + destruct ev; simpl in *; auto; contradiction.
    + destruct ev; simpl in *; auto; try contradiction.
      destruct H as [H _]. discriminate.
  - intros. eapply single_process_optimizes; eauto.
  - intros. eapply process_line_optimizes; eauto.
Qed.

(** C5. Without a reference SMILES (none given, or an empty one) no
    fingerprint is computed, no Tanimoto similarity is computed and no score
    is printed: in [single_process], in [batch_process], and in the program
    as a whole. *)
Theorem no_similarity_without_reference (reference : option string) :
  truthy_opt_str reference = false ->
  (forall smiles output_base num_confs fp_type radius n_bits protonate ph_min ph_max fs,
      Forall (fun ev => is_similarity ev = false)
        (events (single_process smiles output_base num_confs reference fp_type radius n_bits
                   protonate ph_min ph_max fs))) /\
  (forall input_file output_dir fp_type radius n_bits protonate ph_min ph_max num_confs fs,
      Forall (fun ev => is_similarity ev = false)
        (events (batch_process input_file output_dir reference fp_type radius n_bits
                   protonate ph_min ph_max num_confs fs))) /\
  (forall (args : Args) fs,
      arg_reference args = reference ->
      Forall (fun ev => is_similarity ev = false) (events (main args fs))).
Proof.
  intros Href. split; [|split].
  - intros. eapply spec_events. now apply spec_single_process_quiet.
  - intros. eapply spec_events. now apply spec_batch_process_quiet.
  - intros args fs Hargs. eapply spec_events. apply spec_main_quiet. now rewrite Hargs.
Qed.


(** C7. [calculate_tanimoto_similarity] returns [None] exactly when one of
    the two molecules is [None], and then it logs one warning and calls no
    library; with two molecules whose fingerprints and similarity the
    libraries return, it returns that Tanimoto similarity, of the Morgan
    fingerprints (with the given radius and size) when [fp_type] is
    "morgan" and of the RDKit fingerprints otherwise. *)
Theorem calculate_tanimoto_similarity_spec
    (mol1 mol2 : option Mol) (fp_type : string) (radius n_bits : Z) (fs : FS) :
  let run := calculate_tanimoto_similarity mol1 mol2 fp_type radius n_bits fs in
  (outcome run = Ok None <-> mol1 = None \/ mol2 = None) /\
  (mol1 = None \/ mol2 = None -> events run = [LogWarning MoleculesNone]) /\
  (forall m1 m2 fp1 fp2 s,
      mol1 = Some m1 -> mol2 = Some m2 -> fp_type = "morgan" ->
      GetMorganFingerprintAsBitVect m1 radius n_bits = Ok fp1 ->
      GetMorganFingerprintAsBitVect m2 radius n_bits = Ok fp2 ->
      TanimotoSimilarity fp1 fp2 = Ok s ->
      outcome run = Ok (Some s) /\
      events run = [CallMorgan m1 radius n_bits; CallMorgan m2 radius n_bits;
                    CallTanimoto fp1 fp2]) /\
  (forall m1 m2 fp1 fp2 s,
      mol1 = Some m1 -> mol2 = Some m2 -> fp_type <> "morgan" ->
      FingerprintMol m1 = Ok fp1 ->
      FingerprintMol m2 = Ok fp2 ->
      TanimotoSimilarity fp1 fp2 = Ok s ->
      outcome run = Ok (Some s) /\
      events run = [CallFingerprintMol m1; CallFingerprintMol m2; CallTanimoto fp1 fp2]).
Proof.
  intros run. subst run. unfold calculate_tanimoto_similarity.
  split; [|split; [|split]].
  - destruct mol1 as [m1|], mol2 as [m2|]; simpl;
      try (split; [intros _; auto | intros _; reflexivity]).
    split; [|intros [H|H]; discriminate].
    unfold bind, call, ret, outcome; simpl.
    destruct (String.eqb fp_type "morgan"); simpl;
      repeat (destruct_scrutinee; simpl); intros H; discriminate.
  - intros [-> | ->]; [|destruct mol1]; reflexivity.
  - intros m1 m2 fp1 fp2 s -> -> -> H1 H2 H3.
    unfold bind, call, ret, outcome, events; simpl.
    rewrite H1, H2; simpl. rewrite H3; simpl. auto.
  - intros m1 m2 fp1 fp2 s -> -> Hfp H1 H2 H3.
    apply String.eqb_neq in Hfp.
    unfold bind, call, ret, outcome, events; simpl.
    rewrite Hfp, H1, H2; simpl. rewrite H3; simpl. auto.
Qed.

(** C8. When the protonation library raises, [protonate_smiles] catches the
    exception and returns the list with the original SMILES alone; in
    [smiles_to_3d] with protonation requested, everything after the
    protonation step is then what it is without protonation on the same
    input: same returned value (variants included), same files, same
    events after the protonation messages. *)
Theorem protonate_smiles_fallback
    (smiles : string) (ph_min ph_max precision : Num) (max_variants : Z) (e : Exn) (fs : FS) :
  dimorphite_protonate_smiles smiles ph_min ph_max precision max_variants = Raise e ->
  protonate_smiles smiles ph_min ph_max precision max_variants fs =
    (Ok [smiles], fs,
     [CallProtonate smiles ph_min ph_max precision max_variants;
      Print (ErrorProtonating smiles e)]) /\
  (precision = float_1_0 -> max_variants = 128%Z ->
   forall output_base num_confs optimize,
     let with_p := smiles_to_3d smiles output_base num_confs optimize true ph_min ph_max fs in
     let without := smiles_to_3d smiles output_base num_confs optimize false ph_min ph_max fs in
     outcome with_p = outcome without /\
     final_fs with_p = final_fs without /\
     events with_p =
       [CallProtonate smiles ph_min ph_max float_1_0 128%Z;
        Print (ErrorProtonating smiles e);
        Print (GeneratedStates 1 ph_min ph_max);
        Print (VariantLine 1 smiles)] ++ events without).
Proof.
  intros Hraise.
  assert (Hp : protonate_smiles smiles ph_min ph_max precision max_variants fs =
               (Ok [smiles], fs,
                [CallProtonate smiles ph_min ph_max precision max_variants;
                 Print (ErrorProtonating smiles e)])).
  { unfold protonate_smiles, try_catch, try_then, call, bind, print, emit, ret.
    rewrite Hraise. reflexivity. }
  split; [exact Hp|].
  intros -> -> output_base num_confs optimize with_p without.
  assert (Heq : with_p =
                (outcome without, final_fs without,
                 [CallProtonate smiles ph_min ph_max float_1_0 128%Z;
                  Print (ErrorProtonating smiles e);
                  Print (GeneratedStates 1 ph_min ph_max);
                  Print (VariantLine 1 smiles)] ++ events without)).
  { subst with_p without. unfold smiles_to_3d.
    unfold try_then at 1. rewrite Hp.
    unfold try_then at 1. unfold bind, print, emit, ret, index0; simpl.
    destruct (try_catch (generate_3d smiles output_base num_confs optimize (Some [smiles]))
                (on_error smiles (Some [smiles])) fs) as [[r fs1] t1].
    reflexivity. }
  rewrite Heq. auto.
Qed.

(** C9. When protonation is requested and the library returns a first
    variant followed by others, [smiles_to_3d] does with the first variant
    exactly what it does, without protonation, with that variant as input:
    same molecule and properties, same files, same events after the
    protonation messages.  The other variants appear in the printed list and
    in the returned variant list only. *)
Theorem smiles_to_3d_uses_first_variant
    (smiles output_base : string) (num_confs : Z) (optimize : bool)
    (ph_min ph_max : Num) (first : string) (others : list string) (fs : FS) :
  dimorphite_protonate_smiles smiles ph_min ph_max float_1_0 128%Z = Ok (first :: others) ->
  let with_p := smiles_to_3d smiles output_base num_confs optimize true ph_min ph_max fs in
  let direct := smiles_to_3d first output_base num_confs optimize false ph_min ph_max fs in
  outcome with_p = with_variants (Some (first :: others)) (outcome direct) /\
  final_fs with_p = final_fs direct /\
  events with_p =
    CallProtonate smiles ph_min ph_max float_1_0 128%Z
    :: protonation_messages (first :: others) ph_min ph_max ++ events direct.
Proof.
  intros Hok with_p direct. subst with_p direct.
  pose proof (protonate_smiles_run smiles ph_min ph_max float_1_0 128%Z fs) as Hp.
  rewrite Hok in Hp.
  erewrite smiles_to_3d_protonated by exact Hp.
  repeat split; reflexivity.
Qed.


End Claims.

(** ** The claims on the toy libraries *)

(** C1, counterexample. In the order of the specification (parse, protonate,
    embed, optimize, export, descriptors, similarity, outputs) the stages of
    a run go back: with protonation the protonation call comes before the
    parse, and in the batch loop the properties are reported before the
    similarity is scored. *)
Lemma claimed_order_fails :
  ordered_by claimed_rank
    (events (smiles_to_3d (L := Toy.libs) "CC(=O)O" "output" 10%Z true true 6%Z 8%Z
               Toy.empty_fs)) = false /\
  ordered_by claimed_rank
    (events (process_line (L := Toy.libs) "out" (Some (Toy.mol "CCO" false 0 0))
               "morgan" 2%Z 2048%Z false 6%Z 8%Z 10%Z None 0 "CCO" Toy.batch_fs)) = false.
Proof. split; vm_compute; reflexivity. Qed.

(** C3, on the toy libraries. *)
Lemma smiles_to_3d_without_protonation_witness :
  exists mol props,
    outcome (smiles_to_3d (L := Toy.libs) "CCO" "output" 10%Z true false 6%Z 8%Z Toy.empty_fs)
    = Ok (mol, props, Some ["CCO"]).
Proof.
  exact (proj1 (smiles_to_3d_without_protonation (L := Toy.libs) "CCO" "output" 10%Z true
                  6%Z 8%Z Toy.empty_fs)).
Defined.



(** C4, counterexample. From the command line the optimization cannot be
    skipped: whatever the options, a run on the SMILES CCO makes MMFF
    calls. *)
Lemma optimization_cannot_be_skipped :
  ~ exists args : Args (L := Toy.libs),
      arg_input args = Some "CCO" /\
      Forall (fun ev => is_mmff ev = false) (events (main args Toy.empty_fs)).
Proof.
  intros [args [Hin Hall]].
  assert (Hc : chosen_smiles (L := Toy.libs) "CCO" (arg_protonate args) (arg_ph_min args)
                 (arg_ph_max args) = Some "CCO")
    by (destruct (arg_protonate args); reflexivity).
  rewrite (main_single args (input := "CCO") Toy.empty_fs Hin eq_refl) in Hall.
  pose proof (@single_process_optimizes Toy.libs "CCO" (arg_output args) (arg_num_confs args)
                (arg_reference args) (arg_fp_type args) (arg_radius args) (arg_bits args)
                (arg_protonate args) (arg_ph_min args) (arg_ph_max args) Toy.empty_fs
                "CCO" (Toy.mol "CCO" false 0 0) (Toy.mol "CCO" true 0 0)
                (Toy.mol "CCO" true 2 0) Hc eq_refl eq_refl eq_refl) as Hin_mmff.
  assert (Hlt : 0 < @GetNumConformers Toy.libs (Toy.mol "CCO" true 2 0))
    by (simpl; lia).
  specialize (Hin_mmff Hlt).
  rewrite Forall_forall in Hall. specialize (Hall _ Hin_mmff). discriminate.
Qed.

(** C4, on the toy libraries. *)
Lemma optimization_step_witness :
  In (CallMMFF (L := Toy.libs) (Toy.mol "CCO" true 2 0) 0 "MMFF94s" 1000%Z)
     (events (single_process (L := Toy.libs) "CCO" "output" 10%Z None "morgan" 2%Z 2048%Z
                false 6%Z 8%Z Toy.empty_fs)).
Proof.
  apply (proj1 (proj2 (optimization_step (L := Toy.libs)))
           "CCO" "output" 10%Z None "morgan" 2%Z 2048%Z false 6%Z 8%Z Toy.empty_fs
           "CCO" (Toy.mol "CCO" false 0 0) (Toy.mol "CCO" true 0 0)
           (Toy.mol "CCO" true 2 0));
    solve [reflexivity | simpl; lia].
Defined.

(** C5, on the toy libraries. *)
Lemma no_similarity_without_reference_witness :
  truthy_opt_str None = false /\
  Forall (fun ev => is_similarity ev = false)
    (events (batch_process (L := Toy.libs) "in.smi" "out" None "morgan" 2%Z 2048%Z false
               6%Z 8%Z 10%Z Toy.batch_fs)).
Proof.
  split; [reflexivity|].
  apply (proj1 (proj2 (no_similarity_without_reference (L := Toy.libs) None eq_refl))).
Defined.

(** C7, on the toy libraries. *)
Lemma calculate_tanimoto_similarity_witness :
  outcome (calculate_tanimoto_similarity (L := Toy.libs)
             (Some (Toy.mol "CCO" true 2 2)) (Some (Toy.mol "CCO" false 0 0))
             "morgan" 2%Z 2048%Z Toy.empty_fs) = Ok (Some 1%Z) /\
  events (calculate_tanimoto_similarity (L := Toy.libs)
            (Some (Toy.mol "CCO" true 2 2)) (Some (Toy.mol "CCO" false 0 0))
            "morgan" 2%Z 2048%Z Toy.empty_fs) =
  [CallMorgan (Toy.mol "CCO" true 2 2) 2%Z 2048%Z;
   CallMorgan (Toy.mol "CCO" false 0 0) 2%Z 2048%Z; CallTanimoto (Toy.fp "CCO") (Toy.fp "CCO")].
Proof.
  apply (proj1 (proj2 (proj2 (calculate_tanimoto_similarity_spec (L := Toy.libs)
                                (Some (Toy.mol "CCO" true 2 2))
                                (Some (Toy.mol "CCO" false 0 0))
                                "morgan" 2%Z 2048%Z Toy.empty_fs)))
           (Toy.mol "CCO" true 2 2) (Toy.mol "CCO" false 0 0) "CCO" "CCO" 1%Z);
    reflexivity.
Defined.

(** C8, on the toy libraries: the protonation of CN raises. *)
Lemma protonate_smiles_fallback_witness :
  @dimorphite_protonate_smiles Toy.libs "CN" 6%Z 8%Z 1%Z 128%Z
    = Raise (Toy.raised "dimorphite") /\
  protonate_smiles (L := Toy.libs) "CN" 6%Z 8%Z 1%Z 128%Z Toy.empty_fs =
    (Ok ["CN"], Toy.empty_fs,
     [CallProtonate (L := Toy.libs) "CN" 6%Z 8%Z 1%Z 128%Z;
      Print (ErrorProtonating "CN" (Toy.raised "dimorphite"))]).
Proof.
  split; [reflexivity|].
  apply (proj1 (protonate_smiles_fallback (L := Toy.libs) "CN" 6%Z 8%Z 1%Z 128%Z
                  Toy.empty_fs (e := Toy.raised "dimorphite") eq_refl)).
Defined.

(** C9, on the toy libraries: acetic acid has two variants. *)
Lemma smiles_to_3d_uses_first_variant_witness :
  @dimorphite_protonate_smiles Toy.libs "CC(=O)O" 6%Z 8%Z 1%Z 128%Z
    = Ok ["CC(=O)[O-]"; "CC(=O)O"] /\
  final_fs (smiles_to_3d (L := Toy.libs) "CC(=O)O" "output" 10%Z true true 6%Z 8%Z
              Toy.empty_fs) =
  final_fs (smiles_to_3d (L := Toy.libs) "CC(=O)[O-]" "output" 10%Z true false 6%Z 8%Z
              Toy.empty_fs).
Proof.
  split; [reflexivity|].
  apply (proj1 (proj2 (smiles_to_3d_uses_first_variant (L := Toy.libs) "CC(=O)O" "output"
                         10%Z true 6%Z 8%Z (first := "CC(=O)[O-]") (others := ["CC(=O)O"])
                         Toy.empty_fs eq_refl))).
Defined.




(** The files written for that input: the third line gives mol_3. *)
Example batch_names_example :
  written_files
    (events (batch_process (L := Toy.libs) "in.smi" "out" None "morgan" 2%Z 2048%Z false
               6%Z 8%Z 10%Z Toy.batch_fs)) =
  ["out/mol_1.pdb"; "out/mol_1.mol2"; "out/mol_1.sdf"; "out/mol_1.pdbqt";
   "out/mol_3.pdb"; "out/mol_3.mol2"; "out/mol_3.sdf"; "out/mol_3.pdbqt"].
Proof. vm_compute. reflexivity. Qed.

(** ** The string and path helpers on small inputs *)

Example strip_line : Py.strip ("  CCO " ++ Py.tab ++ Py.newline) = "CCO".
Proof. reflexivity. Qed.

Example strip_blank : Py.strip (" " ++ Py.newline) = "".
Proof. reflexivity. Qed.

Example path_join_plain : Py.path_join "out" "mol_12" = "out/mol_12".
Proof. reflexivity. Qed.

Example path_join_slash : Py.path_join "out/" "mol_1" = "out/mol_1".
Proof. reflexivity. Qed.

Example path_join_empty : Py.path_join "" "mol_1" = "mol_1".
Proof. reflexivity. Qed.

Example dirname_plain : Py.dirname "out/run1/mol_1" = "out/run1".
Proof. reflexivity. Qed.

Example dirname_none : Py.dirname "output" = "".
Proof. reflexivity. Qed.

Example dirname_root : Py.dirname "/mol" = "/".
Proof. reflexivity. Qed.

Example dirname_double : Py.dirname "out//mol" = "out".
Proof. reflexivity. Qed.

Example str_of_nat_10 : Py.str_of_nat 10 = "10".
Proof. reflexivity. Qed.

(** ** Returns and exceptions *)

Section Exceptions.

Context {L : ChemLibs}.

Lemma sx_ret A (p : Event -> Prop) (Q : A -> Prop) E a : Q a -> spec_exn p Q E (ret a).
Proof. intros H fs; split; simpl; auto. Qed.

Lemma sx_raise A (p : Event -> Prop) (Q : A -> Prop) (E : Exn -> Prop) e :
  E e -> spec_exn p Q E (raise e).
Proof. intros H fs; split; simpl; auto. Qed.

Lemma sx_emit (p : Event -> Prop) (Q : unit -> Prop) E ev :
  p ev -> Q tt -> spec_exn p Q E (emit ev).
Proof. intros H HQ fs; split; simpl; auto. Qed.

Lemma sx_call A (p : Event -> Prop) (Q : A -> Prop) (E : Exn -> Prop) ev (r : result Exn A) :
  p ev -> (forall a, r = Ok a -> Q a) -> (forall e, r = Raise e -> E e) ->
  spec_exn p Q E (call ev r).
Proof.
  intros H HQ HE fs; split; simpl; auto.
  unfold outcome; simpl. destruct r; auto.
Qed.

Lemma sx_update_fs (p : Event -> Prop) (Q : unit -> Prop) E f :
  Q tt -> spec_exn p Q E (update_fs f).
Proof. intros HQ fs; split; simpl; auto. Qed.

Lemma sx_bind A B (p : Event -> Prop) (Q1 : A -> Prop) (Q : B -> Prop) (E : Exn -> Prop)
    (m : M A) (f : A -> M B) :
  spec_exn p Q1 E m -> (forall a, Q1 a -> spec_exn p Q E (f a)) ->
  spec_exn p Q E (bind m f).
Proof.
  intros Hm Hf fs. rewrite events_bind, outcome_bind.
  destruct (Hm fs) as [Ht Hq].
  destruct (outcome (m fs)) as [a|e].
  - destruct (Hf a Hq (final_fs (m fs))) as [Ht2 Hq2].
    split; auto. apply Forall_app; auto.
  - rewrite app_nil_r; auto.
Qed.

Lemma sx_try_then A B (p : Event -> Prop) (Q1 : A -> Prop) (E1 : Exn -> Prop)
    (Q : B -> Prop) (E : Exn -> Prop) (m : M A) (h : Exn -> M B) (k : A -> M B) :
  spec_exn p Q1 E1 m ->
  (forall e, E1 e -> spec_exn p Q E (h e)) ->
  (forall a, Q1 a -> spec_exn p Q E (k a)) ->
  spec_exn p Q E (try_then m h k).
Proof.
  intros Hm Hh Hk fs. rewrite events_try_then, outcome_try_then.
  destruct (Hm fs) as [Ht Hq].
  destruct (outcome (m fs)) as [a|e].
  - destruct (Hk a Hq (final_fs (m fs))) as [Ht2 Hq2].
    split; auto. apply Forall_app; auto.
  - destruct (Hh e Hq (final_fs (m fs))) as [Ht2 Hq2].
    split; auto. apply Forall_app; auto.
Qed.

Lemma sx_try_catch A (p : Event -> Prop) (E1 : Exn -> Prop) (Q : A -> Prop)
    (E : Exn -> Prop) (m : M A) (h : Exn -> M A) :
  spec_exn p Q E1 m -> (forall e, E1 e -> spec_exn p Q E (h e)) ->
  spec_exn p Q E (try_catch m h).
Proof.
  intros Hm Hh. unfold try_catch.
  apply sx_try_then with (Q1 := Q) (E1 := E1); auto.
  intros a Ha. now apply sx_ret.
Qed.

Lemma sx_weaken A (p p' : Event -> Prop) (Q Q' : A -> Prop) (E E' : Exn -> Prop) (m : M A) :
  spec_exn p Q E m -> (forall ev, p ev -> p' ev) -> (forall a, Q a -> Q' a) ->
  (forall e, E e -> E' e) -> spec_exn p' Q' E' m.
Proof.
  intros Hm Hp HQ HE fs. destruct (Hm fs) as [Ht Hq]. split.
  - eapply Forall_impl; eauto.
  - destruct (outcome (m fs)); auto.
Qed.

Lemma sx_for_each A (p : Event -> Prop) (E : Exn -> Prop) (xs : list A) (f : A -> M unit) :
  (forall x, In x xs -> spec_exn p (fun _ => True) E (f x)) ->
  spec_exn p (fun _ => True) E (for_each xs f).
Proof.
  induction xs as [|x xs IH]; intros H; simpl.
  - now apply sx_ret.
  - apply sx_bind with (Q1 := fun _ => True).
    + apply H; now left.
    + intros _ _. apply IH. intros y Hy. apply H. now right.
Qed.

Lemma sx_log A (p : Event -> Prop) (Q : A -> Prop) E (m : Msg) (a : A) :
  p (LogError m) -> Q a -> spec_exn p Q E (log_error m ;; ret a).
Proof.
  intros Hp HQ. apply sx_bind with (Q1 := fun _ => True).
  - now apply sx_emit.
  - intros _ _. now apply sx_ret.
Qed.

Lemma sx_events A (p : Event -> Prop) (Q : A -> Prop) E (m : M A) fs :
  spec_exn p Q E m -> Forall p (events (m fs)).
Proof. intros H. apply H. Qed.

Lemma sx_outcome A (p : Event -> Prop) (Q : A -> Prop) E (m : M A) fs a :
  spec_exn p Q E m -> outcome (m fs) = Ok a -> Q a.
Proof. intros H Ha. destruct (H fs) as [_ Hq]. now rewrite Ha in Hq. Qed.

Lemma sx_never A (p : Event -> Prop) (Q : A -> Prop) (m : M A) fs :
  spec_exn p Q (fun _ => False) m -> exists a, outcome (m fs) = Ok a /\ Q a.
Proof.
  intros H. destruct (H fs) as [_ Hq].
  destruct (outcome (m fs)) as [a|e]; [eauto | contradiction].
Qed.

(** *** The helpers of [smiles_to_3d] *)

Lemma sx_optimize_conformers (p : Event -> Prop) smiles conf_ids : forall mol,
  (forall m c, p (CallMMFF m c "MMFF94s" 1000%Z)) ->
  (forall m c e, snd (MMFFOptimizeMolecule m c "MMFF94s" 1000%Z) = Some e ->
                 p (LogWarning (OptimizationFailed c smiles e))) ->
  spec_exn p (fun mol' => mol' = optimized_mol mol conf_ids) (fun _ => False)
    (optimize_conformers smiles mol conf_ids).
Proof.
  induction conf_ids as [|c rest IH]; intros mol Hc Hw; simpl.
  - now apply sx_ret.
  - apply sx_bind
      with (Q1 := fun m' => m' = fst (MMFFOptimizeMolecule mol c "MMFF94s" 1000%Z)).
    + unfold optimize_conformer. apply sx_bind with (Q1 := fun _ => True).
      * apply sx_emit; auto.
      * intros _ _.
        pose proof (Hw mol c) as Hwc.
        destruct (MMFFOptimizeMolecule mol c "MMFF94s" 1000%Z) as [m' [e|]]; simpl in *.
        -- apply sx_bind with (Q1 := fun _ => True);
             [apply sx_emit; auto | intros _ _; now apply sx_ret].
        -- now apply sx_ret.
    + intros m' ->. apply IH; auto.
Qed.

Lemma sx_compute_properties (p : Event -> Prop) mol table :
  (forall d, p (CallDescriptor d mol)) ->
  spec_exn p (fun props => properties_result mol table = Ok props)
    (fun e => properties_result mol table = Raise e)
    (compute_properties mol table).
Proof.
  intros Hd. induction table as [|[key d] table IH]; simpl.
  - now apply sx_ret.
  - destruct (descriptor d mol) as [v|e] eqn:Hv.
    + apply sx_bind with (Q1 := fun a => a = v).
      * apply sx_call; auto; intros; congruence.
      * intros a ->.
        destruct (properties_result mol table) as [rest|e'].
        -- apply sx_bind with (Q1 := fun r => r = rest).
           ++ eapply sx_weaken; [exact IH|auto| |]; intros; congruence.
           ++ intros r ->. now apply sx_ret.
        -- apply sx_bind with (Q1 := fun _ => False).
           ++ eapply sx_weaken; [exact IH|auto| |]; intros; congruence.
           ++ intros r [].
    + apply sx_bind with (Q1 := fun _ => False).
      * apply sx_call; auto; intros a0 H; inversion H; subst; reflexivity.
      * intros a [].
Qed.

Lemma sx_write_format (p : Event -> Prop) ob_mol output_base fmt :
  p (CallWrite ob_mol fmt (output_base ++ "." ++ fmt)%string true) ->
  (forall e, pybel_write ob_mol fmt (output_base ++ "." ++ fmt)%string true = Raise e ->
             p (LogError (WriteFailed (output_base ++ "." ++ fmt)%string e))) ->
  spec_exn p (fun _ => True) (fun _ => False) (write_format ob_mol output_base fmt).
Proof.
  intros Hw He. unfold write_format.
  apply sx_try_catch
    with (E1 := fun e => pybel_write ob_mol fmt (output_base ++ "." ++ fmt)%string true
                         = Raise e).
  - apply sx_bind with (Q1 := fun _ => True).
    + apply sx_call; auto.
    + intros c _. now apply sx_update_fs.
  - intros e Hr. apply sx_emit; auto.
Qed.

Lemma sx_ensure_output_dir (p : Event -> Prop) output_base :
  p (MakeDirs (Py.dirname output_base)) ->
  spec_exn p (fun _ => True) (fun _ => False) (ensure_output_dir output_base).
Proof.
  intros H fs. split.
  - apply (spec_events fs (@spec_ensure_output_dir L p output_base H)).
  - destruct (ensure_output_dir_run output_base fs) as [fs' [t [E _]]].
    rewrite E. exact I.
Qed.

End Exceptions.

(** ** What [smiles_to_3d] returns and what its messages mean *)

Section Returns.

Context {L : ChemLibs}.

Lemma sx_generate_3d smiles output_base num_confs optimize protonate ph_min ph_max
    chosen variants :
  chosen_smiles smiles protonate ph_min ph_max = Some chosen ->
  spec_exn (log_backed smiles output_base num_confs optimize protonate ph_min ph_max)
    (fun r =>
       snd r = variants /\
       match fst r with
       | (None, None) => True
       | (Some mol, Some props) =>
           exists mol0 mol1 mol2,
             MolFromSmiles chosen = Ok (Some mol0) /\
             AddHs mol0 = Ok mol1 /\
             EmbedMultipleConfs mol1 num_confs 42%Z true = Ok mol2 /\
             mol = exported_mol optimize mol2 /\
             (properties_result mol descriptor_table = Ok props \/
              (props = [] /\ exists e, properties_result mol descriptor_table = Raise e))
       | _ => False
       end)
    (fun e => MolFromSmiles chosen = Raise e \/ exists mol, AddHs mol = Raise e)
    (generate_3d chosen output_base num_confs optimize variants).
Proof.
  intros Hc. unfold generate_3d.
  apply sx_bind with (Q1 := fun a => MolFromSmiles chosen = Ok a).
  { apply sx_call; simpl; auto. }
  intros [mol0|] Hparse.
  2:{ apply sx_log; simpl; auto. }
  apply sx_bind with (Q1 := fun a => AddHs mol0 = Ok a).
  { apply sx_call; simpl; eauto. }
  intros mol1 Hhs.
  apply sx_try_then
    with (Q1 := fun a => EmbedMultipleConfs mol1 num_confs 42%Z true = Ok a)
         (E1 := fun e => EmbedMultipleConfs mol1 num_confs 42%Z true = Raise e).
  { apply sx_call; simpl; auto. }
  { intros e He. apply sx_log; simpl; eauto. }
  intros mol2 Hembed.
  apply sx_bind with (Q1 := fun m => m = exported_mol optimize mol2).
  { unfold exported_mol. destruct optimize.
    - apply sx_weaken
        with (p := log_backed smiles output_base num_confs true protonate ph_min ph_max)
             (Q := fun m => m = optimized_mol mol2 (seq 0 (GetNumConformers mol2)))
             (E := fun _ : Exn => False);
        [apply sx_optimize_conformers; simpl; eauto | auto | auto | intros e []].
    - now apply sx_ret. }
  intros mol ->.
  set (mol := exported_mol optimize mol2).
  apply sx_try_then
    with (Q1 := fun _ : OBMol => True)
         (E1 := fun e => (exists m, MolToMolBlock m = Raise e) \/
                         (exists data, pybel_readstring "mol" data = Raise e)).
  { apply sx_bind with (Q1 := fun _ => True).
    - apply sx_call; simpl; eauto.
    - intros sdf _. apply sx_call; simpl; eauto. }
  { intros e He. apply sx_log; simpl; auto. }
  intros ob_mol _.
  apply sx_bind with (Q1 := fun _ => True).
  { apply sx_weaken
      with (p := log_backed smiles output_base num_confs optimize protonate ph_min ph_max)
           (Q := fun _ : unit => True) (E := fun _ : Exn => False);
      [apply sx_ensure_output_dir; exact I | auto | auto | intros e []]. }
  intros _ _.
  apply sx_bind with (Q1 := fun _ => True).
  { apply sx_for_each. intros fmt Hfmt.
    apply sx_weaken
      with (p := log_backed smiles output_base num_confs optimize protonate ph_min ph_max)
           (Q := fun _ : unit => True) (E := fun _ : Exn => False);
      [apply sx_write_format; [exact I|] | auto | auto | intros e []].
    intros e He. exists ob_mol, fmt. auto. }
  intros _ _.
  apply sx_bind
    with (Q1 := fun props =>
                  properties_result mol descriptor_table = Ok props \/
                  (props = [] /\ exists e, properties_result mol descriptor_table = Raise e)).
  { apply sx_try_catch
      with (E1 := fun e => properties_result mol descriptor_table = Raise e).
    - apply sx_weaken
        with (p := log_backed smiles output_base num_confs optimize protonate ph_min ph_max)
             (Q := fun props => properties_result mol descriptor_table = Ok props)
             (E := fun e => properties_result mol descriptor_table = Raise e);
        [apply sx_compute_properties; intros; exact I | auto | auto | auto].
    - intros e He. apply sx_log; [unfold log_backed; eauto | right; eauto]. }
  intros props Hprops. apply sx_ret. split; [reflexivity|]. cbn [fst snd].
  exists mol0, mol1, mol2. auto.
Qed.

Lemma sx_smiles_to_3d smiles output_base num_confs optimize protonate ph_min ph_max :
  spec_exn (log_backed smiles output_base num_confs optimize protonate ph_min ph_max)
    (returned_by smiles num_confs optimize protonate ph_min ph_max)
    (fun _ => False)
    (smiles_to_3d smiles output_base num_confs optimize protonate ph_min ph_max).
Proof.
  assert (Hguard : forall chosen variants,
             chosen_smiles smiles protonate ph_min ph_max = Some chosen ->
             variants = variants_of smiles protonate ph_min ph_max ->
             spec_exn (log_backed smiles output_base num_confs optimize protonate ph_min ph_max)
               (returned_by smiles num_confs optimize protonate ph_min ph_max)
               (fun _ => False)
               (try_catch (generate_3d chosen output_base num_confs optimize (Some variants))
                  (on_error chosen (Some variants)))).
  { intros chosen variants Hc Hv.
    apply sx_try_catch
      with (E1 := fun e => MolFromSmiles chosen = Raise e \/ exists mol, AddHs mol = Raise e).
    - eapply sx_weaken;
        [apply (@sx_generate_3d smiles output_base num_confs optimize protonate ph_min ph_max
                  chosen (Some variants) Hc)|auto| |auto].
      intros [[mol props] v] [Hsnd Hfst]. simpl in *. subst v. split; [now rewrite Hv|].
      simpl. destruct mol as [mol|], props as [props|]; auto.
      destruct Hfst as [mol0 [mol1 [mol2 H]]]. exists chosen, mol0, mol1, mol2. tauto.
    - intros e He. unfold on_error. apply sx_log; simpl; auto.
      split; [now rewrite Hv | exact I]. }
  unfold smiles_to_3d. destruct protonate.
  - apply sx_try_then
      with (Q1 := fun variants => variants = variants_of smiles true ph_min ph_max)
           (E1 := fun _ => False).
    + unfold protonate_smiles.
      apply sx_try_catch
        with (E1 := fun e => dimorphite_protonate_smiles smiles ph_min ph_max float_1_0 128%Z
                             = Raise e).
      * apply sx_call; simpl; auto.
        intros variants Hv. unfold variants_of. now rewrite Hv.
      * intros e He. apply sx_bind with (Q1 := fun _ => True).
        -- apply sx_emit; simpl; auto.
        -- intros _ _. apply sx_ret. unfold variants_of. now rewrite He.
    + intros e [].
    + intros variants Hv.
      apply sx_try_then
        with (Q1 := fun first => exists rest, variants = first :: rest)
             (E1 := fun e => e = IndexError /\ variants = []).
      * intros fs. rewrite announce_run. unfold events, outcome. simpl. split.
        -- unfold protonation_messages. constructor; [exact I|].
           apply Forall_app. split.
           ++ apply Forall_forall. intros ev Hin. apply in_map_iff in Hin.
              destruct Hin as [iv [<- _]]. exact I.
           ++ destruct (1 <? List.length variants); [|constructor].
              destruct variants; repeat constructor.
        -- destruct variants as [|first rest]; eauto.
      * intros e [-> Hnil]. unfold on_error. apply sx_log.
        -- simpl. left. repeat split; auto.
           subst variants. unfold variants_of in Hnil.
           destruct (dimorphite_protonate_smiles smiles ph_min ph_max float_1_0 128%Z)
             as [v|e]; [now subst v | discriminate].
        -- split; simpl; [now rewrite Hv | exact I].
      * intros first [rest Hfirst]. apply Hguard; auto.
        subst variants. unfold chosen_smiles, variants_of in *.
        destruct (dimorphite_protonate_smiles smiles ph_min ph_max float_1_0 128%Z)
          as [v|e]; [subst v; reflexivity | now inversion Hfirst].
  - apply Hguard; reflexivity.
Qed.

End Returns.

(** ** Properties of [smiles_to_3d] and of the small functions *)

Section SmallFunctions.

Context {L : ChemLibs}.

Lemma properties_result_keys mol table props :
  properties_result mol table = Ok props ->
  map fst props = map fst table /\
  Forall2 (fun kd kv => descriptor (snd kd) mol = Ok (snd kv)) table props.
Proof.
  revert props. induction table as [|[key d] table IH]; intros props H; simpl in H.
  - inversion H. split; constructor.
  - destruct (descriptor d mol) as [v|e] eqn:Hv; [|discriminate].
    destruct (properties_result mol table) as [rest|e]; [|discriminate].
    inversion H; subst. destruct (IH rest eq_refl) as [Hk Hf].
    split; simpl; [now rewrite Hk | constructor; auto].
Qed.


(** X2. [smiles_to_3d] always returns, and its third value is never [None]:
    on every path, failures included, it is the whole list of variants of
    lines 48-59, that is the list Dimorphite returned when protonation was
    asked (the input alone when Dimorphite raised), and the input alone
    otherwise. *)
Theorem smiles_to_3d_returns_variants
    (smiles output_base : string) (num_confs : Z) (optimize protonate : bool)
    (ph_min ph_max : Num) (fs : FS) :
  exists mol props,
    outcome (smiles_to_3d smiles output_base num_confs optimize protonate ph_min ph_max fs)
    = Ok (mol, props, Some (variants_of smiles protonate ph_min ph_max)).
Proof.
  destruct (sx_never fs
              (sx_smiles_to_3d smiles output_base num_confs optimize protonate ph_min ph_max))
    as [[[mol props] v] [Hout [Hv _]]].
  simpl in Hv. subst v. eauto.
Qed.

(** X3. When [smiles_to_3d] returns a molecule, it is the molecule parsed
    from the chosen SMILES (the input, or the first variant), with hydrogens
    added, embedded with the requested number of conformers and seed 42, and
    optimized conformer by conformer when optimization is on; and molecule
    and properties come together: both [None], or both present. *)
Theorem smiles_to_3d_returns_processed_molecule
    (smiles output_base : string) (num_confs : Z) (optimize protonate : bool)
    (ph_min ph_max : Num) (fs : FS) (mol : option Mol) (props : option Props)
    (variants : option (list string)) :
  outcome (smiles_to_3d smiles output_base num_confs optimize protonate ph_min ph_max fs)
    = Ok (mol, props, variants) ->
  (mol = None /\ props = None) \/
  (exists chosen mol0 mol1 mol2 p,
      chosen_smiles smiles protonate ph_min ph_max = Some chosen /\
      MolFromSmiles chosen = Ok (Some mol0) /\
      AddHs mol0 = Ok mol1 /\
      EmbedMultipleConfs mol1 num_confs 42%Z true = Ok mol2 /\
      mol = Some (if optimize
                  then optimized_mol mol2 (seq 0 (GetNumConformers mol2))
                  else mol2) /\
      props = Some p).
Proof.
  intros Hout.
  pose proof (sx_outcome fs
                (sx_smiles_to_3d smiles output_base num_confs optimize protonate
                   ph_min ph_max) Hout) as [_ H].
  cbn [fst snd] in H.
  destruct mol as [m|], props as [p|]; try contradiction; [right|left; auto].
  destruct H as [chosen [mol0 [mol1 [mol2 [Hc [Hp [Hh [He [Hm _]]]]]]]]].
  exists chosen, mol0, mol1, mol2, p. subst m. unfold exported_mol. auto 10.
Qed.

(** X4. The dictionary of properties [smiles_to_3d] returns is all or
    nothing: it is empty (the calculation raised), or it has exactly the ten
    keys of lines 113-122 in that order, each with the value its descriptor
    function returned for the returned molecule. *)
Theorem properties_all_or_nothing
    (smiles output_base : string) (num_confs : Z) (optimize protonate : bool)
    (ph_min ph_max : Num) (fs : FS) (mol : option Mol) (props : Props)
    (variants : option (list string)) :
  outcome (smiles_to_3d smiles output_base num_confs optimize protonate ph_min ph_max fs)
    = Ok (mol, Some props, variants) ->
  exists m,
    mol = Some m /\
    ((props = [] /\ exists e, properties_result m descriptor_table = Raise e) \/
     (map fst props =
        ["Molecular Weight"; "Crippen_LogP"; "Crippen_MR"; "H-Bond Donors";
         "H-Bond Acceptors"; "TPSA"; "Rotatable Bonds"; "#Aliphatic Rings";
         "#Aromatic Rings"; "#Heteroaromatic Rings"] /\
      Forall2 (fun kd kv => descriptor (snd kd) m = Ok (snd kv)) descriptor_table props)).
Proof.
  intros Hout.
  pose proof (sx_outcome fs
                (sx_smiles_to_3d smiles output_base num_confs optimize protonate
                   ph_min ph_max) Hout) as [_ H].
  cbn [fst snd] in H.
  destruct mol as [m|]; [|contradiction].
  destruct H as [chosen [mol0 [mol1 [mol2 [_ [_ [_ [_ [Hm Hprops]]]]]]]]].
  exists m. split; [reflexivity|]. subst m.
  destruct Hprops as [Hok|[Hnil He]]; [right|left; auto].
  destruct (properties_result_keys _ _ Hok) as [Hk Hf]. split; [exact Hk | exact Hf].
Qed.


(** X6. When protonation is asked and Dimorphite returns an empty list, the
    index error of line 57 is caught by the outer guard: nothing is parsed
    and no file is written, the error is logged with the input SMILES, and
    [None, None] comes back with the empty list. *)
Theorem smiles_to_3d_empty_variants
    (smiles output_base : string) (num_confs : Z) (optimize : bool)
    (ph_min ph_max : Num) (fs : FS) :
  dimorphite_protonate_smiles smiles ph_min ph_max float_1_0 128%Z = Ok [] ->
  smiles_to_3d smiles output_base num_confs optimize true ph_min ph_max fs =
  (Ok (None, None, Some []), fs,
   [CallProtonate smiles ph_min ph_max float_1_0 128%Z;
    Print (GeneratedStates 0 ph_min ph_max);
    LogError (ErrorProcessing smiles IndexError)]).
Proof.
  intros Hnil.
  pose proof (protonate_smiles_run smiles ph_min ph_max float_1_0 128%Z fs) as Hp.
  rewrite Hnil in Hp.
  erewrite smiles_to_3d_protonated by exact Hp. reflexivity.
Qed.

(** X7. [is_valid_smiles] makes one parse call and changes nothing, and it
    answers [False] exactly for the SMILES that [smiles_to_3d], without
    protonation, rejects with the error Invalid SMILES. *)
Theorem is_valid_smiles_agrees
    (smiles output_base : string) (num_confs : Z) (optimize : bool)
    (ph_min ph_max : Num) (fs fs' : FS) :
  events (is_valid_smiles smiles fs) = [CallMolFromSmiles smiles] /\
  final_fs (is_valid_smiles smiles fs) = fs /\
  (outcome (is_valid_smiles smiles fs) = Ok false <->
   In (LogError (InvalidSmiles smiles))
      (events (smiles_to_3d smiles output_base num_confs optimize false ph_min ph_max fs'))).
Proof.
  assert (Hrun : is_valid_smiles smiles fs =
                 (match MolFromSmiles smiles with
                  | Ok (Some _) => Ok true
                  | Ok None => Ok false
                  | Raise e => Raise e
                  end, fs, [CallMolFromSmiles smiles])).
  { unfold is_valid_smiles, bind, call, ret.
    destruct (MolFromSmiles smiles) as [[m|]|e]; reflexivity. }
  split; [rewrite Hrun; reflexivity|]. split; [rewrite Hrun; reflexivity|].
  rewrite Hrun. unfold outcome at 1. cbn [fst]. split.
  - intros H.
    assert (Hnone : MolFromSmiles smiles = Ok None)
      by (destruct (MolFromSmiles smiles) as [[m|]|e]; [discriminate|reflexivity|discriminate]).
    destruct (plain_failures smiles output_base num_confs optimize ph_min ph_max fs')
      as [Hinv _].
    destruct (Hinv Hnone) as [_ Hev]. cbv zeta in Hev. rewrite Hev. simpl. auto.
  - intros Hin.
    pose proof (sx_events fs'
                  (sx_smiles_to_3d smiles output_base num_confs optimize false ph_min ph_max))
      as Hall.
    rewrite Forall_forall in Hall. specialize (Hall _ Hin).
    simpl in Hall. destruct Hall as [_ Hnone]. now rewrite Hnone.
Qed.

End SmallFunctions.

(** ** The files that are written *)

Section Attempts.

Context {L : ChemLibs}.

Lemma written_files_app (t1 t2 : list Event) :
  written_files (t1 ++ t2) = written_files t1 ++ written_files t2.
Proof. apply flat_map_app. Qed.

Lemma written_none (t : list Event) :
  Forall (fun ev => is_write ev = false) t -> written_files t = [].
Proof.
  induction 1 as [|ev t Hev _ IH]; [reflexivity|].
  unfold written_files in *. simpl. rewrite IH.
  destruct ev; simpl in *; auto; discriminate.
Qed.

Lemma att_quiet A (Q : A -> Prop) (m : M A) :
  spec (fun ev => is_write ev = false) Q m -> attempts (fun _ => []) m.
Proof. intros H fs. apply written_none. apply (spec_events fs H). Qed.

Lemma att_ret A (F : result Exn A -> list string) (a : A) :
  F (Ok a) = [] -> attempts F (ret a).
Proof. intros H fs. unfold ret, outcome, events. cbn [fst snd]. now rewrite H. Qed.

Lemma att_log A (F : result Exn A -> list string) (m : Msg) (a : A) :
  F (Ok a) = [] -> attempts F (log_error m ;; ret a).
Proof.
  intros H fs. unfold bind, log_error, emit, ret, outcome, events. cbn [fst snd app].
  now rewrite H.
Qed.

Lemma att_bind A B (F : result Exn B -> list string) (m : M A) (f : A -> M B) :
  attempts (fun _ => []) m -> (forall e, F (Raise e) = []) ->
  (forall a, attempts F (f a)) -> attempts F (bind m f).
Proof.
  intros Hm Hr Hf fs. rewrite events_bind, outcome_bind, written_files_app, (Hm fs).
  destruct (outcome (m fs)) as [a|e]; simpl; [apply Hf | now rewrite Hr].
Qed.

Lemma att_try_then A B (F : result Exn B -> list string) (m : M A) (h : Exn -> M B)
    (k : A -> M B) :
  attempts (fun _ => []) m -> (forall e, attempts F (h e)) ->
  (forall a, attempts F (k a)) -> attempts F (try_then m h k).
Proof.
  intros Hm Hh Hk fs.
  rewrite events_try_then, outcome_try_then, written_files_app, (Hm fs).
  destruct (outcome (m fs)) as [a|e]; simpl; [apply Hk | apply Hh].
Qed.

Lemma att_try_catch A (F : result Exn A -> list string) (m : M A) (h : Exn -> M A) :
  attempts F m -> (forall e, F (Raise e) = []) -> (forall e, attempts F (h e)) ->
  attempts F (try_catch m h).
Proof.
  intros Hm Hr Hh fs. unfold try_catch.
  rewrite events_try_then, outcome_try_then, written_files_app, (Hm fs).
  destruct (outcome (m fs)) as [a|e]; simpl.
  - now rewrite app_nil_r.
  - rewrite Hr. apply Hh.
Qed.

Lemma write_formats_run ob_mol output_base fmts : forall fs,
  for_each fmts (write_format ob_mol output_base) fs =
  (Ok tt, write_files ob_mol output_base fmts fs, write_events ob_mol output_base fmts).
Proof.
  induction fmts as [|fmt rest IH]; intros fs; simpl; [reflexivity|].
  unfold bind. unfold write_format at 1.
  unfold try_catch, try_then, bind, call, update_fs, log_error, emit, ret.
  simpl.
  match goal with
  | |- context [pybel_write ?a ?b ?c ?d] => destruct (pybel_write a b c d) as [c0|e]
  end; simpl; rewrite IH; reflexivity.
Qed.

Lemma written_write_events ob_mol output_base fmts :
  written_files (write_events ob_mol output_base fmts) =
  map (fun fmt => (output_base ++ "." ++ fmt)%string) fmts.
Proof.
  induction fmts as [|fmt rest IH]; simpl; [reflexivity|].
  unfold written_files in *. simpl.
  match goal with
  | |- context [pybel_write ?a ?b ?c ?d] => destruct (pybel_write a b c d)
  end; simpl; now rewrite IH.
Qed.

Lemma protonation_messages_prints variants ph_min ph_max :
  Forall (fun ev => exists m, ev = Print m) (protonation_messages variants ph_min ph_max).
Proof.
  unfold protonation_messages. constructor; [eauto|].
  apply Forall_app. split.
  - apply Forall_forall. intros ev Hin. apply in_map_iff in Hin.
    destruct Hin as [iv [<- _]]. eauto.
  - destruct (1 <? List.length variants); [|constructor].
    destruct variants; repeat constructor. eauto.
Qed.

Lemma export_block_run mol ob_mol output_base (variants : option (list string)) fs :
  exists fs1 t_dir t_props,
    ensure_output_dir output_base fs = (Ok tt, fs1, t_dir) /\
    files fs1 = files fs /\
    Forall (fun ev => is_makedirs ev = true) t_dir /\
    Forall (fun ev => is_write ev = false) t_props /\
    (ensure_output_dir output_base ;;
     for_each formats (write_format ob_mol output_base) ;;
     properties <- try_catch (compute_properties mol descriptor_table)
                     (fun e => log_error (PropertyFailed e) ;; ret []) ;;
     ret (Some mol, Some properties, variants)) fs =
    (Ok (Some mol,
         Some (match properties_result mol descriptor_table with
               | Ok props => props
               | Raise _ => []
               end), variants),
     write_files ob_mol output_base formats fs1,
     t_dir ++ write_events ob_mol output_base formats ++ t_props).
Proof.
  destruct (ensure_output_dir_run output_base fs) as [fs1 [t1 [H1 [Hf Hm]]]].
  set (fs2 := write_files ob_mol output_base formats fs1).
  destruct (compute_properties_run mol descriptor_table fs2) as [t3 H3].
  assert (Ht3 : Forall (fun ev => is_write ev = false) t3).
  { pose proof (spec_events fs2
                  (@spec_compute_properties L (fun ev => is_write ev = false)
                     mol descriptor_table (fun d => eq_refl))) as Hev.
    now rewrite H3 in Hev. }
  exists fs1, t1,
    (match properties_result mol descriptor_table with
     | Ok _ => t3
     | Raise e => t3 ++ [LogError (PropertyFailed e)]
     end).
  split; [exact H1|]. split; [exact Hf|]. split; [exact Hm|]. split.
  { destruct (properties_result mol descriptor_table); [exact Ht3|].
    apply Forall_app. split; [exact Ht3 | repeat constructor]. }
  unfold bind at 1. rewrite H1.
  unfold bind at 1. rewrite write_formats_run. fold fs2.
  unfold bind, try_catch, try_then, log_error, emit, ret. rewrite H3.
  destruct (properties_result mol descriptor_table) as [props|e];
    now rewrite ?app_nil_r.
Qed.

Lemma makedirs_not_write (t : list Event) :
  Forall (fun ev => is_makedirs ev = true) t -> Forall (fun ev => is_write ev = false) t.
Proof.
  intros H. eapply Forall_impl; [|exact H].
  intros ev Hev. destruct ev; simpl in *; auto; discriminate.
Qed.

Lemma att_export mol ob_mol output_base variants :
  attempts (attempted output_base)
    (ensure_output_dir output_base ;;
     for_each formats (write_format ob_mol output_base) ;;
     properties <- try_catch (compute_properties mol descriptor_table)
                     (fun e => log_error (PropertyFailed e) ;; ret []) ;;
     ret (Some mol, Some properties, variants)).
Proof.
  intros fs.
  destruct (export_block_run mol ob_mol output_base variants fs)
    as [fs1 [t_dir [t_props [_ [_ [Hd [Hp Hrun]]]]]]].
  rewrite Hrun. unfold events, outcome. cbn [fst snd attempted].
  rewrite !written_files_app, written_write_events,
    (written_none (makedirs_not_write Hd)), (written_none Hp).
  reflexivity.
Qed.

Lemma att_generate_3d smiles output_base num_confs optimize variants :
  attempts (attempted output_base)
    (generate_3d smiles output_base num_confs optimize variants).
Proof.
  unfold generate_3d.
  apply att_bind; [|reflexivity|].
  { apply att_quiet with (Q := fun _ => True). apply spec_call; auto. }
  intros [mol0|]; [|now apply att_log].
  apply att_bind; [|reflexivity|].
  { apply att_quiet with (Q := fun _ => True). apply spec_call; auto. }
  intros mol1. apply att_try_then.
  { apply att_quiet with (Q := fun _ => True). apply spec_call; auto. }
  { intros e. now apply att_log. }
  intros mol2. apply att_bind; [|reflexivity|].
  { destruct optimize.
    - eapply att_quiet. apply spec_optimize_conformers; auto.
    - apply att_quiet with (Q := fun _ => True). now apply spec_ret. }
  intros mol. apply att_try_then.
  { apply att_quiet with (Q := fun _ => True).
    apply spec_bind_call; auto. intros sdf _. apply spec_call; auto. }
  { intros e. now apply att_log. }
  intros ob_mol. apply att_export.
Qed.

Lemma att_smiles_to_3d smiles output_base num_confs optimize protonate ph_min ph_max :
  attempts (attempted output_base)
    (smiles_to_3d smiles output_base num_confs optimize protonate ph_min ph_max).
Proof.
  assert (Hguard : forall chosen variants,
             attempts (attempted output_base)
               (try_catch (generate_3d chosen output_base num_confs optimize variants)
                  (on_error chosen variants))).
  { intros chosen variants. apply att_try_catch; [apply att_generate_3d|reflexivity|].
    intros e. unfold on_error. now apply att_log. }
  unfold smiles_to_3d. destruct protonate; [|apply Hguard].
  apply att_try_then.
  - apply att_quiet with (Q := fun _ => True). apply spec_protonate_smiles; auto.
  - intros e. unfold on_error. now apply att_log.
  - intros variants. apply att_try_then; [| |intros; apply Hguard].
    + intros fs. rewrite announce_run. unfold events. cbn [snd].
      apply written_none. eapply Forall_impl; [|apply protonation_messages_prints].
      intros ev [m ->]. reflexivity.
    + intros e. unfold on_error. now apply att_log.
Qed.

(** X8. [smiles_to_3d] tries to write the four files of the output base
    name, pdb, mol2, sdf and pdbqt in that order, each exactly once and
    whether or not an earlier one failed, exactly when it returns a molecule;
    when it returns no molecule it has tried to write no file at all. *)
Theorem files_attempted_with_molecule
    (smiles output_base : string) (num_confs : Z) (optimize protonate : bool)
    (ph_min ph_max : Num) (fs : FS) :
  let run := smiles_to_3d smiles output_base num_confs optimize protonate ph_min ph_max fs in
  exists mol props variants,
    outcome run = Ok (mol, props, variants) /\
    written_files (events run) =
    match mol with
    | Some _ => [(output_base ++ ".pdb")%string; (output_base ++ ".mol2")%string;
                 (output_base ++ ".sdf")%string; (output_base ++ ".pdbqt")%string]
    | None => []
    end.
Proof.
  intros run. subst run.
  destruct (total_smiles_to_3d smiles output_base num_confs optimize protonate ph_min ph_max fs)
    as [[[mol props] variants] Hout].
  exists mol, props, variants. split; [exact Hout|].
  rewrite (att_smiles_to_3d smiles output_base num_confs optimize protonate ph_min ph_max fs).
  rewrite Hout. destruct mol; reflexivity.
Qed.

End Attempts.

(** ** What the file system keeps *)

Section Frame.

Context {L : ChemLibs}.

Variable R : FS -> FS -> Prop.
Hypothesis R_refl : forall fs, R fs fs.
Hypothesis R_trans : forall fs1 fs2 fs3, R fs1 fs2 -> R fs2 fs3 -> R fs1 fs3.

Lemma pres_ret A (a : A) : preserves R (ret a).
Proof. intros fs. apply R_refl. Qed.

Lemma pres_raise A e : preserves R (raise (A := A) e).
Proof. intros fs. apply R_refl. Qed.

Lemma pres_emit ev : preserves R (emit ev).
Proof. intros fs. apply R_refl. Qed.

Lemma pres_call A ev (r : result Exn A) : preserves R (call ev r).
Proof. intros fs. unfold call. destruct r; apply R_refl. Qed.

Lemma pres_read_fs A (f : FS -> A) : preserves R (read_fs f).
Proof. intros fs. apply R_refl. Qed.

Lemma pres_update_fs f : (forall fs, R fs (f fs)) -> preserves R (update_fs f).
Proof. intros H fs. apply H. Qed.

Lemma pres_bind A B (m : M A) (f : A -> M B) :
  preserves R m -> (forall a, preserves R (f a)) -> preserves R (bind m f).
Proof.
  intros Hm Hf fs. rewrite final_fs_bind.
  destruct (outcome (m fs)) as [a|e]; [|apply Hm].
  eapply R_trans; [apply Hm | apply Hf].
Qed.

Lemma pres_bind_spec A B (Q1 : A -> Prop) (m : M A) (f : A -> M B) :
  preserves R m -> spec (fun _ => True) Q1 m ->
  (forall a, Q1 a -> preserves R (f a)) -> preserves R (bind m f).
Proof.
  intros Hm Hs Hf fs. rewrite final_fs_bind.
  destruct (Hs fs) as [_ Hq].
  destruct (outcome (m fs)) as [a|e]; [|apply Hm].
  eapply R_trans; [apply Hm | now apply Hf].
Qed.

Lemma pres_try_then A B (m : M A) (h : Exn -> M B) (k : A -> M B) :
  preserves R m -> (forall e, preserves R (h e)) -> (forall a, preserves R (k a)) ->
  preserves R (try_then m h k).
Proof.
  intros Hm Hh Hk fs. rewrite final_fs_try_then.
  destruct (outcome (m fs)) as [a|e];
    (eapply R_trans; [apply Hm|]); [apply Hk | apply Hh].
Qed.

Lemma pres_try_catch A (m : M A) (h : Exn -> M A) :
  preserves R m -> (forall e, preserves R (h e)) -> preserves R (try_catch m h).
Proof.
  intros Hm Hh. unfold try_catch. apply pres_try_then; auto using pres_ret.
Qed.

Lemma pres_for_each A (xs : list A) (f : A -> M unit) :
  (forall x, In x xs -> preserves R (f x)) -> preserves R (for_each xs f).
Proof.
  induction xs as [|x xs IH]; intros Hf; simpl.
  - apply pres_ret.
  - apply pres_bind; [apply Hf; now left|]. intros _. apply IH.
    intros y Hy. apply Hf. now right.
Qed.

Lemma pres_log A (m : Msg) (a : A) : preserves R (log_error m ;; ret a).
Proof. apply pres_bind; [apply pres_emit | intros; apply pres_ret]. Qed.

Lemma pres_optimize_conformers smiles conf_ids : forall mol,
  preserves R (optimize_conformers smiles mol conf_ids).
Proof.
  induction conf_ids as [|c rest IH]; intros mol; simpl.
  - apply pres_ret.
  - apply pres_bind; auto.
    unfold optimize_conformer. apply pres_bind; [apply pres_emit|]. intros _.
    destruct (MMFFOptimizeMolecule mol c "MMFF94s" 1000%Z) as [m' [e|]].
    + apply pres_bind; [apply pres_emit | intros; apply pres_ret].
    + apply pres_ret.
Qed.

Lemma pres_compute_properties mol table : preserves R (compute_properties mol table).
Proof.
  induction table as [|[key d] table IH]; simpl.
  - apply pres_ret.
  - apply pres_bind; [apply pres_call|]. intros v.
    apply pres_bind; [apply IH|]. intros rest. apply pres_ret.
Qed.

Lemma pres_score mol ref_mol fp_type radius n_bits :
  preserves R
    (similarity <- calculate_tanimoto_similarity mol ref_mol fp_type radius n_bits ;;
     match similarity with
     | Some s => print (TanimotoScore s)
     | None => ret tt
     end).
Proof.
  apply pres_bind.
  - unfold calculate_tanimoto_similarity.
    assert (Hnone : preserves R (log_warning MoleculesNone ;; ret (@None Num))).
    { apply pres_bind; [apply pres_emit | intros; apply pres_ret]. }
    destruct mol as [m1|]; [|exact Hnone]. destruct ref_mol as [m2|]; [|exact Hnone].
    apply pres_bind.
    + destruct (String.eqb fp_type "morgan");
        (apply pres_bind; [apply pres_call|]; intros fp1;
         apply pres_bind; [apply pres_call|]; intros fp2; apply pres_ret).
    + intros fps. apply pres_bind; [apply pres_call|]. intros s. apply pres_ret.
  - intros [s|]; [apply pres_emit | apply pres_ret].
Qed.

End Frame.

Section Touches.

Context {L : ChemLibs}.

Variable allowed : string -> Prop.

Lemma only_touches_refl fs : only_touches allowed fs fs.
Proof. split; auto. Qed.

Lemma only_touches_trans fs1 fs2 fs3 :
  only_touches allowed fs1 fs2 -> only_touches allowed fs2 fs3 ->
  only_touches allowed fs1 fs3.
Proof.
  intros [H1 M1] [H2 M2]. split.
  - intros path Hp. rewrite (H2 path Hp). now apply H1.
  - auto.
Qed.

Lemma only_touches_set_file path content fs :
  allowed path -> only_touches allowed fs (set_file path content fs).
Proof.
  intros Ha. split.
  - intros q Hq. simpl.
    destruct (String.eqb path q) eqn:E; [|reflexivity].
    apply String.eqb_eq in E. subst q. contradiction.
  - intros q. unfold path_exists, isfile. simpl.
    destruct (String.eqb path q); [intros _; apply orb_true_r | auto].
Qed.

Lemma only_touches_append_file path text fs :
  allowed path -> only_touches allowed fs (append_file path text fs).
Proof.
  intros Ha. unfold append_file.
  destruct (lookup_file path (files fs)); now apply only_touches_set_file.
Qed.

Lemma only_touches_add_dir path fs : only_touches allowed fs (add_dir path fs).
Proof.
  unfold add_dir.
  destruct (mem_string path (dirs fs)) eqn:E; [apply only_touches_refl|].
  split.
  - reflexivity.
  - intros q. unfold path_exists, isfile. simpl.
    intros H. apply orb_true_iff in H. destruct H as [H|H].
    + rewrite H. now rewrite orb_true_r.
    + rewrite H. apply orb_true_r.
Qed.

Lemma pres_makedirs path : preserves (only_touches allowed) (makedirs path).
Proof.
  pose proof only_touches_refl as Hr. pose proof only_touches_trans as Ht.
  unfold makedirs.
  apply pres_bind; [exact Ht | now apply pres_emit |].
  intros _.
  apply pres_bind; [exact Ht | now apply pres_read_fs |].
  intros [|]; [now apply pres_raise|].
  apply pres_update_fs. intros fs. apply only_touches_add_dir.
Qed.

Lemma pres_ensure_output_dir output_base :
  preserves (only_touches allowed) (ensure_output_dir output_base).
Proof.
  pose proof only_touches_refl as Hr. pose proof only_touches_trans as Ht.
  unfold ensure_output_dir.
  apply pres_bind; [exact Ht | now apply pres_read_fs |].
  intros present.
  destruct (Py.truthy (Py.dirname output_base) && negb present).
  - apply pres_makedirs.
  - now apply pres_ret.
Qed.

Lemma pres_write_format ob_mol output_base fmt :
  allowed (output_base ++ "." ++ fmt)%string ->
  preserves (only_touches allowed) (write_format ob_mol output_base fmt).
Proof.
  pose proof only_touches_refl as Hr. pose proof only_touches_trans as Ht.
  intros Ha. unfold write_format.
  apply pres_try_catch; [exact Hr | exact Ht | |].
  - apply pres_bind; [exact Ht | now apply pres_call |].
    intros content. apply pres_update_fs. intros fs. now apply only_touches_set_file.
  - intros e. now apply pres_emit.
Qed.

Lemma pres_generate_3d smiles output_base num_confs optimize variants :
  (forall path, output_paths output_base path -> allowed path) ->
  preserves (only_touches allowed)
    (generate_3d smiles output_base num_confs optimize variants).
Proof.
  intros Ha.
  pose proof only_touches_refl as Hr. pose proof only_touches_trans as Ht.
  unfold generate_3d.
  apply pres_bind; [exact Ht | now apply pres_call |].
  intros [mol0|]; [|now apply pres_log].
  apply pres_bind; [exact Ht | now apply pres_call |]. intros mol1.
  apply pres_try_then; [exact Ht | now apply pres_call | intros; now apply pres_log |].
  intros mol2. apply pres_bind; [exact Ht| |].
  { destruct optimize; [now apply pres_optimize_conformers | now apply pres_ret]. }
  intros mol. apply pres_try_then; [exact Ht| | intros; now apply pres_log |].
  { apply pres_bind; [exact Ht | now apply pres_call | intros; now apply pres_call]. }
  intros ob_mol.
  apply pres_bind; [exact Ht | apply pres_ensure_output_dir |].
  intros _. apply pres_bind; [exact Ht| |].
  { apply pres_for_each; [exact Hr | exact Ht |]. intros fmt Hin.
    apply pres_write_format. apply Ha.
    unfold output_paths, output_names. apply in_map_iff. eauto. }
  intros _. apply pres_bind; [exact Ht| |].
  { apply pres_try_catch; [exact Hr | exact Ht | now apply pres_compute_properties |].
    intros; now apply pres_log. }
  intros props. now apply pres_ret.
Qed.

Lemma pres_smiles_to_3d smiles output_base num_confs optimize protonate ph_min ph_max :
  (forall path, output_paths output_base path -> allowed path) ->
  preserves (only_touches allowed)
    (smiles_to_3d smiles output_base num_confs optimize protonate ph_min ph_max).
Proof.
  intros Ha.
  pose proof only_touches_refl as Hr. pose proof only_touches_trans as Ht.
  assert (Hon : forall s v e, preserves (only_touches allowed) (on_error s v e)).
  { intros. unfold on_error. now apply pres_log. }
  unfold smiles_to_3d. destruct protonate.
  - apply pres_try_then; [exact Ht | | apply Hon |].
    { unfold protonate_smiles.
      apply pres_try_catch; [exact Hr | exact Ht | now apply pres_call |].
      intros e. apply pres_bind; [exact Ht | now apply pres_emit |].
      intros; now apply pres_ret. }
    intros variants. apply pres_try_then; [exact Ht | | apply Hon |].
    { apply pres_bind; [exact Ht | now apply pres_emit |]. intros _.
      apply pres_bind; [exact Ht | |].
      { apply pres_for_each; [exact Hr | exact Ht |]. intros; now apply pres_emit. }
      intros _. apply pres_bind; [exact Ht | |].
      { destruct (1 <? List.length variants); [|now apply pres_ret].
        apply pres_bind; [exact Ht | |].
        - destruct variants; [now apply pres_raise | now apply pres_ret].
        - intros; now apply pres_emit. }
      intros _. destruct variants; [now apply pres_raise | now apply pres_ret]. }
    intros smiles'.
    apply pres_try_catch; [exact Hr | exact Ht | now apply pres_generate_3d | apply Hon].
  - apply pres_try_catch; [exact Hr | exact Ht | now apply pres_generate_3d | apply Hon].
Qed.

End Touches.

(** ** The content of the written files *)

Section Contents.

Context {L : ChemLibs}.

Lemma spec_trivial A (m : M A) : spec (fun _ => True) (fun _ => True) m.
Proof.
  intros fs. split; [apply Forall_forall; auto | now destruct (outcome (m fs))].
Qed.

Lemma post_pure_bind A B (Q : FS -> result Exn B -> FS -> Prop) (Q1 : A -> Prop)
    (m : M A) (f : A -> M B) :
  preserves eq m -> spec (fun _ => True) Q1 m ->
  (forall fs e, Q fs (Raise e) fs) ->
  (forall a, Q1 a -> post Q (f a)) -> post Q (bind m f).
Proof.
  intros Hm Hs Hr Hf fs. rewrite outcome_bind, final_fs_bind.
  pose proof (Hm fs) as Hfs. destruct (Hs fs) as [_ Hq].
  destruct (outcome (m fs)) as [a|e]; rewrite <- Hfs.
  - now apply Hf.
  - apply Hr.
Qed.

Lemma post_pure_try_then A B (Q : FS -> result Exn B -> FS -> Prop) (Q1 : A -> Prop)
    (m : M A) (h : Exn -> M B) (k : A -> M B) :
  preserves eq m -> spec (fun _ => True) Q1 m ->
  (forall e, post Q (h e)) ->
  (forall a, Q1 a -> post Q (k a)) -> post Q (try_then m h k).
Proof.
  intros Hm Hs Hh Hk fs. rewrite outcome_try_then, final_fs_try_then.
  pose proof (Hm fs) as Hfs. destruct (Hs fs) as [_ Hq].
  destruct (outcome (m fs)) as [a|e]; rewrite <- Hfs.
  - now apply Hk.
  - apply Hh.
Qed.

Lemma post_log A (Q : FS -> result Exn A -> FS -> Prop) (m : Msg) (a : A) :
  (forall fs, Q fs (Ok a) fs) -> post Q (log_error m ;; ret a).
Proof. intros H fs. apply H. Qed.

Lemma post_try_catch_log A (Q : FS -> result Exn A -> FS -> Prop) (m : M A)
    (msg : Exn -> Msg) (a : A) :
  post Q m -> (forall fs e fs1, Q fs (Raise e) fs1 -> Q fs (Ok a) fs1) ->
  post Q (try_catch m (fun e => log_error (msg e) ;; ret a)).
Proof.
  intros Hm Hq fs. unfold try_catch. rewrite outcome_try_then, final_fs_try_then.
  pose proof (Hm fs) as H.
  destruct (outcome (m fs)) as [x|e]; [exact H|].
  apply Hq with (e := e). exact H.
Qed.

Lemma write_files_files ob_mol output_base fmts : forall fs1 fs,
  files fs1 = files fs ->
  files (write_files ob_mol output_base fmts fs1) =
  files (write_files ob_mol output_base fmts fs).
Proof.
  induction fmts as [|fmt rest IH]; intros fs1 fs H; simpl; [exact H|].
  match goal with
  | |- context [pybel_write ?a ?b ?c ?d] => destruct (pybel_write a b c d) as [c0|e]
  end; apply IH; simpl; now rewrite ?H.
Qed.

Lemma post_generate_3d smiles output_base num_confs optimize variants :
  post (export_post output_base)
    (generate_3d smiles output_base num_confs optimize variants).
Proof.
  assert (Heq : forall fs1 fs2 fs3 : FS, fs1 = fs2 -> fs2 = fs3 -> fs1 = fs3)
    by (intros; congruence).
  unfold generate_3d.
  apply post_pure_bind with (Q1 := fun _ => True);
    [now apply pres_call | apply spec_trivial | reflexivity |].
  intros [mol0|] _; [|now apply post_log].
  apply post_pure_bind with (Q1 := fun _ => True);
    [now apply pres_call | apply spec_trivial | reflexivity |].
  intros mol1 _.
  apply post_pure_try_then with (Q1 := fun _ => True);
    [now apply pres_call | apply spec_trivial | intros; now apply post_log |].
  intros mol2 _.
  apply post_pure_bind with (Q1 := fun _ => True); [| |reflexivity|].
  { destruct optimize; [now apply pres_optimize_conformers | now apply pres_ret]. }
  { apply spec_trivial. }
  intros mol _.
  apply post_pure_try_then
    with (Q1 := fun ob_mol => exists sdf, MolToMolBlock mol = Ok sdf /\
                                          pybel_readstring "mol" sdf = Ok ob_mol).
  { apply pres_bind; [exact Heq | now apply pres_call | intros; now apply pres_call]. }
  { apply spec_bind_call; auto. intros sdf Hsdf. apply spec_call; eauto. }
  { intros e. now apply post_log. }
  intros ob_mol [sdf [Hsdf Hob]] fs.
  destruct (export_block_run mol ob_mol output_base variants fs)
    as [fs1 [t_dir [t_props [_ [Hf [_ [_ Hrun]]]]]]].
  rewrite Hrun. unfold outcome, final_fs. cbn [fst snd export_post].
  exists sdf, ob_mol. split; [exact Hsdf|]. split; [exact Hob|].
  now apply write_files_files.
Qed.

Lemma post_smiles_to_3d smiles output_base num_confs optimize protonate ph_min ph_max :
  post (export_post output_base)
    (smiles_to_3d smiles output_base num_confs optimize protonate ph_min ph_max).
Proof.
  assert (Heq : forall fs1 fs2 fs3 : FS, fs1 = fs2 -> fs2 = fs3 -> fs1 = fs3)
    by (intros; congruence).
  assert (Hguard : forall chosen variants,
             post (export_post output_base)
               (try_catch (generate_3d chosen output_base num_confs optimize variants)
                  (on_error chosen variants))).
  { intros chosen variants. unfold on_error.
    apply post_try_catch_log with (msg := ErrorProcessing chosen);
      [apply post_generate_3d | auto]. }
  unfold smiles_to_3d. destruct protonate; [|apply Hguard].
  apply post_pure_try_then with (Q1 := fun _ => True).
  - unfold protonate_smiles.
    apply pres_try_catch; [auto | exact Heq | now apply pres_call |].
    intros e. apply pres_bind; [exact Heq | now apply pres_emit |].
    intros; now apply pres_ret.
  - apply spec_trivial.
  - intros e. unfold on_error. now apply post_log.
  - intros variants _. apply post_pure_try_then with (Q1 := fun _ => True).
    + intros fs. rewrite announce_run. reflexivity.
    + apply spec_trivial.
    + intros e. unfold on_error. now apply post_log.
    + intros; apply Hguard.
Qed.

Lemma append_inj (a x y : string) : (a ++ x = a ++ y -> x = y)%string.
Proof.
  induction a as [|c a IH]; simpl; intros H; [exact H|].
  inversion H. auto.
Qed.

Lemma lookup_write_files_other ob_mol output_base fmt fmts : forall fs,
  ~ In fmt fmts ->
  lookup_file (output_base ++ "." ++ fmt)%string
    (files (write_files ob_mol output_base fmts fs)) =
  lookup_file (output_base ++ "." ++ fmt)%string (files fs).
Proof.
  induction fmts as [|f rest IH]; intros fs Hnot; simpl; [reflexivity|].
  assert (Hf : f <> fmt) by (intros ->; apply Hnot; now left).
  assert (Hrest : ~ In fmt rest) by (intros H; apply Hnot; now right).
  match goal with
  | |- context [pybel_write ?a ?b ?c ?d] => destruct (pybel_write a b c d) as [c0|e]
  end; rewrite (IH _ Hrest); [|reflexivity].
  unfold set_file. cbn [files lookup_file].
  match goal with
  | |- context [String.eqb ?a ?b] => destruct (String.eqb a b) eqn:E
  end; [|reflexivity].
  apply String.eqb_eq in E. apply append_inj in E. apply (append_inj ".") in E.
  contradiction.
Qed.

Lemma lookup_write_files ob_mol output_base fmt content fmts : forall fs,
  NoDup fmts -> In fmt fmts ->
  pybel_write ob_mol fmt (output_base ++ "." ++ fmt)%string true = Ok content ->
  lookup_file (output_base ++ "." ++ fmt)%string
    (files (write_files ob_mol output_base fmts fs)) = Some content.
Proof.
  induction fmts as [|f rest IH]; intros fs Hnd Hin Hw; [contradiction|].
  inversion Hnd as [|? ? Hnot Hnd']; subst.
  destruct Hin as [->|Hin].
  - cbn [write_files]. rewrite Hw. rewrite lookup_write_files_other by exact Hnot.
    unfold set_file. cbn [files lookup_file]. now rewrite String.eqb_refl.
  - simpl.
    match goal with
    | |- context [match pybel_write ?a ?b ?c ?d with _ => _ end] =>
        destruct (pybel_write a b c d) as [c0|e]
    end; now apply IH.
Qed.

Lemma formats_nodup : NoDup formats.
Proof.
  unfold formats.
  repeat (constructor; [simpl; intuition discriminate|]).
  constructor.
Qed.

End Contents.

Section CallerFrames.

Context {L : ChemLibs}.

Variable allowed : string -> Prop.

Lemma pres_prints A (xs : list A) (msg : A -> Msg) :
  preserves (only_touches allowed) (for_each xs (fun x => print (msg x))).
Proof.
  apply pres_for_each;
    [apply only_touches_refl | apply only_touches_trans |].
  intros x _. apply pres_emit, only_touches_refl.
Qed.

Lemma pres_single_process smiles output_base num_confs reference fp_type radius n_bits
    protonate ph_min ph_max :
  (forall path, output_paths output_base path -> allowed path) ->
  preserves (only_touches allowed)
    (single_process smiles output_base num_confs reference fp_type radius n_bits
       protonate ph_min ph_max).
Proof.
  intros Ha.
  pose proof (@only_touches_refl allowed) as Hr.
  pose proof (@only_touches_trans allowed) as Ht.
  unfold single_process.
  apply pres_bind; [exact Ht | now apply pres_smiles_to_3d |].
  intros [[mol props] variants]. cbn [fst snd].
  destruct (truthy_props props); [|now apply pres_ret].
  apply pres_bind; [exact Ht | now apply pres_emit |]. intros _.
  apply pres_bind; [exact Ht | now apply pres_emit |]. intros _.
  apply pres_bind; [exact Ht | apply pres_prints |]. intros _.
  apply pres_bind; [exact Ht | |].
  { destruct (protonate && truthy_list variants); [|now apply pres_ret].
    apply pres_bind; [exact Ht | now apply pres_emit |]. intros _. apply pres_prints. }
  intros _. destruct reference as [reference|]; [|now apply pres_ret].
  destruct (Py.truthy reference); [|now apply pres_ret].
  apply pres_bind; [exact Ht | now apply pres_call |].
  intros [m|]; [|now apply pres_emit].
  now apply pres_score.
Qed.

Lemma pres_process_line output_dir ref_mol fp_type radius n_bits protonate ph_min ph_max
    num_confs protonation_file idx line :
  (forall path,
      output_paths (Py.path_join output_dir ("mol_" ++ Py.str_of_nat (idx + 1))%string) path ->
      allowed path) ->
  (forall path, protonation_file = Some path -> allowed path) ->
  preserves (only_touches allowed)
    (process_line output_dir ref_mol fp_type radius n_bits protonate ph_min ph_max
       num_confs protonation_file idx line).
Proof.
  intros Ha Hp.
  pose proof (@only_touches_refl allowed) as Hr.
  pose proof (@only_touches_trans allowed) as Ht.
  unfold process_line.
  destruct (Py.truthy (Py.strip line)); [|now apply pres_ret].
  apply pres_bind; [exact Ht | now apply pres_smiles_to_3d |].
  intros [[mol props] variants]. cbn [fst snd].
  destruct (truthy_props props); [|now apply pres_ret].
  apply pres_bind; [exact Ht | now apply pres_emit |]. intros _.
  apply pres_bind; [exact Ht | now apply pres_emit |]. intros _.
  apply pres_bind; [exact Ht | |].
  { destruct protonation_file as [path|]; [|now apply pres_ret].
    destruct (protonate && truthy_list variants); [|now apply pres_ret].
    apply pres_for_each; [exact Hr | exact Ht |]. intros variant _.
    unfold file_write. apply pres_bind; [exact Ht | now apply pres_emit |].
    intros _. apply pres_update_fs. intros fs.
    apply only_touches_append_file. now apply Hp. }
  intros _. destruct ref_mol as [m|]; [|now apply pres_ret].
  now apply pres_score.
Qed.

End CallerFrames.

Section RunFrames.

Context {L : ChemLibs}.

Lemma pres_batch_process input_file output_dir reference fp_type radius n_bits protonate
    ph_min ph_max num_confs :
  preserves (only_touches (batch_paths output_dir))
    (batch_process input_file output_dir reference fp_type radius n_bits protonate
       ph_min ph_max num_confs).
Proof.
  pose proof (@only_touches_refl (batch_paths output_dir)) as Hr.
  pose proof (@only_touches_trans (batch_paths output_dir)) as Ht.
  assert (Hstates : batch_paths output_dir (Py.path_join output_dir "protonation_states.txt"))
    by now right.
  unfold batch_process.
  apply pres_bind; [exact Ht | |].
  { destruct reference as [reference|]; [|now apply pres_ret].
    destruct (Py.truthy reference); [|now apply pres_ret].
    apply pres_bind; [exact Ht | now apply pres_call |].
    intros [m|]; [now apply pres_ret | now apply pres_log]. }
  intros ref_mol.
  apply pres_bind_spec
    with (Q1 := fun pf => forall path,
                  pf = Some path -> path = Py.path_join output_dir "protonation_states.txt");
    [exact Ht | | |].
  { destruct protonate; [|now apply pres_ret].
    apply pres_bind; [exact Ht | |].
    { unfold open_w. apply pres_bind; [exact Ht | now apply pres_emit |].
      intros _. apply pres_update_fs. intros fs. now apply only_touches_set_file. }
    intros _. apply pres_bind; [exact Ht | |].
    { unfold file_write. apply pres_bind; [exact Ht | now apply pres_emit |].
      intros _. apply pres_update_fs. intros fs. now apply only_touches_append_file. }
    intros _. now apply pres_ret. }
  { destruct protonate.
    - apply spec_bind with (Q1 := fun _ => True); [apply spec_trivial|]. intros _ _.
      apply spec_bind with (Q1 := fun _ => True); [apply spec_trivial|]. intros _ _.
      apply spec_ret. intros path H. now inversion H.
    - apply spec_ret. discriminate. }
  intros protonation_file Hpf. apply pres_bind; [exact Ht | |].
  { unfold open_r. apply pres_bind; [exact Ht | now apply pres_read_fs |].
    intros [lines|]; [now apply pres_ret | now apply pres_raise]. }
  intros lines. apply pres_bind; [exact Ht | |].
  { unfold batch_loop. apply pres_for_each; [exact Hr | exact Ht |].
    intros [idx line] Hin. cbn [fst snd].
    apply pres_process_line.
    - intros path Hpath. left. exists idx. exact Hpath.
    - intros path Hpath. rewrite (Hpf path Hpath). exact Hstates. }
  intros _. destruct protonation_file as [path|]; [|now apply pres_ret].
  apply pres_bind; [exact Ht | now apply pres_emit | intros; now apply pres_emit].
Qed.

End RunFrames.

Section FileTheorems.

Context {L : ChemLibs}.

Lemma pres_main args fs :
  only_touches (run_paths args fs) fs (final_fs (main args fs)).
Proof.
  unfold main, run_paths. destruct (arg_input args) as [input|].
  2:{ apply only_touches_refl. }
  rewrite final_fs_bind. unfold read_fs at 1 2. unfold outcome, final_fs at 2 3.
  cbn [fst snd].
  destruct (isfile input fs).
  - apply (@pres_bind L _ (@only_touches_trans (batch_paths (arg_output args)))).
    + apply pres_makedirs.
    + intros _. apply pres_batch_process.
  - apply pres_single_process. auto.
Qed.

(** X9. Whatever happens in [smiles_to_3d], every file other than the four
    files of the output base name has the content it had before (or is
    still absent). *)
Theorem smiles_to_3d_keeps_other_files smiles output_base num_confs optimize protonate
    ph_min ph_max fs path :
  ~ In path (output_names output_base) ->
  lookup_file path
    (files (final_fs (smiles_to_3d smiles output_base num_confs optimize protonate
                        ph_min ph_max fs))) =
  lookup_file path (files fs).
Proof.
  intros Hpath.
  destruct (@pres_smiles_to_3d L (output_paths output_base) smiles output_base num_confs
              optimize protonate ph_min ph_max (fun _ H => H) fs) as [Hkeep _].
  now apply Hkeep.
Qed.

(** X10. When [smiles_to_3d] returns a molecule, that molecule went through
    [MolToMolBlock] and [pybel.readstring], and each of the four files whose
    write succeeded holds, when the function returns, what OpenBabel wrote
    for its format: no later step overwrites it. *)
Theorem written_files_hold_the_export smiles output_base num_confs optimize protonate
    ph_min ph_max fs mol props variants :
  outcome (smiles_to_3d smiles output_base num_confs optimize protonate ph_min ph_max fs)
    = Ok (Some mol, props, variants) ->
  exists sdf ob_mol,
    MolToMolBlock mol = Ok sdf /\
    pybel_readstring "mol" sdf = Ok ob_mol /\
    forall fmt content,
      In fmt formats ->
      pybel_write ob_mol fmt (output_base ++ "." ++ fmt)%string true = Ok content ->
      lookup_file (output_base ++ "." ++ fmt)%string
        (files (final_fs (smiles_to_3d smiles output_base num_confs optimize protonate
                            ph_min ph_max fs))) = Some content.
Proof.
  intros Hout.
  pose proof (post_smiles_to_3d smiles output_base num_confs optimize protonate
                ph_min ph_max fs) as Hpost.
  rewrite Hout in Hpost. cbn [export_post] in Hpost.
  destruct Hpost as [sdf [ob_mol [Hsdf [Hob Hfiles]]]].
  exists sdf, ob_mol. split; [exact Hsdf|]. split; [exact Hob|].
  intros fmt content Hin Hw. rewrite Hfiles.
  apply lookup_write_files; [apply formats_nodup | exact Hin | exact Hw].
Qed.

(** X11. A run of the main block changes no file other than those it is
    meant to produce: in batch mode the files [mol_<k>.<format>] of the
    output directory and its [protonation_states.txt], otherwise the four
    files of the output base name. *)
Theorem main_keeps_other_files args fs path :
  ~ run_paths args fs path ->
  lookup_file path (files (final_fs (main args fs))) = lookup_file path (files fs).
Proof.
  intros Hpath. destruct (pres_main args fs) as [Hkeep _]. now apply Hkeep.
Qed.

End FileTheorems.

(** ** The options of a run *)

Section Options.

Context {L : ChemLibs}.

Variables (num_confs : Z) (fp_type : string) (radius n_bits : Z) (protonate : bool)
  (ph_min ph_max : Num).

Lemma footprint_plumbed smiles output_base ev :
  smiles_to_3d_footprint smiles output_base num_confs true protonate ph_min ph_max ev ->
  (plumbed num_confs fp_type radius n_bits protonate ph_min ph_max) ev.
Proof.
  intros [[Hp H]|[s [_ H]]]; destruct ev; simpl in *; tauto.
Qed.

Lemma spec_score_plumbed mol ref_mol :
  spec (plumbed num_confs fp_type radius n_bits protonate ph_min ph_max) (fun _ => True)
    (similarity <- calculate_tanimoto_similarity mol ref_mol fp_type radius n_bits ;;
     match similarity with
     | Some s => print (TanimotoScore s)
     | None => ret tt
     end).
Proof.
  apply spec_seq.
  - unfold calculate_tanimoto_similarity.
    assert (Hnone : spec (plumbed num_confs fp_type radius n_bits protonate ph_min ph_max) (fun _ : option Num => True)
                      (log_warning MoleculesNone ;; ret None)).
    { apply spec_seq; [apply spec_emit; exact I|]. intros _. now apply spec_ret. }
    destruct mol as [m1|]; [|exact Hnone]. destruct ref_mol as [m2|]; [|exact Hnone].
    apply spec_seq.
    + destruct (String.eqb fp_type "morgan") eqn:E.
      * apply String.eqb_eq in E.
        apply spec_bind_call; [simpl; auto|]. intros fp1 _.
        apply spec_bind_call; [simpl; auto|]. intros fp2 _. now apply spec_ret.
      * apply String.eqb_neq in E.
        apply spec_bind_call; [exact E|]. intros fp1 _.
        apply spec_bind_call; [exact E|]. intros fp2 _. now apply spec_ret.
    + intros fps. apply spec_bind_call; [exact I|]. intros s _. now apply spec_ret.
  - intros [s|]; [apply spec_emit; exact I | now apply spec_ret].
Qed.

Lemma spec_single_process_plumbed smiles output_base reference :
  spec (plumbed num_confs fp_type radius n_bits protonate ph_min ph_max) (fun _ => True)
    (single_process smiles output_base num_confs reference fp_type radius n_bits
       protonate ph_min ph_max).
Proof.
  unfold single_process.
  apply spec_seq.
  { eapply spec_weaken; [apply spec_smiles_to_3d | apply footprint_plumbed | auto]. }
  intros res.
  destruct (truthy_props (snd (fst res))); [|now apply spec_ret].
  apply spec_seq; [apply spec_emit; exact I|]. intros _.
  apply spec_seq; [apply spec_emit; exact I|]. intros _.
  apply spec_seq.
  { apply spec_for_each. intros kv _. apply spec_emit; exact I. }
  intros _. apply spec_seq.
  { destruct (protonate && truthy_list (snd res)); [|now apply spec_ret].
    apply spec_seq; [apply spec_emit; exact I|]. intros _.
    apply spec_for_each. intros iv _. apply spec_emit; exact I. }
  intros _. destruct reference as [reference|]; [|now apply spec_ret].
  destruct (Py.truthy reference); [|now apply spec_ret].
  apply spec_bind_call; [exact I|].
  intros [m|] _; [apply spec_score_plumbed | apply spec_emit; exact I].
Qed.

Lemma spec_process_line_plumbed output_dir ref_mol protonation_file idx line :
  spec (plumbed num_confs fp_type radius n_bits protonate ph_min ph_max) (fun _ => True)
    (process_line output_dir ref_mol fp_type radius n_bits protonate ph_min ph_max
       num_confs protonation_file idx line).
Proof.
  unfold process_line. destruct (Py.truthy (Py.strip line)); [|now apply spec_ret].
  apply spec_seq.
  { eapply spec_weaken; [apply spec_smiles_to_3d | apply footprint_plumbed | auto]. }
  intros res.
  destruct (truthy_props (snd (fst res))); [|now apply spec_ret].
  apply spec_seq; [apply spec_emit; exact I|]. intros _.
  apply spec_seq; [apply spec_emit; exact I|]. intros _.
  apply spec_seq.
  { destruct protonation_file as [path|]; [|now apply spec_ret].
    destruct (protonate && truthy_list (snd res)); [|now apply spec_ret].
    apply spec_for_each. intros v _. apply spec_file_write. exact I. }
  intros _. destruct ref_mol as [m|]; [|now apply spec_ret].
  apply spec_score_plumbed.
Qed.

Lemma spec_batch_process_plumbed input_file output_dir reference :
  spec (plumbed num_confs fp_type radius n_bits protonate ph_min ph_max) (fun _ => True)
    (batch_process input_file output_dir reference fp_type radius n_bits protonate
       ph_min ph_max num_confs).
Proof.
  unfold batch_process.
  apply spec_seq.
  { destruct reference as [reference|]; [|now apply spec_ret].
    destruct (Py.truthy reference); [|now apply spec_ret].
    apply spec_bind_call; [exact I|].
    intros [m|] _; [now apply spec_ret|].
    apply spec_seq; [apply spec_emit; exact I|]. intros _. now apply spec_ret. }
  intros ref_mol.
  apply spec_seq.
  { destruct protonate; [|now apply spec_ret].
    unfold open_w.
    apply spec_seq.
    { apply spec_seq; [apply spec_emit; exact I|]. intros _. now apply spec_update_fs. }
    intros _. apply spec_seq; [apply spec_file_write; exact I|]. intros _.
    now apply spec_ret. }
  intros protonation_file.
  apply spec_seq.
  { unfold open_r. apply spec_seq; [now apply spec_read_fs|].
    intros [lines|]; [now apply spec_ret | apply spec_raise]. }
  intros lines. apply spec_seq.
  { unfold batch_loop. apply spec_for_each. intros il _. apply spec_process_line_plumbed. }
  intros _. destruct protonation_file as [path|]; [|now apply spec_ret].
  unfold file_close.
  apply spec_seq; [apply spec_emit; exact I|]. intros _. apply spec_emit; exact I.
Qed.

End Options.

Section OptionTheorems.

Context {L : ChemLibs}.

(** X12. Whatever the command line, every library call of a run carries the
    options of the run: the embedding gets [--num_confs], seed 42 and
    enforced chirality, the fingerprints get [--radius] and [--bits] and are
    Morgan fingerprints exactly when [--fp_type] is [morgan], Dimorphite-DL
    is called only under [--protonate], with [--ph_min] and [--ph_max] but
    always with precision 1.0 and at most 128 variants: [--precision] and
    [--max_variants] never reach it. *)
Theorem options_reach_the_libraries (args : Args) fs :
  Forall (plumbed (arg_num_confs args) (arg_fp_type args) (arg_radius args) (arg_bits args)
            (arg_protonate args) (arg_ph_min args) (arg_ph_max args))
    (events (main args fs)).
Proof.
  apply spec_events with (Q := fun _ => True).
  unfold main. destruct (arg_input args) as [input|]; [|apply spec_raise].
  apply spec_seq; [now apply spec_read_fs|]. intros [|].
  - apply spec_seq; [apply spec_makedirs; exact I|]. intros _.
    apply spec_batch_process_plumbed.
  - apply spec_single_process_plumbed.
Qed.

End OptionTheorems.

(** ** The optimization loop *)

Section Conformers.

Context {L : ChemLibs}.

Lemma mmff_ids_app (t1 t2 : list Event) : mmff_ids (t1 ++ t2) = mmff_ids t1 ++ mmff_ids t2.
Proof. apply flat_map_app. Qed.

Lemma mmff_ids_none (t : list Event) :
  Forall (fun ev => is_mmff ev = false) t -> mmff_ids t = [].
Proof.
  induction 1 as [|ev t Hev _ IH]; [reflexivity|].
  unfold mmff_ids in *. simpl. rewrite IH.
  destruct ev; simpl in *; auto; discriminate.
Qed.

Lemma optimize_conformers_ids smiles conf_ids : forall mol fs,
  mmff_ids (events (optimize_conformers smiles mol conf_ids fs)) = conf_ids.
Proof.
  induction conf_ids as [|c rest IH]; intros mol fs; [reflexivity|].
  cbn [optimize_conformers]. rewrite events_bind, mmff_ids_app.
  assert (Hone : exists mol' t,
             optimize_conformer smiles mol c fs = (Ok mol', fs, t) /\ mmff_ids t = [c]).
  { unfold optimize_conformer, bind, emit, log_warning, ret.
    destruct (MMFFOptimizeMolecule mol c "MMFF94s" 1000%Z) as [mol' [e|]];
      eexists; eexists; split; reflexivity. }
  destruct Hone as [mol' [t [Hrun Hids]]]. rewrite Hrun.
  unfold outcome, events at 1, final_fs. cbn [fst snd]. now rewrite Hids, IH.
Qed.

Lemma protonation_prefix smiles output_base num_confs optimize protonate ph_min ph_max fs
    chosen :
  chosen_smiles smiles protonate ph_min ph_max = Some chosen ->
  exists prefix,
    Forall (fun ev => is_mmff ev = false) prefix /\
    events (smiles_to_3d smiles output_base num_confs optimize protonate ph_min ph_max fs) =
    prefix ++
    events (smiles_to_3d chosen output_base num_confs optimize false ph_min ph_max fs).
Proof.
  unfold chosen_smiles. destruct protonate.
  - intros Hc.
    pose proof (protonate_smiles_run smiles ph_min ph_max float_1_0 128%Z fs) as Hp.
    assert (Hmsg : forall variants,
               Forall (fun ev => is_mmff ev = false)
                 (protonation_messages variants ph_min ph_max)).
    { intros variants. eapply Forall_impl; [|apply protonation_messages_prints].
      intros ev [m ->]. reflexivity. }
    destruct (dimorphite_protonate_smiles smiles ph_min ph_max float_1_0 128%Z)
      as [[|first others]|e]; inversion Hc; subst;
      erewrite smiles_to_3d_protonated by exact Hp; cbv zeta;
      unfold events at 1; cbn [snd]; rewrite app_assoc;
      eexists; (split; [|reflexivity]);
      (apply Forall_app; split; [repeat constructor | apply Hmsg]).
  - intros Hc. inversion Hc; subst. exists []. split; [constructor | reflexivity].
Qed.

(** X13. When the chosen SMILES is parsed and embedded, [smiles_to_3d] with
    optimization on calls the MMFF optimizer once for each conformer of the
    embedded molecule, in the order of the conformer ids: a call that fails
    does not stop the loop, and no other step calls the optimizer. *)
Theorem every_conformer_is_tried smiles output_base num_confs protonate ph_min ph_max fs
    chosen mol0 mol1 mol2 :
  chosen_smiles smiles protonate ph_min ph_max = Some chosen ->
  MolFromSmiles chosen = Ok (Some mol0) ->
  AddHs mol0 = Ok mol1 ->
  EmbedMultipleConfs mol1 num_confs 42%Z true = Ok mol2 ->
  mmff_ids (events (smiles_to_3d smiles output_base num_confs true protonate
                      ph_min ph_max fs)) =
  seq 0 (GetNumConformers mol2).
Proof.
  intros Hc Hparse Hhs Hembed.
  destruct (protonation_prefix smiles output_base num_confs true protonate ph_min ph_max fs Hc)
    as [prefix [Hquiet ->]].
  rewrite mmff_ids_app, (mmff_ids_none Hquiet). cbn [app].
  set (ids := seq 0 (GetNumConformers mol2)).
  destruct (optimize_conformers_run chosen ids mol2 fs) as [t_opt [Hopt _]].
  pose proof (optimize_conformers_ids chosen ids mol2 fs) as Hids.
  rewrite Hopt in Hids. unfold events in Hids. cbn [snd] in Hids.
  set (mol := optimized_mol mol2 ids) in *.
  set (rest :=
         try_then
           (sdf_data <- call (CallMolToMolBlock mol) (MolToMolBlock mol) ;;
            call (CallReadString "mol" sdf_data) (pybel_readstring "mol" sdf_data))
           (fun e => log_error (ConversionFailed e) ;; ret (None, None, Some [chosen]))
           (fun ob_mol =>
              ensure_output_dir output_base ;;
              for_each formats (write_format ob_mol output_base) ;;
              properties <- try_catch (compute_properties mol descriptor_table)
                              (fun e => log_error (PropertyFailed e) ;; ret []) ;;
              ret (Some mol, Some properties, Some [chosen]))).
  assert (Hrest : spec (fun ev => is_mmff ev = false) (fun _ : Ret3 => True) rest).
  { apply spec_try_then with (Q1 := fun _ => True).
    - apply spec_seq; [apply spec_call; auto|]. intros sdf. apply spec_call; auto.
    - intros e. apply spec_seq; [apply spec_emit; auto|]. intros _. now apply spec_ret.
    - intros ob_mol _.
      apply spec_seq; [apply spec_ensure_output_dir; auto|]. intros _.
      apply spec_seq.
      { apply spec_for_each. intros fmt _. apply spec_write_format; auto. }
      intros _. apply spec_seq.
      { apply spec_try_catch.
        - eapply spec_any. apply spec_compute_properties. auto.
        - intros e. apply spec_seq; [apply spec_emit; auto|]. intros _. now apply spec_ret. }
      intros props. now apply spec_ret. }
  pose proof (spec_events fs Hrest) as Hev.
  assert (Hgen : generate_3d chosen output_base num_confs true (Some [chosen]) fs =
                 (let '(r, fs', t) := rest fs in
                  (r, fs', [CallMolFromSmiles chosen; CallAddHs mol0;
                            CallEmbed mol1 num_confs 42%Z true] ++ t_opt ++ t))).
  { unfold generate_3d.
    unfold bind at 1. unfold call at 1. rewrite Hparse.
    unfold bind at 1. unfold call at 1. rewrite Hhs.
    unfold try_then at 1. unfold call at 1. rewrite Hembed.
    unfold bind at 1. fold ids. rewrite Hopt. fold mol. fold rest.
    destruct (rest fs) as [[r fs'] t]. reflexivity. }
  unfold smiles_to_3d, try_catch, try_then. rewrite Hgen.
  destruct (rest fs) as [[r fs'] t]. unfold events in Hev. cbn [snd] in Hev.
  assert (Hmain : mmff_ids ([CallMolFromSmiles chosen; CallAddHs mol0;
                             CallEmbed mol1 num_confs 42%Z true] ++ t_opt ++ t) = ids).
  { rewrite !mmff_ids_app, Hids, (mmff_ids_none Hev). cbn. now rewrite app_nil_r. }
  destruct r as [a|e]; unfold on_error, bind, log_error, emit, ret, events; cbn [fst snd];
    rewrite mmff_ids_app, Hmain; cbn; now rewrite app_nil_r.
Qed.

End Conformers.

(** ** The file of protonation states *)

Section StatesFile.

Context {L : ChemLibs}.





(** [batch_process] with protonation, as one run of the loop between the
    opening and the closing of the file of states. *)
Lemma batch_process_shape input_file output_dir reference fp_type radius n_bits ph_min ph_max
    num_confs fs :
  let path := Py.path_join output_dir "protonation_states.txt" in
  let fs1 := append_file path states_header (set_file path [] fs) in
  let opening := [FileOpenW path; FileWrite path states_header] in
  exists t_ref,
    Forall (fun ev => is_open_close ev = false /\ is_file_write ev = false) t_ref /\
    batch_process input_file output_dir reference fp_type radius n_bits true
      ph_min ph_max num_confs fs =
    match reference_parse reference with
    | Raise e => (Raise e, fs, t_ref)
    | Ok parsed =>
        match lookup_file input_file (files fs1) with
        | None => (Raise (FileNotFoundError input_file), fs1, t_ref ++ opening)
        | Some lines =>
            let loop := batch_loop output_dir parsed fp_type radius n_bits true ph_min ph_max
                          num_confs (Some path) lines fs1 in
            match outcome loop with
            | Ok _ =>
                (Ok tt, final_fs loop,
                 t_ref ++ opening ++ events loop ++
                 [FileClose path; Print (StatesSavedTo path)])
            | Raise e => (Raise e, final_fs loop, t_ref ++ opening ++ events loop)
            end
        end
    end.
Proof.
  intros path fs1 opening. unfold batch_process.
  assert (Href : exists t_ref,
             Forall (fun ev => is_open_close ev = false /\ is_file_write ev = false) t_ref /\
             (match reference with
              | Some reference =>
                  if Py.truthy reference then
                    parsed <- call (CallMolFromSmiles reference) (MolFromSmiles reference) ;;
                    match parsed with
                    | None => log_error (InvalidReference reference) ;; ret None
                    | Some m => ret (Some m)
                    end
                  else ret None
              | None => ret None
              end) fs = (reference_parse reference, fs, t_ref)).
  { unfold reference_parse. destruct reference as [reference|]; [|exists []; auto].
    destruct (Py.truthy reference); [|exists []; auto].
    unfold bind, call, log_error, emit, ret.
    destruct (MolFromSmiles reference) as [[m|]|e]; eexists;
      (split; [|reflexivity]); repeat constructor. }
  destruct Href as [t_ref [Hquiet Href]]. exists t_ref. split; [exact Hquiet|].
  unfold bind at 1. rewrite Href.
  destruct (reference_parse reference) as [ref_mol|e]; [|reflexivity].
  unfold bind at 1.
  assert (Hopen : (open_w path ;; file_write path states_header ;; ret (Some path)) fs =
                  (Ok (Some path), fs1, opening)) by reflexivity.
  fold path. rewrite Hopen.
  unfold bind at 1. unfold open_r, bind at 1, read_fs.
  destruct (lookup_file input_file (files fs1)) as [lines|]; [|reflexivity].
  unfold ret at 1. unfold bind at 1. cbv zeta.
  destruct (batch_loop output_dir ref_mol fp_type radius n_bits true ph_min ph_max num_confs
              (Some path) lines fs1) as [[[[]|e] fs2] t_loop];
    unfold file_close, bind, print, emit, events, outcome, final_fs; cbn [fst snd];
    rewrite <- ?app_assoc; reflexivity.
Qed.




Lemma spec_with_post A (p p' : Event -> Prop) (Q Q' : A -> Prop) (E : Exn -> Prop)
    (m : M A) :
  spec p Q m -> spec_exn p' Q' E m -> spec p (fun a => Q a /\ Q' a) m.
Proof.
  intros H1 H2 fs. destruct (H1 fs) as [Hev Hq]. destruct (H2 fs) as [_ Hq'].
  split; [exact Hev|]. destruct (outcome (m fs)); auto.
Qed.

Lemma enumerate_in A (xs : list A) i x : In (i, x) (Py.enumerate xs) -> In x xs.
Proof. intros H. apply enumerate_nth in H. eapply nth_error_In; eauto. Qed.

Lemma spec_process_line_rows output_dir ref_mol fp_type radius n_bits ph_min ph_max
    num_confs path lines idx line :
  In line lines ->
  spec (states_line path lines ph_min ph_max) (fun _ => True)
    (process_line output_dir ref_mol fp_type radius n_bits true ph_min ph_max
       num_confs (Some path) idx line).
Proof.
  intros Hin. unfold process_line.
  destruct (Py.truthy (Py.strip line)); [|now apply spec_ret].
  set (smiles := Py.strip line).
  set (base := Py.path_join output_dir ("mol_" ++ Py.str_of_nat (idx + 1))%string).
  apply spec_bind
    with (Q1 := fun r : Ret3 => snd r = Some (variants_of smiles true ph_min ph_max)).
  { eapply spec_weaken.
    - exact (spec_with_post
               (spec_smiles_to_3d smiles base num_confs true true ph_min ph_max)
               (sx_smiles_to_3d smiles base num_confs true true ph_min ph_max)).
    - intros ev [[_ H]|[s [_ H]]]; destruct ev; simpl in *; auto; contradiction.
    - intros r [_ [Hv _]]. exact Hv. }
  intros [[mol props] variants] Hv. cbn [fst snd] in *. subst variants.
  destruct (truthy_props props); [|now apply spec_ret].
  apply spec_seq; [apply spec_emit; exact I|]. intros _.
  apply spec_seq; [apply spec_emit; exact I|]. intros _.
  apply spec_seq.
  { cbn [andb].
    destruct (truthy_list (Some (variants_of smiles true ph_min ph_max)));
      [|now apply spec_ret].
    apply spec_for_each. intros variant Hvar. apply spec_file_write.
    split; [reflexivity|]. right. exists line, variant. auto. }
  intros _. destruct ref_mol as [m|]; [|now apply spec_ret].
  apply spec_score. intros ev Hev. destruct ev; simpl in *; auto; discriminate.
Qed.

(** X15. In a batch run with protonation every write through a Python file
    goes to [protonation_states.txt] of the output directory, and what is
    written is
    the header or a row made of the stripped text of a line of the input
    file, one of the variants [smiles_to_3d] returned for that line (those
    of Dimorphite-DL, or the line's own SMILES when Dimorphite-DL raised),
    and the range of pH. *)
Theorem states_rows_pair_lines_with_variants input_file output_dir reference fp_type radius
    n_bits ph_min ph_max num_confs fs lines :
  let path := Py.path_join output_dir "protonation_states.txt" in
  input_file <> path ->
  lookup_file input_file (files fs) = Some lines ->
  Forall (states_line path lines ph_min ph_max)
    (events (batch_process input_file output_dir reference fp_type radius n_bits true
               ph_min ph_max num_confs fs)).
Proof.
  intros path Hne Hlines.
  destruct (batch_process_shape input_file output_dir reference fp_type radius n_bits
              ph_min ph_max num_confs fs) as [t_ref [Hquiet Hrun]].
  cbv zeta in Hrun. fold path in Hrun. rewrite Hrun. clear Hrun.
  assert (Href : Forall (states_line path lines ph_min ph_max) t_ref).
  { eapply Forall_impl; [|exact Hquiet].
    intros ev [_ H]. destruct ev; simpl in *; auto; discriminate. }
  assert (Hopening : Forall (states_line path lines ph_min ph_max)
                       [FileOpenW path; FileWrite path states_header]).
  { repeat constructor; simpl; auto. }
  destruct (reference_parse reference) as [ref_mol|e]; [|exact Href].
  rewrite lookup_file_append_other by exact Hne.
  assert (Hset : lookup_file input_file (files (set_file path [] fs)) = Some lines).
  { simpl. destruct (String.eqb path input_file) eqn:E; [|exact Hlines].
    apply String.eqb_eq in E. congruence. }
  rewrite Hset.
  set (fs1 := append_file path states_header (set_file path [] fs)).
  assert (Hloop : Forall (states_line path lines ph_min ph_max)
                    (events (batch_loop output_dir ref_mol fp_type radius n_bits true
                               ph_min ph_max num_confs (Some path) lines fs1))).
  { apply spec_events with (Q := fun _ => True).
    unfold batch_loop. apply spec_for_each. intros [idx line] Hin. cbn [fst snd].
    apply spec_process_line_rows. eapply enumerate_in; eauto. }
  destruct (outcome (batch_loop output_dir ref_mol fp_type radius n_bits true ph_min ph_max
                       num_confs (Some path) lines fs1)) as [[]|e];
    unfold events at 1; cbn [snd]; repeat (apply Forall_app; split); auto.
  repeat constructor.
Qed.

End StatesFile.

(** ** What the callers do with the result *)

Section CallerEdges.

Context {L : ChemLibs}.

Lemma footprint_not_report smiles output_base num_confs optimize protonate ph_min ph_max ev :
  smiles_to_3d_footprint smiles output_base num_confs optimize protonate ph_min ph_max ev ->
  is_report ev = false /\ is_similarity ev = false.
Proof.
  intros [[_ H]|[s [_ H]]]; destruct ev as [| | | | | | | | | | | | | | | |m|m|m];
    simpl in *; try tauto; destruct m; simpl in *; tauto.
Qed.

(** X16. When [smiles_to_3d] hands back a molecule with an empty dictionary
    of properties (the property calculation failed), [single_process] ends
    normally without a word: the four files were tried, but nothing is
    reported, and no similarity is computed even if a reference was given. *)
Theorem files_without_report smiles output_base num_confs reference fp_type radius n_bits
    protonate ph_min ph_max fs mol variants :
  outcome (smiles_to_3d smiles output_base num_confs true protonate ph_min ph_max fs)
    = Ok (Some mol, Some [], variants) ->
  let run := single_process smiles output_base num_confs reference fp_type radius n_bits
               protonate ph_min ph_max fs in
  outcome run = Ok tt /\
  written_files (events run) = output_names output_base /\
  Forall (fun ev => is_report ev = false /\ is_similarity ev = false) (events run).
Proof.
  intros Hout run.
  pose proof (att_smiles_to_3d smiles output_base num_confs true protonate ph_min ph_max fs)
    as Hatt.
  pose proof (spec_events fs
                (spec_smiles_to_3d smiles output_base num_confs true protonate ph_min ph_max))
    as Hev.
  rewrite Hout in Hatt. cbn [attempted] in Hatt.
  assert (Hrun : run =
            (Ok tt,
             final_fs (smiles_to_3d smiles output_base num_confs true protonate
                         ph_min ph_max fs),
             events (smiles_to_3d smiles output_base num_confs true protonate
                       ph_min ph_max fs))).
  { subst run. unfold single_process, bind.
    destruct (smiles_to_3d smiles output_base num_confs true protonate ph_min ph_max fs)
      as [[r fs'] t].
    unfold outcome in Hout. cbn [fst] in Hout. subst r.
    unfold ret, final_fs, events. cbn [fst snd truthy_props]. now rewrite app_nil_r. }
  rewrite Hrun. unfold outcome at 1, events at 1 3. cbn [fst snd].
  split; [reflexivity|]. split; [exact Hatt|].
  eapply Forall_impl; [|exact Hev]. intros ev. apply footprint_not_report.
Qed.

(** X17. In batch mode (the input names an existing file) an output path
    that is an existing regular file stops the run at once: [os.makedirs]
    raises [FileExistsError], nothing is read, converted or written. *)
Theorem batch_output_must_not_be_a_file (args : Args) input fs :
  arg_input args = Some input ->
  isfile input fs = true ->
  isfile (arg_output args) fs = true ->
  main args fs =
  (Raise (FileExistsError (arg_output args)), fs, [MakeDirs (arg_output args)]).
Proof.
  intros Hin Hfile Hout. unfold main. rewrite Hin.
  unfold bind at 1. unfold read_fs at 1. rewrite Hfile.
  unfold bind at 1. unfold makedirs, bind at 1, emit, bind at 1, read_fs.
  now rewrite Hout.
Qed.

End CallerEdges.

(** ** The names of the files of a batch *)

Section BatchNames.

Context {L : ChemLibs}.

Lemma str_of_nat_inj i j : Py.str_of_nat i = Py.str_of_nat j -> i = j.
Proof.
  unfold Py.str_of_nat. intros H.
  apply (f_equal NilEmpty.uint_of_string) in H. rewrite !NilEmpty.usu in H.
  inversion H as [H']. now apply Unsigned.to_uint_inj.
Qed.

Lemma digits_string_of_uint d : digits_only (NilEmpty.string_of_uint d) = true.
Proof. induction d; simpl; auto. Qed.

Lemma digits_split a : forall b x y,
  digits_only a = true -> digits_only b = true ->
  (a ++ String "." x = b ++ String "." y)%string -> a = b /\ x = y.
Proof.
  induction a as [|c a IH]; intros [|d b] x y Ha Hb H; simpl in *.
  - inversion H. auto.
  - inversion H; subst. discriminate.
  - inversion H; subst. discriminate.
  - inversion H; subst.
    apply andb_true_iff in Ha. apply andb_true_iff in Hb.
    destruct (IH b x y) as [-> ->]; tauto.
Qed.

Lemma append_assoc (a b c : string) : ((a ++ b) ++ c = a ++ (b ++ c))%string.
Proof. induction a as [|x a IH]; simpl; [reflexivity | now rewrite IH]. Qed.

(** [os.path.join] with a second part that is not absolute puts a prefix
    before it that depends on the first part only. *)
Lemma path_join_prefix dir :
  exists prefix, forall b,
    Py.starts_with_slash b = false -> Py.path_join dir b = (prefix ++ b)%string.
Proof.
  destruct (Py.is_empty dir || Py.ends_with_slash dir) eqn:E.
  - exists dir. intros b Hb. unfold Py.path_join. now rewrite Hb, E.
  - exists (dir ++ "/")%string. intros b Hb. unfold Py.path_join. rewrite Hb, E.
    now rewrite append_assoc.
Qed.

Lemma batch_output_inj output_dir i j fmt fmt' :
  batch_output output_dir i fmt = batch_output output_dir j fmt' -> i = j /\ fmt = fmt'.
Proof.
  unfold batch_output. destruct (path_join_prefix output_dir) as [prefix Hp].
  rewrite !Hp by reflexivity. rewrite !append_assoc. intros H.
  apply append_inj in H. apply (append_inj "mol_") in H.
  apply digits_split in H; try apply digits_string_of_uint.
  destruct H as [Hn Hf]. split; [|exact Hf].
  apply str_of_nat_inj in Hn. lia.
Qed.

Lemma batch_output_not_states output_dir i fmt :
  batch_output output_dir i fmt <> Py.path_join output_dir "protonation_states.txt".
Proof.
  unfold batch_output. destruct (path_join_prefix output_dir) as [prefix Hp].
  rewrite !Hp by reflexivity. rewrite !append_assoc. intros H.
  apply append_inj in H. discriminate.
Qed.

(** X18. In a batch run the files of different lines have different names,
    and none of them is the file of protonation states: processing line
    [j] leaves every file [mol_<i+1>.<format>] of another line [i] as it
    was. *)
Theorem lines_do_not_overwrite_each_other output_dir ref_mol fp_type radius n_bits protonate
    ph_min ph_max num_confs protonation_file i j fmt line fs :
  i <> j ->
  (forall p, protonation_file = Some p ->
             p = Py.path_join output_dir "protonation_states.txt") ->
  lookup_file (batch_output output_dir i fmt)
    (files (final_fs (process_line output_dir ref_mol fp_type radius n_bits protonate
                        ph_min ph_max num_confs protonation_file j line fs))) =
  lookup_file (batch_output output_dir i fmt) (files fs).
Proof.
  intros Hij Hpf. set (path := Py.path_join output_dir "protonation_states.txt").
  set (allowed := fun p =>
         output_paths (Py.path_join output_dir ("mol_" ++ Py.str_of_nat (j + 1))%string) p \/
         p = path).
  destruct (@pres_process_line L allowed output_dir ref_mol fp_type radius n_bits protonate
              ph_min ph_max num_confs protonation_file j line) with (fs := fs) as [Hkeep _].
  - intros p Hp. now left.
  - intros p Hp. right. now apply Hpf.
  - apply Hkeep. intros [Hin|Hst].
    + unfold output_paths, output_names in Hin. apply in_map_iff in Hin.
      destruct Hin as [fmt' [Heq _]].
      change (batch_output output_dir j fmt' = batch_output output_dir i fmt) in Heq.
      apply batch_output_inj in Heq. destruct Heq as [Heq _]. congruence.
    + now apply batch_output_not_states in Hst.
Qed.

End BatchNames.

(** ** Blank lines *)

Section BlankLines.

Context {L : ChemLibs}.

Lemma lstrip_all_space s : all_space s = true -> Py.lstrip s = EmptyString.
Proof.
  induction s as [|c s IH]; simpl; [reflexivity|].
  intros H. apply andb_true_iff in H. destruct H as [Hc Hs]. rewrite Hc. auto.
Qed.

Lemma lstrip_first s :
  all_space s = false ->
  exists c rest, Py.lstrip s = String c rest /\ Py.is_space c = false.
Proof.
  induction s as [|c s IH]; simpl; [discriminate|].
  destruct (Py.is_space c) eqn:E; simpl; [exact IH|].
  intros _. exists c, s. auto.
Qed.

Lemma strip_truthy s : Py.truthy (Py.strip s) = negb (all_space s).
Proof.
  unfold Py.strip. destruct (all_space s) eqn:E.
  - now rewrite lstrip_all_space.
  - destruct (lstrip_first s E) as [c [rest [-> Hc]]]. simpl. now rewrite Hc.
Qed.

Lemma smiles_to_3d_starts smiles output_base num_confs optimize protonate ph_min ph_max fs :
  hd_error (events (smiles_to_3d smiles output_base num_confs optimize protonate
                      ph_min ph_max fs)) =
  Some (if protonate then CallProtonate smiles ph_min ph_max float_1_0 128%Z
        else CallMolFromSmiles smiles).
Proof.
  unfold smiles_to_3d. destruct protonate.
  - rewrite events_try_then. rewrite protonate_smiles_run.
    destruct (dimorphite_protonate_smiles smiles ph_min ph_max float_1_0 128%Z);
      reflexivity.
  - unfold try_catch. rewrite events_try_then. unfold generate_3d.
    rewrite events_bind. reflexivity.
Qed.

(** X19. A line of the input file is skipped, without any event and
    without touching the file system, exactly when it consists of white
    space only; any other line starts with the protonation (under
    [--protonate]) or the parsing of its text without the surrounding white
    space. *)
Theorem blank_lines_are_skipped output_dir ref_mol fp_type radius n_bits protonate
    ph_min ph_max num_confs protonation_file idx line fs :
  let run := process_line output_dir ref_mol fp_type radius n_bits protonate ph_min ph_max
               num_confs protonation_file idx line fs in
  if all_space line then run = (Ok tt, fs, [])
  else hd_error (events run) =
       Some (if protonate
             then CallProtonate (Py.strip line) ph_min ph_max float_1_0 128%Z
             else CallMolFromSmiles (Py.strip line)).
Proof.
  intros run. subst run. pose proof (strip_truthy line) as Hs.
  destruct (all_space line); simpl in Hs.
  - now apply process_line_blank.
  - unfold process_line. rewrite Hs. rewrite events_bind.
    pose proof (smiles_to_3d_starts (Py.strip line)
                  (Py.path_join output_dir ("mol_" ++ Py.str_of_nat (idx + 1))%string)
                  num_confs true protonate ph_min ph_max fs) as Hhd.
    destruct (events (smiles_to_3d (Py.strip line)
                        (Py.path_join output_dir ("mol_" ++ Py.str_of_nat (idx + 1))%string)
                        num_confs true protonate ph_min ph_max fs)) as [|ev t];
      [discriminate|exact Hhd].
Qed.

End BlankLines.

(** ** The reference molecule of a batch *)

Section Reference.

Context {L : ChemLibs}.

Lemma bind_run A B (m : M A) (k : A -> M B) fs a fs1 t :
  m fs = (Ok a, fs1, t) ->
  bind m k fs = (outcome (k a fs1), final_fs (k a fs1), t ++ events (k a fs1)).
Proof.
  intros H. unfold bind. rewrite H. now destruct (k a fs1) as [[r fs2] t2].
Qed.

(** X20. A batch run with a reference SMILES that RDKit cannot parse logs
    the error once, at the start, and then goes on exactly as a run without
    reference: same result, same file system, same events after the two of
    the failed parse. *)
Theorem invalid_reference_is_no_reference input_file output_dir reference fp_type radius
    n_bits protonate ph_min ph_max num_confs fs :
  Py.truthy reference = true ->
  MolFromSmiles reference = Ok None ->
  let given := batch_process input_file output_dir (Some reference) fp_type radius n_bits
                 protonate ph_min ph_max num_confs fs in
  let without := batch_process input_file output_dir None fp_type radius n_bits
                   protonate ph_min ph_max num_confs fs in
  outcome given = outcome without /\
  final_fs given = final_fs without /\
  events given =
    CallMolFromSmiles reference :: LogError (InvalidReference reference) :: events without.
Proof.
  intros Ht Hparse given without. subst given without. unfold batch_process.
  rewrite Ht.
  rewrite (@bind_run _ _ (ret None) _ fs None fs [] eq_refl).
  erewrite (@bind_run _ _ _ _ fs None fs
              [CallMolFromSmiles reference; LogError (InvalidReference reference)]).
  2:{ unfold bind, call, log_error, emit, ret. rewrite Hparse. reflexivity. }
  unfold outcome at 1 3, final_fs at 1 3, events at 1 3. cbn [fst snd app]. auto.
Qed.

End Reference.

(** ** The theorems above on the toy libraries *)

Lemma smiles_to_3d_returns_processed_molecule_witness :
  let run := smiles_to_3d (L := Toy.libs) "CCO" "output" 10%Z true false 6%Z 8%Z
               Toy.empty_fs in
  outcome run = Ok (Some (Toy.mol "CCO" true 2 2), Some toy_props, Some ["CCO"]) /\
  ((Some (Toy.mol "CCO" true 2 2) = None /\ Some toy_props = None) \/
   (exists chosen mol0 mol1 mol2 p,
       chosen_smiles (L := Toy.libs) "CCO" false 6%Z 8%Z = Some chosen /\
       MolFromSmiles chosen = Ok (Some mol0) /\
       AddHs mol0 = Ok mol1 /\
       EmbedMultipleConfs mol1 10%Z 42%Z true = Ok mol2 /\
       Some (Toy.mol "CCO" true 2 2) =
         Some (if true
               then optimized_mol mol2 (seq 0 (@GetNumConformers Toy.libs mol2))
               else mol2) /\
       Some toy_props = Some p)).
Proof.
  split; [reflexivity|].
  exact (@smiles_to_3d_returns_processed_molecule Toy.libs "CCO" "output" 10%Z true
           false 6%Z 8%Z Toy.empty_fs _ _ _ eq_refl).
Defined.

Lemma properties_all_or_nothing_witness :
  let run := smiles_to_3d (L := Toy.libs) "CCO" "output" 10%Z true false 6%Z 8%Z
               Toy.empty_fs in
  outcome run = Ok (Some (Toy.mol "CCO" true 2 2), Some toy_props, Some ["CCO"]) /\
  exists m,
    Some (Toy.mol "CCO" true 2 2) = Some m /\
    ((toy_props = [] /\
      exists e, properties_result (L := Toy.libs) m descriptor_table = Raise e) \/
     (map fst toy_props =
        ["Molecular Weight"; "Crippen_LogP"; "Crippen_MR"; "H-Bond Donors";
         "H-Bond Acceptors"; "TPSA"; "Rotatable Bonds"; "#Aliphatic Rings";
         "#Aromatic Rings"; "#Heteroaromatic Rings"] /\
      Forall2 (fun kd kv => @descriptor Toy.libs (snd kd) m = Ok (snd kv))
        descriptor_table toy_props)).
Proof.
  split; [reflexivity|].
  exact (@properties_all_or_nothing Toy.libs "CCO" "output" 10%Z true false 6%Z 8%Z
           Toy.empty_fs _ _ _ eq_refl).
Defined.

Lemma smiles_to_3d_empty_variants_witness :
  @dimorphite_protonate_smiles barren_libs "CCO" 6%Z 8%Z 1%Z 128%Z = Ok [] /\
  smiles_to_3d (L := barren_libs) "CCO" "output" 10%Z true true 6%Z 8%Z Toy.empty_fs =
  (Ok (None, None, Some []), Toy.empty_fs,
   [CallProtonate (L := barren_libs) "CCO" 6%Z 8%Z 1%Z 128%Z;
    Print (GeneratedStates (L := barren_libs) 0 6%Z 8%Z);
    LogError (ErrorProcessing "CCO" IndexError)]).
Proof.
  split; [reflexivity|].
  exact (@smiles_to_3d_empty_variants barren_libs "CCO" "output" 10%Z true 6%Z 8%Z
           Toy.empty_fs eq_refl).
Defined.

Lemma smiles_to_3d_keeps_other_files_witness :
  ~ In "in.smi" (output_names "out/mol_1") /\
  lookup_file "in.smi"
    (files (final_fs (smiles_to_3d (L := Toy.libs) "CCO" "out/mol_1" 10%Z true false
                        6%Z 8%Z Toy.batch_fs))) =
  lookup_file "in.smi" (files Toy.batch_fs).
Proof.
  assert (H : ~ In "in.smi" (output_names "out/mol_1")).
  { simpl. intuition discriminate. }
  split; [exact H|].
  exact (@smiles_to_3d_keeps_other_files Toy.libs "CCO" "out/mol_1" 10%Z true false
           6%Z 8%Z Toy.batch_fs "in.smi" H).
Defined.

Lemma written_files_hold_the_export_witness :
  let run := smiles_to_3d (L := Toy.libs) "CCO" "output" 10%Z true false 6%Z 8%Z
               Toy.empty_fs in
  outcome run = Ok (Some (Toy.mol "CCO" true 2 2), Some toy_props, Some ["CCO"]) /\
  exists sdf ob_mol,
    @MolToMolBlock Toy.libs (Toy.mol "CCO" true 2 2) = Ok sdf /\
    @pybel_readstring Toy.libs "mol" sdf = Ok ob_mol /\
    forall fmt content,
      In fmt formats ->
      @pybel_write Toy.libs ob_mol fmt ("output" ++ "." ++ fmt)%string true
        = Ok content ->
      lookup_file ("output" ++ "." ++ fmt)%string (files (final_fs run)) = Some content.
Proof.
  split; [reflexivity|].
  exact (@written_files_hold_the_export Toy.libs "CCO" "output" 10%Z true false
           6%Z 8%Z Toy.empty_fs _ _ _ eq_refl).
Defined.

Lemma main_keeps_other_files_witness :
  ~ run_paths (Toy.args_for "in.smi" true None) Toy.batch_fs "in.smi" /\
  lookup_file "in.smi"
    (files (final_fs (main (Toy.args_for "in.smi" true None) Toy.batch_fs))) =
  lookup_file "in.smi" (files Toy.batch_fs).
Proof.
  assert (H : ~ run_paths (Toy.args_for "in.smi" true None) Toy.batch_fs "in.smi").
  { unfold run_paths, batch_paths, output_paths, output_names. simpl.
    intros [[i Hin]|Heq]; [intuition discriminate | discriminate]. }
  split; [exact H|].
  exact (@main_keeps_other_files Toy.libs (Toy.args_for "in.smi" true None) Toy.batch_fs
           "in.smi" H).
Defined.

Lemma every_conformer_is_tried_witness :
  mmff_ids (events (smiles_to_3d (L := Toy.libs) "CC(=O)O" "output" 10%Z true true
                      6%Z 8%Z Toy.empty_fs)) = [0; 1].
Proof.
  exact (@every_conformer_is_tried Toy.libs "CC(=O)O" "output" 10%Z true 6%Z 8%Z
           Toy.empty_fs "CC(=O)[O-]"
           (Toy.mol "CC(=O)[O-]" false 0 0) (Toy.mol "CC(=O)[O-]" true 0 0)
           (Toy.mol "CC(=O)[O-]" true 2 0) eq_refl eq_refl eq_refl eq_refl).
Defined.


Lemma states_rows_pair_lines_with_variants_witness :
  Forall (states_line (L := Toy.libs) "out/protonation_states.txt"
            [("CCO" ++ Py.newline)%string; Py.newline; ("CC" ++ Py.newline)%string]
            6%Z 8%Z)
    (events (batch_process (L := Toy.libs) "in.smi" "out" None "morgan" 2%Z 2048%Z true
               6%Z 8%Z 10%Z Toy.batch_fs)).
Proof.
  assert (H : "in.smi" <> Py.path_join "out" "protonation_states.txt") by discriminate.
  exact (@states_rows_pair_lines_with_variants Toy.libs "in.smi" "out" None "morgan"
           2%Z 2048%Z 6%Z 8%Z 10%Z Toy.batch_fs _ H eq_refl).
Defined.

Lemma files_without_report_witness :
  let run := single_process (L := Toy.libs) "noprops" "output" 10%Z (Some "CCO") "morgan"
               2%Z 2048%Z false 6%Z 8%Z Toy.empty_fs in
  outcome run = Ok tt /\
  written_files (events run) = output_names "output" /\
  Forall (fun ev => is_report ev = false /\ is_similarity ev = false) (events run).
Proof.
  exact (@files_without_report Toy.libs "noprops" "output" 10%Z (Some "CCO") "morgan"
           2%Z 2048%Z false 6%Z 8%Z Toy.empty_fs
           (Toy.mol "noprops" true 2 2) (Some ["noprops"]) eq_refl).
Defined.

Lemma batch_output_must_not_be_a_file_witness :
  isfile "in.smi" clash_fs = true /\ isfile "output" clash_fs = true /\
  main (Toy.args_for "in.smi" false None) clash_fs =
  (Raise (FileExistsError "output"), clash_fs, [MakeDirs (L := Toy.libs) "output"]).
Proof.
  split; [reflexivity|]. split; [reflexivity|].
  exact (@batch_output_must_not_be_a_file Toy.libs (Toy.args_for "in.smi" false None)
           "in.smi" clash_fs eq_refl eq_refl eq_refl).
Defined.

Lemma lines_do_not_overwrite_each_other_witness :
  lookup_file (batch_output "out" 0 "pdb")
    (files (final_fs (process_line (L := Toy.libs) "out" None "morgan" 2%Z 2048%Z true
                        6%Z 8%Z 10%Z (Some "out/protonation_states.txt") 2
                        ("CC" ++ Py.newline)%string Toy.later_fs))) =
  Some ["stale"].
Proof.
  assert (Hij : 0 <> 2) by discriminate.
  assert (Hpf : forall p, Some "out/protonation_states.txt" = Some p ->
                          p = Py.path_join "out" "protonation_states.txt").
  { intros p Hp. inversion Hp. reflexivity. }
  exact (@lines_do_not_overwrite_each_other Toy.libs "out" None "morgan" 2%Z 2048%Z
           true 6%Z 8%Z 10%Z (Some "out/protonation_states.txt") 0 2 "pdb"
           ("CC" ++ Py.newline)%string Toy.later_fs Hij Hpf).
Defined.

Lemma invalid_reference_is_no_reference_witness :
  let given := batch_process (L := Toy.libs) "in.smi" "out" (Some "XX") "morgan" 2%Z 2048%Z
                 false 6%Z 8%Z 10%Z Toy.batch_fs in
  let without := batch_process (L := Toy.libs) "in.smi" "out" None "morgan" 2%Z 2048%Z
                   false 6%Z 8%Z 10%Z Toy.batch_fs in
  @MolFromSmiles Toy.libs "XX" = Ok None /\
  outcome given = outcome without /\
  final_fs given = final_fs without /\
  events given =
    CallMolFromSmiles "XX" :: LogError (InvalidReference "XX") :: events without.
Proof.
  split; [reflexivity|].
  exact (@invalid_reference_is_no_reference Toy.libs "in.smi" "out" "XX" "morgan"
           2%Z 2048%Z false 6%Z 8%Z 10%Z Toy.batch_fs eq_refl eq_refl).
Defined.
